(** * Access-control model of the SignalSafe API

    A shallow embedding of the two Express servers of the repository,
    [API_node.js] and the refactored server that moves the token check
    into the [verificarAutenticacao] middleware.  Every route handler is
    a function from a request and a world (the Supabase collaborators'
    state) to a response and a new world. *)

From Stdlib Require Import List String Ascii NArith ZArith Bool Arith Lia.
From Stdlib Require Import Permutation Sorted.
Import ListNotations.

Set Implicit Arguments.

(* ===================================================================== *)
(** * JavaScript strings *)
(* ===================================================================== *)

(** A JavaScript string is a sequence of UTF-16 code units; [.length]
    counts code units and a regular expression without the [u] flag
    matches code unit by code unit. *)
Definition char16 := N.
Definition jstring := list char16.

(** The code units of an ASCII source literal. *)
Definition js (s : string) : jstring :=
  map N_of_ascii (list_ascii_of_string s).

Fixpoint jstring_eqb (a b : jstring) : bool :=
  match a, b with
  | [], [] => true
  | x :: a', y :: b' => N.eqb x y && jstring_eqb a' b'
  | _, _ => false
  end.

(** [s.startsWith(p)] and the rest of [s] after the prefix. *)
Fixpoint strip_prefix (p s : jstring) : option jstring :=
  match p, s with
  | [], _ => Some s
  | x :: p', y :: s' => if N.eqb x y then strip_prefix p' s' else None
  | _ :: _, [] => None
  end.

(** [s.replace(pat, '')] with a string pattern: the first occurrence of
    [pat] is removed, wherever it stands; a string without it is returned
    as it is. *)
Fixpoint remove_first (pat s : jstring) : jstring :=
  match strip_prefix pat s with
  | Some rest => rest
  | None =>
      match s with
      | [] => []
      | c :: s' => c :: remove_first pat s'
      end
  end.

(** An optional value as a request carries it: [None] is [undefined]. *)
Definition truthy (o : option jstring) : bool :=
  match o with
  | Some (_ :: _) => true
  | _ => false
  end.

(* ===================================================================== *)
(** * JSON values *)
(* ===================================================================== *)

(** A value as [express.json()] hands it to a handler in [req.body].  A
    number is the fraction [numerator / denominator]: every finite
    double is one. *)
#[local] Unset Elimination Schemes.
Inductive JsValue : Type :=
| JsNull
| JsBool (b : bool)
| JsNumber (numerator : Z) (denominator : positive)
| JsString (s : jstring)
| JsArray (items : list JsValue)
| JsObject (fields : list (jstring * JsValue)).
#[local] Set Elimination Schemes.

(** [!!v] for a field of the body; [None] is [undefined]. *)
Definition truthy_value (o : option JsValue) : bool :=
  match o with
  | None => false
  | Some JsNull => false
  | Some (JsBool b) => b
  | Some (JsNumber n _) => negb (Z.eqb n 0)
  | Some (JsString []) => false
  | Some (JsString (_ :: _)) => true
  | Some (JsArray _) => true
  | Some (JsObject _) => true
  end.

(** The value of a field once it is known to be there. *)
Definition value (o : option JsValue) : JsValue :=
  match o with
  | Some v => v
  | None => JsNull
  end.

(** [o[name]] for a parsed object: of two members with one name
    [JSON.parse] keeps the later. *)
Fixpoint get_field (name : jstring) (fields : list (jstring * JsValue))
  : option JsValue :=
  match fields with
  | [] => None
  | (k, v) :: rest =>
      match get_field name rest with
      | Some later => Some later
      | None => if jstring_eqb k name then Some v else None
      end
  end.

(** [v.length]: the code units of a string, the items of an array, the
    member of that name of an object, and [undefined] ([None]) for a
    number or a boolean.  Both handlers read it of a truthy value only,
    so the read of [null], which throws, never happens. *)
Definition js_length (v : JsValue) : option JsValue :=
  match v with
  | JsString s => Some (JsNumber (Z.of_nat (List.length s)) 1)
  | JsArray items => Some (JsNumber (Z.of_nat (List.length items)) 1)
  | JsObject fields => get_field (js "length") fields
  | JsNull | JsBool _ | JsNumber _ _ => None
  end.

(* ===================================================================== *)
(** * Regular expressions *)
(* ===================================================================== *)

(** The fragment of regular expressions the source uses: character
    classes, literal characters, concatenation and [+].  A pattern
    anchored with [^] and [$] (no [m] flag) has to match the whole
    input. *)
Module Regex.

Inductive re : Type :=
| Void
| Eps
| Class (p : char16 -> bool)
| Cat (r1 r2 : re)
| Alt (r1 r2 : re)
| Star (r : re).

Definition Chr (c : char16) : re := Class (N.eqb c).
Definition Plus (r : re) : re := Cat r (Star r).

(** The language of an expression. *)
Inductive lang : re -> jstring -> Prop :=
| LEps : lang Eps []
| LClass p c : p c = true -> lang (Class p) [c]
| LCat r1 r2 s1 s2 : lang r1 s1 -> lang r2 s2 -> lang (Cat r1 r2) (s1 ++ s2)
| LAltL r1 r2 s : lang r1 s -> lang (Alt r1 r2) s
| LAltR r1 r2 s : lang r2 s -> lang (Alt r1 r2) s
| LStar0 r : lang (Star r) []
| LStarS r s1 s2 : lang r s1 -> lang (Star r) s2 -> lang (Star r) (s1 ++ s2).

Fixpoint nullable (r : re) : bool :=
  match r with
  | Void => false
  | Eps => true
  | Class _ => false
  | Cat r1 r2 => nullable r1 && nullable r2
  | Alt r1 r2 => nullable r1 || nullable r2
  | Star _ => true
  end.

Fixpoint deriv (c : char16) (r : re) : re :=
  match r with
  | Void => Void
  | Eps => Void
  | Class p => if p c then Eps else Void
  | Cat r1 r2 =>
      if nullable r1
      then Alt (Cat (deriv c r1) r2) (deriv c r2)
      else Cat (deriv c r1) r2
  | Alt r1 r2 => Alt (deriv c r1) (deriv c r2)
  | Star r1 => Cat (deriv c r1) (Star r1)
  end.

(** [/^r$/.test(s)] *)
Fixpoint test (r : re) (s : jstring) : bool :=
  match s with
  | [] => nullable r
  | c :: s' => test (deriv c r) s'
  end.

End Regex.

(** [\s] of ECMAScript: white space and line terminators. *)
Definition is_space (c : char16) : bool :=
  existsb (N.eqb c)
    [9; 10; 11; 12; 13; 32; 160; 5760; 8232; 8233; 8239; 8287; 12288; 65279]%N
  || (N.leb 8192 c && N.leb c 8202).

Definition at_sign : char16 := 64%N.
Definition full_stop : char16 := 46%N.

(** [[^\s@]] *)
Definition not_space_at (c : char16) : bool :=
  negb (is_space c) && negb (N.eqb c at_sign).

(** [/^[^\s@]+@[^\s@]+\.[^\s@]+$/] *)
Definition email_re : Regex.re :=
  Regex.Cat (Regex.Plus (Regex.Class not_space_at))
    (Regex.Cat (Regex.Chr at_sign)
       (Regex.Cat (Regex.Plus (Regex.Class not_space_at))
          (Regex.Cat (Regex.Chr full_stop)
             (Regex.Plus (Regex.Class not_space_at))))).

Definition validateEmail (email : jstring) : bool :=
  Regex.test email_re email.


(* ===================================================================== *)
(** * Data model *)
(* ===================================================================== *)

(** The identity a bearer token resolves to ([data.user] of
    [supabase.auth.getUser]). *)
Module identity.
Record t := { id : jstring; email : jstring }.
End identity.

(** Rows of the three tables. *)
Module users.
Record row := {
  id : jstring;
  email : jstring;
  user_name : jstring;
  is_admin : bool;
  auth_id : option jstring }.
End users.

Module estabelecimento.
Record row := {
  id : N;
  user_id : jstring;
  nome : jstring;
  cep : jstring }.
End estabelecimento.

Module jammers.
Record row := {
  id : N;
  id_estabelecimento : N;
  estado_jammer : bool }.
End jammers.

(** A failure reported by a collaborator in the [error] field of its
    answer. *)
Inductive CollabError : Type :=
| NotSingular (rows : nat)      (* [.single()] on a result of [rows] rows *)
| UniqueViolation               (* insert of a primary key already present *)
| AuthApiError (message : jstring).

(** The [{ data, error }] answer of a collaborator call. *)
Definition Result (A : Type) : Type := (CollabError + A)%type.

Inductive SignUpData : Type :=
| SignUpNoUser
| SignUpUser (user : identity.t).

(** The identity provider, the collaborator behind [supabase.auth],
    the collation the store orders text by, and the coercion of the
    JavaScript runtime the handlers can reach.  The handlers are written
    against this interface; nothing is assumed about an implementation. *)
Class Supabase : Type := {
  AuthState : Type;
  (** [auth.getUser(token)]: [None] stands for an answer with an error or
      without a user. *)
  getUser : AuthState -> jstring -> option identity.t;
  signUp : AuthState -> jstring -> JsValue -> Result SignUpData * AuthState;
  (** [auth.signInWithPassword({ email, password })]: an answer without
      an error carries the session and the user. *)
  signInWithPassword :
    AuthState -> jstring -> JsValue -> Result (JsValue * identity.t) * AuthState;
  resetPasswordForEmail : AuthState -> jstring -> AuthState;
  setSession : AuthState -> jstring -> AuthState;
  updateUser : AuthState -> JsValue -> option CollabError * AuthState;
  (** [a <= b] in the order of [.order(column, { ascending: true })] on a
      text column. *)
  collate : jstring -> jstring -> bool;
  (** [v < n] for a string, an array or an object [v] and an integer [n]:
      the runtime turns [v] into a primitive and then into a number. *)
  coerced_below : JsValue -> Z -> bool }.

Inductive Table : Type := T_users | T_estabelecimento | T_jammers.

(** One call on a collaborator, as the world records it. *)
Inductive Call : Type :=
| auth_getUser (token : jstring)
| auth_signUp (email : jstring) (password : JsValue)
| auth_signInWithPassword (email : jstring) (password : JsValue)
| auth_resetPasswordForEmail (email : jstring)
| auth_setSession (access_token : jstring)
| auth_updateUser (password : JsValue)
| from_select (t : Table)
| from_insert (t : Table)
| from_update (t : Table)
| from_delete (t : Table).

(** The state behind the single [supabase] client: the provider's state,
    the three tables with the sequences that number new rows, and the
    calls made so far, oldest first; with it the server's clock, what
    [new Date().toISOString()] gives while the request is handled. *)
Record World `{Supabase} : Type := {
  auth : AuthState;
  tbl_users : list users.row;
  tbl_estabelecimento : list estabelecimento.row;
  tbl_jammers : list jammers.row;
  seq_estabelecimento : N;
  seq_jammers : N;
  calls : list Call;
  clock : jstring }.

(** The relational content of a world. *)
Record Db : Type := {
  db_users : list users.row;
  db_estabelecimento : list estabelecimento.row;
  db_jammers : list jammers.row }.

Definition db `{Supabase} (w : World) : Db :=
  {| db_users := tbl_users w;
     db_estabelecimento := tbl_estabelecimento w;
     db_jammers := tbl_jammers w |}.

(* ===================================================================== *)
(** * Requests and responses *)
(* ===================================================================== *)

Module body.
(** [req.body]; a field that is absent is [None].  The two passwords
    are kept as the JSON values they arrive as: the handlers read their
    [.length], which depends on the kind of value. *)
Record t := {
  email : option jstring;
  password : option JsValue;
  access_token : option jstring;
  new_password : option JsValue;
  estado_jammer : option bool;          (* the boolean state of the data model *)
  user_id : option jstring;
  nome : option jstring;
  cep : option jstring;
  id_estabelecimento : option N }.

Definition empty : t :=
  {| email := None; password := None; access_token := None;
     new_password := None; estado_jammer := None; user_id := None;
     nome := None; cep := None; id_estabelecimento := None |}.
End body.

(** The routes under [/admin/], all behind [verificarAdmin]. *)
Inductive AdminRoute : Type :=
| GET_admin_usuarios
| POST_admin_estabelecimento
| POST_admin_jammer
| GET_admin_estabelecimentos
| GET_admin_jammers
| DELETE_admin_estabelecimento (id : N)
| DELETE_admin_jammer (id : N).

(** Method and path, with the path parameters.  A numeric parameter is
    the number the store reads in the path segment. *)
Inductive Route : Type :=
| POST_signup
| POST_login
| POST_forgot_password
| POST_reset_password
| GET_verify_session
| GET_user_estabelecimentos (userId : jstring)
| GET_user_estabelecimentos_completo (userId : jstring)
| GET_estabelecimento_jammers (estabelecimentoId : N)
| PATCH_jammer (jammerId : N)
| Admin (r : AdminRoute)
| GET_health.

(** The path pattern a route is registered under. *)
Definition admin_pattern (r : AdminRoute) : string :=
  match r with
  | GET_admin_usuarios => "/admin/usuarios"
  | POST_admin_estabelecimento => "/admin/estabelecimento"
  | POST_admin_jammer => "/admin/jammer"
  | GET_admin_estabelecimentos => "/admin/estabelecimentos"
  | GET_admin_jammers => "/admin/jammers"
  | DELETE_admin_estabelecimento _ => "/admin/estabelecimento/:id"
  | DELETE_admin_jammer _ => "/admin/jammer/:id"
  end.

Definition pattern (r : Route) : string :=
  match r with
  | POST_signup => "/signup"
  | POST_login => "/login"
  | POST_forgot_password => "/forgot-password"
  | POST_reset_password => "/reset-password"
  | GET_verify_session => "/verify-session"
  | GET_user_estabelecimentos _ => "/user/:userId/estabelecimentos"
  | GET_user_estabelecimentos_completo _ => "/user/:userId/estabelecimentos-completo"
  | GET_estabelecimento_jammers _ => "/estabelecimento/:estabelecimentoId/jammers"
  | PATCH_jammer _ => "/jammer/:jammerId"
  | Admin r => admin_pattern r
  | GET_health => "/health"
  end.

(** The routes of the access-control table of the specification: the
    self-path, resource-ownership and admin routes. *)
Definition protected (r : Route) : bool :=
  match r with
  | GET_user_estabelecimentos _ | GET_user_estabelecimentos_completo _
  | GET_estabelecimento_jammers _ | PATCH_jammer _ | Admin _ => true
  | _ => false
  end.

Record Request : Type := {
  route : Route;
  authorization : option jstring;      (* [req.headers.authorization] *)
  req_body : body.t }.

(** The text of a response: a literal of the source, the [message] of a
    collaborator's error, or one of the two template literals. *)
Inductive Msg : Type :=
| Lit (s : string)
| ErrorMessage (e : CollabError)
| EstabelecimentoCriado (nome email : jstring)
| JammerCriado (nome : jstring).

(** An establishment with its jammers, as the [-completo] route lists it. *)
Record EstabCompleto : Type := {
  ec_estab : estabelecimento.row;
  ec_jammers : list jammers.row;
  ec_total_jammers : nat }.

(** The rows embedded by a join: the owner of an establishment and the
    parent of a jammer ([None] is [null]). *)
Definition EstabUsers : Type := (estabelecimento.row * option users.row)%type.
Definition JammerEstab : Type := (jammers.row * option EstabUsers)%type.

Inductive Json : Type :=
| JError (error : Msg)
| JMessage (message : Msg)
| JSignup (message : Msg) (userId : jstring)
(* [user] is [{ ...signInData.user, ...userData }], [userData] the two
   columns [user_name] and [is_admin] the route reads, or [null] *)
| JLogin (message : Msg) (session : JsValue) (user : identity.t)
    (userData : option (jstring * bool))
| JUser (user : identity.t)
| JEstabelecimentos (estabelecimentos : list estabelecimento.row) (total : nat)
| JCompleto (estabelecimentos : list EstabCompleto)
    (total_estabelecimentos total_jammers : nat)
| JJammers (jammers : list jammers.row) (total : nat)
| JJammer (message : Msg) (jammer : jammers.row)
| JUsuarios (usuarios : list users.row) (total : nat)
| JEstabelecimento (message : Msg) (estabelecimento : estabelecimento.row)
| JJammerCriado (message : Msg) (jammer : jammers.row)
    (estabelecimento : EstabUsers)
| JAdminEstabelecimentos (estabelecimentos : list EstabUsers) (total : nat)
| JAdminJammers (jammers : list JammerEstab) (total : nat)
| JHealth (status : string) (timestamp : jstring).

Record Response : Type := { status : nat; json : Json }.

(* ===================================================================== *)
(** * Handlers as state-passing computations *)
(* ===================================================================== *)

Section Collaborators.
Context `{Supabase}.

(** A step of a handler either goes on with a value or has sent the
    response ([return res.status(...).json(...)]), which ends the
    request. *)
Inductive Step (A : Type) : Type :=
| Next (a : A)
| Sent (r : Response).
Arguments Next {A} a.
Arguments Sent {A} r.

Definition Handler (A : Type) : Type := World -> Step A * World.

Definition ret {A : Type} (a : A) : Handler A := fun w => (Next a, w).

Definition bind {A B : Type} (m : Handler A) (k : A -> Handler B) : Handler B :=
  fun w =>
    match m w with
    | (Next a, w') => k a w'
    | (Sent r, w') => (Sent r, w')
    end.

Definition res_json {A : Type} (code : nat) (j : Json) : Handler A :=
  fun w => (Sent {| status := code; json := j |}, w).

Fixpoint mapM {A B : Type} (f : A -> Handler B) (l : list A) : Handler (list B) :=
  match l with
  | [] => ret []
  | x :: l' =>
      bind (f x) (fun y => bind (mapM f l') (fun ys => ret (y :: ys)))
  end.

(** ** World updates *)

Definition set_auth (a : AuthState) (w : World) : World :=
  {| auth := a; tbl_users := tbl_users w;
     tbl_estabelecimento := tbl_estabelecimento w;
     tbl_jammers := tbl_jammers w;
     seq_estabelecimento := seq_estabelecimento w;
     seq_jammers := seq_jammers w; calls := calls w; clock := clock w |}.

Definition set_users (l : list users.row) (w : World) : World :=
  {| auth := auth w; tbl_users := l;
     tbl_estabelecimento := tbl_estabelecimento w;
     tbl_jammers := tbl_jammers w;
     seq_estabelecimento := seq_estabelecimento w;
     seq_jammers := seq_jammers w; calls := calls w; clock := clock w |}.

Definition set_estabelecimento (l : list estabelecimento.row) (w : World) : World :=
  {| auth := auth w; tbl_users := tbl_users w;
     tbl_estabelecimento := l;
     tbl_jammers := tbl_jammers w;
     seq_estabelecimento := seq_estabelecimento w;
     seq_jammers := seq_jammers w; calls := calls w; clock := clock w |}.

Definition set_jammers (l : list jammers.row) (w : World) : World :=
  {| auth := auth w; tbl_users := tbl_users w;
     tbl_estabelecimento := tbl_estabelecimento w;
     tbl_jammers := l;
     seq_estabelecimento := seq_estabelecimento w;
     seq_jammers := seq_jammers w; calls := calls w; clock := clock w |}.

Definition set_seq_estabelecimento (n : N) (w : World) : World :=
  {| auth := auth w; tbl_users := tbl_users w;
     tbl_estabelecimento := tbl_estabelecimento w;
     tbl_jammers := tbl_jammers w;
     seq_estabelecimento := n;
     seq_jammers := seq_jammers w; calls := calls w; clock := clock w |}.

Definition set_seq_jammers (n : N) (w : World) : World :=
  {| auth := auth w; tbl_users := tbl_users w;
     tbl_estabelecimento := tbl_estabelecimento w;
     tbl_jammers := tbl_jammers w;
     seq_estabelecimento := seq_estabelecimento w;
     seq_jammers := n; calls := calls w; clock := clock w |}.

Definition called (c : Call) (w : World) : World :=
  {| auth := auth w; tbl_users := tbl_users w;
     tbl_estabelecimento := tbl_estabelecimento w;
     tbl_jammers := tbl_jammers w;
     seq_estabelecimento := seq_estabelecimento w;
     seq_jammers := seq_jammers w; calls := calls w ++ [c]; clock := clock w |}.

(** ** The identity provider, [supabase.auth] *)

Definition supabase_auth_getUser (token : jstring) : Handler (option identity.t) :=
  fun w => (Next (getUser (auth w) token), called (auth_getUser token) w).

Definition supabase_auth_signUp (email : jstring) (password : JsValue)
  : Handler (Result SignUpData) :=
  fun w =>
    let (r, a) := signUp (auth w) email password in
    (Next r, set_auth a (called (auth_signUp email password) w)).

Definition supabase_auth_signInWithPassword (email : jstring) (password : JsValue)
  : Handler (Result (JsValue * identity.t)) :=
  fun w =>
    let (r, a) := signInWithPassword (auth w) email password in
    (Next r, set_auth a (called (auth_signInWithPassword email password) w)).

Definition supabase_auth_resetPasswordForEmail (email : jstring) : Handler unit :=
  fun w =>
    (Next tt, set_auth (resetPasswordForEmail (auth w) email)
                (called (auth_resetPasswordForEmail email) w)).

Definition supabase_auth_setSession (access_token : jstring) : Handler unit :=
  fun w =>
    (Next tt, set_auth (setSession (auth w) access_token)
                (called (auth_setSession access_token) w)).

Definition supabase_auth_updateUser (password : JsValue)
  : Handler (option CollabError) :=
  fun w =>
    let (e, a) := updateUser (auth w) password in
    (Next e, set_auth a (called (auth_updateUser password) w)).

(** ** The relational store, [supabase.from(table)]

    The store keeps its rows in insertion order and holds no
    constraint but the primary keys.  A filtered read always answers;
    a query fails only for what the query itself asks: [.single()] on
    a result that is not one row, or an insert of a key already
    there. *)

(** [.single()]: exactly one row, an error otherwise. *)
Definition single {R : Type} (r : Result (list R)) : Result R :=
  match r with
  | inl e => inl e
  | inr [x] => inr x
  | inr l => inl (NotSingular (List.length l))
  end.

(** [.maybeSingle()]: no row is [null] without an error. *)
Definition maybeSingle {R : Type} (r : Result (list R)) : Result (option R) :=
  match r with
  | inl e => inl e
  | inr [] => inr None
  | inr [x] => inr (Some x)
  | inr l => inl (NotSingular (List.length l))
  end.

(** [.order(column, { ascending: true })], a stable sort. *)
Fixpoint insert_by {A : Type} (le : A -> A -> bool) (x : A) (l : list A) : list A :=
  match l with
  | [] => [x]
  | y :: l' => if le x y then x :: l else y :: insert_by le x l'
  end.

Definition order {A : Type} (le : A -> A -> bool) (l : list A) : list A :=
  fold_right (insert_by le) [] l.

Definition by_text {A : Type} (column : A -> jstring) (a b : A) : bool :=
  collate (column a) (column b).

Definition by_number {A : Type} (column : A -> N) (a b : A) : bool :=
  N.leb (column a) (column b).

(** A table of the store: its rows in a world. *)
Record TableOf (R : Type) : Type := {
  table : Table;
  rows : World -> list R;
  set_rows : list R -> World -> World }.

Definition from_users : TableOf users.row :=
  {| table := T_users; rows := tbl_users; set_rows := set_users |}.
Definition from_estabelecimento : TableOf estabelecimento.row :=
  {| table := T_estabelecimento; rows := tbl_estabelecimento;
     set_rows := set_estabelecimento |}.
Definition from_jammers : TableOf jammers.row :=
  {| table := T_jammers; rows := tbl_jammers; set_rows := set_jammers |}.

(** [.from(t).select(...).eq(...)] *)
Definition select {R : Type} (t : TableOf R) (p : R -> bool)
  : Handler (Result (list R)) :=
  fun w => (Next (inr (filter p (rows t w))), called (from_select (table t)) w).

(** [.from(t).delete().eq(...)]: the rows that match are removed. *)
Definition delete {R : Type} (t : TableOf R) (p : R -> bool)
  : Handler (Result (list R)) :=
  fun w =>
    (Next (inr (filter p (rows t w))),
     set_rows t (filter (fun r => negb (p r)) (rows t w))
       (called (from_delete (table t)) w)).

(** [.from(t).delete().eq(...).select().single()]: the store runs the
    statement in a transaction and rolls it back when the rows it
    touched are not exactly one. *)
Definition delete_single {R : Type} (t : TableOf R) (p : R -> bool)
  : Handler (Result R) :=
  fun w =>
    match filter p (rows t w) with
    | [x] =>
        (Next (inr x),
         set_rows t (filter (fun r => negb (p r)) (rows t w))
           (called (from_delete (table t)) w))
    | l => (Next (inl (NotSingular (List.length l))), called (from_delete (table t)) w)
    end.

(** [.from(t).update(values).eq(...).select().single()], under the same
    transaction rule; the answer is the row after the update. *)
Definition update_single {R : Type} (t : TableOf R) (p : R -> bool) (f : R -> R)
  : Handler (Result R) :=
  fun w =>
    match filter p (rows t w) with
    | [x] =>
        (Next (inr (f x)),
         set_rows t (map (fun r => if p r then f r else r) (rows t w))
           (called (from_update (table t)) w))
    | l => (Next (inl (NotSingular (List.length l))), called (from_update (table t)) w)
    end.

(** [.from('users').insert([row])] *)
Definition insert_users (r : users.row) : Handler (Result users.row) :=
  fun w =>
    let w1 := called (from_insert T_users) w in
    if existsb (fun u => jstring_eqb (users.id u) (users.id r)) (tbl_users w)
    then (Next (inl UniqueViolation), w1)
    else (Next (inr r), set_users (tbl_users w ++ [r]) w1).

(** [.from('estabelecimento').insert([{ user_id, nome, cep }])]: the
    [id] comes from the table's sequence, which advances whether or
    not the row is accepted. *)
Definition insert_estabelecimento (user_id nome cep : jstring)
  : Handler (Result estabelecimento.row) :=
  fun w =>
    let n := seq_estabelecimento w in
    let r := {| estabelecimento.id := n; estabelecimento.user_id := user_id;
                estabelecimento.nome := nome; estabelecimento.cep := cep |} in
    let w1 := set_seq_estabelecimento (N.succ n)
                (called (from_insert T_estabelecimento) w) in
    if existsb (fun e => N.eqb (estabelecimento.id e) n) (tbl_estabelecimento w)
    then (Next (inl UniqueViolation), w1)
    else (Next (inr r), set_estabelecimento (tbl_estabelecimento w ++ [r]) w1).

(** [.from('jammers').insert([{ id_estabelecimento, estado_jammer }])] *)
Definition insert_jammers (id_estabelecimento : N) (estado_jammer : bool)
  : Handler (Result jammers.row) :=
  fun w =>
    let n := seq_jammers w in
    let r := {| jammers.id := n;
                jammers.id_estabelecimento := id_estabelecimento;
                jammers.estado_jammer := estado_jammer |} in
    let w1 := set_seq_jammers (N.succ n) (called (from_insert T_jammers) w) in
    if existsb (fun j => N.eqb (jammers.id j) n) (tbl_jammers w)
    then (Next (inl UniqueViolation), w1)
    else (Next (inr r), set_jammers (tbl_jammers w ++ [r]) w1).

(** ** Joins: the row a foreign key points to, [null] when none does *)

Definition embed_users (w : World) (e : estabelecimento.row) : EstabUsers :=
  (e, find (fun u => jstring_eqb (users.id u) (estabelecimento.user_id e))
        (tbl_users w)).

Definition embed_estabelecimento (w : World) (j : jammers.row)
  : jammers.row * option estabelecimento.row :=
  (j, find (fun e => N.eqb (estabelecimento.id e) (jammers.id_estabelecimento j))
        (tbl_estabelecimento w)).

Definition embed_estabelecimento_users (w : World) (j : jammers.row) : JammerEstab :=
  (j, option_map (embed_users w) (snd (embed_estabelecimento w j))).

Definition embed_jammers (w : World) (e : estabelecimento.row)
  : estabelecimento.row * list jammers.row :=
  (e, filter (fun j => N.eqb (jammers.id_estabelecimento j) (estabelecimento.id e))
        (tbl_jammers w)).

(** A read whose rows carry an embedded row: the join is taken in the
    world the read sees. *)
Definition select_with {R E : Type} (t : TableOf R) (embed : World -> R -> E)
    (p : R -> bool) : Handler (Result (list E)) :=
  fun w =>
    (Next (inr (map (embed w) (filter p (rows t w)))),
     called (from_select (table t)) w).

(** ** Comparisons of the runtime *)

(** [x < n] for an integer [n]: [undefined] becomes [NaN], below
    nothing; [null] and the booleans become 0 and 1; the other values
    go through the coercion of the runtime. *)
Definition js_below (x : option JsValue) (n : Z) : bool :=
  match x with
  | None => false
  | Some JsNull => Z.ltb 0 n
  | Some (JsBool b) => Z.ltb (if b then 1 else 0) n
  | Some (JsNumber a d) => Z.ltb a (n * Z.pos d)
  | Some (JsString s) => coerced_below (JsString s) n
  | Some (JsArray items) => coerced_below (JsArray items) n
  | Some (JsObject fields) => coerced_below (JsObject fields) n
  end.

(** [password.length < n] *)
Definition length_below (n : Z) (password : option JsValue) : bool :=
  js_below (js_length (value password)) n.

End Collaborators.

Arguments Next {A} a.
Arguments Sent {A} r.

Declare Scope handler_scope.
Delimit Scope handler_scope with handler.
Notation "x <- m ;; k" := (bind m (fun x => k))
  (at level 61, m at next level, right associativity) : handler_scope.
Notation "m ;;; k" := (bind m (fun _ => k))
  (at level 61, right associativity) : handler_scope.

Local Open Scope handler_scope.

(** The value of a field once it is known to be there. *)
Definition text (o : option jstring) : jstring :=
  match o with
  | Some s => s
  | None => []
  end.

(** [!id_estabelecimento] on a number: absent or zero. *)
Definition falsy_number (o : option N) : bool :=
  match o with
  | None => true
  | Some n => N.eqb n 0
  end.

(** [estabelecimentos.reduce((acc, e) => acc + e.total_jammers, 0)] *)
Definition sum_total_jammers (l : list EstabCompleto) : nat :=
  fold_left (fun acc e => acc + ec_total_jammers e) l 0.

(* ===================================================================== *)
(** * Routes the two servers share word for word *)
(* ===================================================================== *)

Section SharedRoutes.
Context `{Supabase}.

(** [POST /signup] *)
Definition signup (req : Request) : Handler Empty_set :=
  let email := body.email (req_body req) in
  let password := body.password (req_body req) in
  if negb (truthy email) || negb (truthy_value password) then
    res_json 400 (JError (Lit "E-mail e senha são obrigatórios."))
  else if negb (validateEmail (text email)) then
    res_json 400 (JError (Lit "E-mail inválido."))
  else if length_below 6 password then
    res_json 400 (JError (Lit "A senha deve ter no mínimo 6 caracteres."))
  else
    found <- select from_users (fun u => jstring_eqb (users.email u) (text email)) ;;
    match maybeSingle found with
    | inr (Some _) => res_json 400 (JError (Lit "E-mail já está cadastrado."))
    | _ =>
        signed <- supabase_auth_signUp (text email) (value password) ;;
        match signed with
        | inl signUpError => res_json 400 (JError (ErrorMessage signUpError))
        | inr SignUpNoUser => res_json 400 (JError (Lit "Erro ao criar usuário."))
        | inr (SignUpUser user) =>
            let userId := identity.id user in
            inserted <- insert_users
              {| users.id := userId; users.email := text email;
                 users.user_name := text email; users.is_admin := false;
                 users.auth_id := None |} ;;
            match inserted with
            | inl insertError => res_json 400 (JError (ErrorMessage insertError))
            | inr _ =>
                res_json 201 (JSignup (Lit "Usuário cadastrado com sucesso.") userId)
            end
        end
    end.

(** [POST /login]: the answer of the read of [users] is used whether
    or not it carries an error; without a row [userData] is [null] and
    the spread adds nothing. *)
Definition login (req : Request) : Handler Empty_set :=
  let email := body.email (req_body req) in
  let password := body.password (req_body req) in
  if negb (truthy email) || negb (truthy_value password) then
    res_json 400 (JError (Lit "E-mail e senha são obrigatórios."))
  else
    signed <- supabase_auth_signInWithPassword (text email) (value password) ;;
    match signed with
    | inl signInError => res_json 400 (JError (Lit "E-mail ou senha incorretos."))
    | inr (session, user) =>
        found <- select from_users
                   (fun u => jstring_eqb (users.id u) (identity.id user)) ;;
        let userData :=
          match single found with
          | inr u => Some (users.user_name u, users.is_admin u)
          | inl _ => None
          end in
        res_json 200
          (JLogin (Lit "Login realizado com sucesso.") session user userData)
    end.

(** [GET /health] *)
Definition health (req : Request) : Handler Empty_set :=
  fun w => res_json 200 (JHealth "OK" (clock w)) w.

(** [POST /forgot-password] *)
Definition forgot_password (req : Request) : Handler Empty_set :=
  let email := body.email (req_body req) in
  if negb (truthy email) then
    res_json 400 (JError (Lit "O e-mail é obrigatório."))
  else if negb (validateEmail (text email)) then
    res_json 400 (JError (Lit "E-mail inválido."))
  else
    supabase_auth_resetPasswordForEmail (text email) ;;;
    res_json 200 (JMessage (Lit
      "Se o e-mail estiver registrado, você receberá um link de redefinição em sua caixa de entrada.")).

(** [POST /reset-password] *)
Definition reset_password (req : Request) : Handler Empty_set :=
  let access_token := body.access_token (req_body req) in
  let new_password := body.new_password (req_body req) in
  if negb (truthy access_token) || negb (truthy_value new_password) then
    res_json 400 (JError (Lit "Token e nova senha são obrigatórios."))
  else if length_below 6 new_password then
    res_json 400 (JError (Lit "A senha deve ter no mínimo 6 caracteres."))
  else
    supabase_auth_setSession (text access_token) ;;;
    error <- supabase_auth_updateUser (value new_password) ;;
    match error with
    | Some _ => res_json 400 (JError (Lit "Erro ao atualizar senha."))
    | None => res_json 200 (JMessage (Lit "Senha atualizada com sucesso."))
    end.

(** [GET /admin/usuarios], after [verificarAdmin] *)
Definition admin_usuarios (req : Request) : Handler Empty_set :=
  listed <- select from_users (fun _ => true) ;;
  match listed with
  | inl _ => res_json 500 (JError (Lit "Erro ao listar usuários."))
  | inr rows =>
      let usuarios := order (by_text users.email) rows in
      res_json 200 (JUsuarios usuarios (List.length usuarios))
  end.

(** [POST /admin/estabelecimento], after [verificarAdmin] *)
Definition admin_criar_estabelecimento (req : Request) : Handler Empty_set :=
  let user_id := body.user_id (req_body req) in
  let nome := body.nome (req_body req) in
  let cep := body.cep (req_body req) in
  if negb (truthy user_id) || negb (truthy nome) || negb (truthy cep) then
    res_json 400 (JError (Lit "user_id, nome e cep são obrigatórios."))
  else
    found <- select from_users (fun u => jstring_eqb (users.id u) (text user_id)) ;;
    match single found with
    | inl _ => res_json 404 (JError (Lit "Usuário não encontrado."))
    | inr userExists =>
        created <- insert_estabelecimento (text user_id) (text nome) (text cep) ;;
        match created with
        | inl error => res_json 400 (JError (ErrorMessage error))
        | inr data =>
            res_json 201
              (JEstabelecimento
                 (EstabelecimentoCriado (text nome) (users.email userExists)) data)
        end
    end.

(** [POST /admin/jammer], after [verificarAdmin] *)
Definition admin_criar_jammer (req : Request) : Handler Empty_set :=
  let id_estabelecimento := body.id_estabelecimento (req_body req) in
  let estado_jammer := body.estado_jammer (req_body req) in
  if falsy_number id_estabelecimento then
    res_json 400 (JError (Lit "id_estabelecimento é obrigatório."))
  else
    let id := match id_estabelecimento with Some n => n | None => 0%N end in
    found <- select_with from_estabelecimento embed_users
               (fun e => N.eqb (estabelecimento.id e) id) ;;
    match single found with
    | inl _ => res_json 404 (JError (Lit "Estabelecimento não encontrado."))
    | inr estabExists =>
        created <- insert_jammers id
                     (match estado_jammer with Some b => b | None => false end) ;;
        match created with
        | inl error => res_json 400 (JError (ErrorMessage error))
        | inr data =>
            res_json 201
              (JJammerCriado
                 (JammerCriado (estabelecimento.nome (fst estabExists)))
                 data estabExists)
        end
    end.

(** [GET /admin/estabelecimentos], after [verificarAdmin] *)
Definition admin_estabelecimentos (req : Request) : Handler Empty_set :=
  listed <- select_with from_estabelecimento embed_users (fun _ => true) ;;
  match listed with
  | inl _ => res_json 500 (JError (Lit "Erro ao listar estabelecimentos."))
  | inr rows =>
      let estabelecimentos :=
        order (by_text (fun r : EstabUsers => estabelecimento.nome (fst r))) rows in
      res_json 200
        (JAdminEstabelecimentos estabelecimentos (List.length estabelecimentos))
  end.

(** [GET /admin/jammers], after [verificarAdmin] *)
Definition admin_jammers (req : Request) : Handler Empty_set :=
  listed <- select_with from_jammers embed_estabelecimento_users (fun _ => true) ;;
  match listed with
  | inl _ => res_json 500 (JError (Lit "Erro ao listar jammers."))
  | inr rows =>
      let jammers :=
        order (by_number (fun r : JammerEstab => jammers.id (fst r))) rows in
      res_json 200 (JAdminJammers jammers (List.length jammers))
  end.

(** [DELETE /admin/estabelecimento/:id], after [verificarAdmin]: the
    jammers go first, and the answer of their delete is not looked at. *)
Definition admin_deletar_estabelecimento (id : N) (req : Request)
  : Handler Empty_set :=
  delete from_jammers (fun j => N.eqb (jammers.id_estabelecimento j) id) ;;;
  deleted <- delete_single from_estabelecimento
               (fun e => N.eqb (estabelecimento.id e) id) ;;
  match deleted with
  | inl error => res_json 400 (JError (ErrorMessage error))
  | inr data =>
      res_json 200
        (JEstabelecimento
           (Lit "Estabelecimento e seus jammers deletados com sucesso.") data)
  end.

(** [DELETE /admin/jammer/:id], after [verificarAdmin] *)
Definition admin_deletar_jammer (id : N) (req : Request) : Handler Empty_set :=
  deleted <- delete_single from_jammers (fun j => N.eqb (jammers.id j) id) ;;
  match deleted with
  | inl error => res_json 400 (JError (ErrorMessage error))
  | inr data => res_json 200 (JJammer (Lit "Jammer deletado com sucesso.") data)
  end.

(** The handler registered behind [verificarAdmin] for each route. *)
Definition admin_handler (r : AdminRoute) : Request -> Handler Empty_set :=
  match r with
  | GET_admin_usuarios => admin_usuarios
  | POST_admin_estabelecimento => admin_criar_estabelecimento
  | POST_admin_jammer => admin_criar_jammer
  | GET_admin_estabelecimentos => admin_estabelecimentos
  | GET_admin_jammers => admin_jammers
  | DELETE_admin_estabelecimento id => admin_deletar_estabelecimento id
  | DELETE_admin_jammer id => admin_deletar_jammer id
  end.

End SharedRoutes.

(* ===================================================================== *)
(** * The server of [API_node.js]: token checks written in each route *)
(* ===================================================================== *)

Module API_node.
Section Routes.
Context `{Supabase}.

(** [req.headers.authorization?.replace('Bearer ', '')] *)
Definition bearer (req : Request) : option jstring :=
  option_map (remove_first (js "Bearer ")) (authorization req).

(** [GET /verify-session] *)
Definition verify_session (req : Request) : Handler Empty_set :=
  let token := bearer req in
  if negb (truthy token) then
    res_json 401 (JError (Lit "Token não fornecido."))
  else
    resolved <- supabase_auth_getUser (text token) ;;
    match resolved with
    | None => res_json 401 (JError (Lit "Sessão inválida."))
    | Some user => res_json 200 (JUser user)
    end.

(** [GET /user/:userId/estabelecimentos] *)
Definition user_estabelecimentos (userId : jstring) (req : Request)
  : Handler Empty_set :=
  let token := bearer req in
  if negb (truthy token) then
    res_json 401 (JError (Lit "Token não fornecido."))
  else
    resolved <- supabase_auth_getUser (text token) ;;
    match resolved with
    | None => res_json 401 (JError (Lit "Token inválido."))
    | Some user =>
        if negb (jstring_eqb (identity.id user) userId) then
          res_json 403
            (JError (Lit "Você não tem permissão para acessar estes dados."))
        else
          listed <- select from_estabelecimento
                      (fun e => jstring_eqb (estabelecimento.user_id e) userId) ;;
          match listed with
          | inl _ => res_json 500 (JError (Lit "Erro ao buscar estabelecimentos."))
          | inr rows =>
              let data := order (by_text estabelecimento.nome) rows in
              res_json 200 (JEstabelecimentos data (List.length data))
          end
    end.

(** The jammers of one establishment, inside [Promise.all]; the calls
    are recorded in the order of the establishments. *)
Definition com_jammers (estab : estabelecimento.row) : Handler EstabCompleto :=
  listed <- select from_jammers
              (fun j => N.eqb (jammers.id_estabelecimento j)
                          (estabelecimento.id estab)) ;;
  match listed with
  | inl _ =>
      ret {| ec_estab := estab; ec_jammers := []; ec_total_jammers := 0 |}
  | inr rows =>
      let jammers := order (by_number jammers.id) rows in
      ret {| ec_estab := estab; ec_jammers := jammers;
             ec_total_jammers := List.length jammers |}
  end.

(** [GET /user/:userId/estabelecimentos-completo]: the route reads no
    header. *)
Definition user_estabelecimentos_completo (userId : jstring) (req : Request)
  : Handler Empty_set :=
  listed <- select from_estabelecimento
              (fun e => jstring_eqb (estabelecimento.user_id e) userId) ;;
  match listed with
  | inl _ => res_json 500 (JError (Lit "Erro ao buscar estabelecimentos."))
  | inr rows =>
      let estabelecimentos := order (by_text estabelecimento.nome) rows in
      estabelecimentosComJammers <- mapM com_jammers estabelecimentos ;;
      res_json 200
        (JCompleto estabelecimentosComJammers
           (List.length estabelecimentosComJammers)
           (sum_total_jammers estabelecimentosComJammers))
  end.

(** [GET /estabelecimento/:estabelecimentoId/jammers]: the route reads
    no header. *)
Definition estabelecimento_jammers (estabelecimentoId : N) (req : Request)
  : Handler Empty_set :=
  listed <- select from_jammers
              (fun j => N.eqb (jammers.id_estabelecimento j) estabelecimentoId) ;;
  match listed with
  | inl _ => res_json 500 (JError (Lit "Erro ao buscar jammers."))
  | inr rows =>
      let data := order (by_number jammers.id) rows in
      res_json 200 (JJammers data (List.length data))
  end.

(** [PATCH /jammer/:jammerId].  A jammer whose parent row is missing
    has [estabelecimento: null]; reading [user_id] of it throws, and
    the [catch] answers 500. *)
Definition patch_jammer (jammerId : N) (req : Request) : Handler Empty_set :=
  match body.estado_jammer (req_body req) with
  | None => res_json 400 (JError (Lit "estado_jammer é obrigatório."))
  | Some estado_jammer =>
      let token := bearer req in
      if negb (truthy token) then
        res_json 401 (JError (Lit "Token não fornecido."))
      else
        resolved <- supabase_auth_getUser (text token) ;;
        match resolved with
        | None => res_json 401 (JError (Lit "Token inválido."))
        | Some user =>
            found <- select_with from_jammers embed_estabelecimento
                       (fun j => N.eqb (jammers.id j) jammerId) ;;
            match single found with
            | inl _ => res_json 404 (JError (Lit "Jammer não encontrado."))
            | inr (_, None) =>
                res_json 500 (JError (Lit "Erro interno do servidor."))
            | inr (_, Some estab) =>
                if negb (jstring_eqb (estabelecimento.user_id estab)
                           (identity.id user)) then
                  res_json 403
                    (JError (Lit "Você não tem permissão para alterar este jammer."))
                else
                  updated <- update_single from_jammers
                               (fun j => N.eqb (jammers.id j) jammerId)
                               (fun j =>
                                  {| jammers.id := jammers.id j;
                                     jammers.id_estabelecimento :=
                                       jammers.id_estabelecimento j;
                                     jammers.estado_jammer := estado_jammer |}) ;;
                  match updated with
                  | inl error => res_json 400 (JError (ErrorMessage error))
                  | inr data =>
                      res_json 200 (JJammer (Lit "Jammer atualizado com sucesso.") data)
                  end
            end
        end
  end.

(** The middleware [verificarAdmin]: [Next user] is [next()] with
    [req.user = user]. *)
Definition verificarAdmin (req : Request) : Handler identity.t :=
  let token := bearer req in
  if negb (truthy token) then
    res_json 401 (JError (Lit "Token não fornecido."))
  else
    resolved <- supabase_auth_getUser (text token) ;;
    match resolved with
    | None => res_json 401 (JError (Lit "Token inválido."))
    | Some user =>
        found <- select from_users
                   (fun u => jstring_eqb (users.id u) (identity.id user)) ;;
        match single found with
        | inl _ =>
            res_json 403 (JError (Lit "Acesso negado. Apenas administradores."))
        | inr userData =>
            if negb (users.is_admin userData) then
              res_json 403 (JError (Lit "Acesso negado. Apenas administradores."))
            else ret user
        end
    end.

Definition app (req : Request) : Handler Empty_set :=
  match route req with
  | POST_signup => signup req
  | POST_login => login req
  | POST_forgot_password => forgot_password req
  | POST_reset_password => reset_password req
  | GET_verify_session => verify_session req
  | GET_user_estabelecimentos userId => user_estabelecimentos userId req
  | GET_user_estabelecimentos_completo userId =>
      user_estabelecimentos_completo userId req
  | GET_estabelecimento_jammers estabelecimentoId =>
      estabelecimento_jammers estabelecimentoId req
  | PATCH_jammer jammerId => patch_jammer jammerId req
  | Admin r => verificarAdmin req ;;; admin_handler r req
  | GET_health => health req
  end.

End Routes.
End API_node.

(* ===================================================================== *)
(** * The refactored server: [verificarAutenticacao] before each route *)
(* ===================================================================== *)

Module part_000.
Section Routes.
Context `{Supabase}.

(** The middleware [verificarAutenticacao]: [Next user] is [next()]
    with [req.user = data.user]. *)
Definition verificarAutenticacao (req : Request) : Handler identity.t :=
  let authHeader := authorization req in
  if negb (truthy authHeader) then
    res_json 401 (JError (Lit "Token não fornecido."))
  else
    let token := remove_first (js "Bearer ") (text authHeader) in
    resolved <- supabase_auth_getUser token ;;
    match resolved with
    | None => res_json 401 (JError (Lit "Token inválido ou sessão expirada."))
    | Some user => ret user
    end.

(** The middleware [verificarAdmin] *)
Definition verificarAdmin (req : Request) : Handler identity.t :=
  let authHeader := authorization req in
  if negb (truthy authHeader) then
    res_json 401 (JError (Lit "Token não fornecido."))
  else
    let token := remove_first (js "Bearer ") (text authHeader) in
    resolved <- supabase_auth_getUser token ;;
    match resolved with
    | None => res_json 401 (JError (Lit "Token inválido."))
    | Some user =>
        found <- select from_users
                   (fun u => jstring_eqb (users.id u) (identity.id user)) ;;
        match single found with
        | inl _ => res_json 500 (JError (Lit "Erro ao verificar permissões."))
        | inr userData =>
            if negb (users.is_admin userData) then
              res_json 403 (JError (Lit "Acesso negado. Apenas administradores."))
            else ret user
        end
    end.

(** [GET /verify-session] *)
Definition verify_session (user : identity.t) (req : Request) : Handler Empty_set :=
  res_json 200 (JUser user).

(** [GET /user/:userId/estabelecimentos] *)
Definition user_estabelecimentos (userId : jstring) (user : identity.t)
    (req : Request) : Handler Empty_set :=
  if negb (jstring_eqb (identity.id user) userId) then
    res_json 403 (JError (Lit "Você não tem permissão para acessar estes dados."))
  else
    listed <- select from_estabelecimento
                (fun e => jstring_eqb (estabelecimento.user_id e) userId) ;;
    match listed with
    | inl _ => res_json 500 (JError (Lit "Erro ao buscar estabelecimentos."))
    | inr rows =>
        let estabelecimentos := order (by_text estabelecimento.nome) rows in
        res_json 200
          (JEstabelecimentos estabelecimentos (List.length estabelecimentos))
    end.

(** [GET /user/:userId/estabelecimentos-completo]: one read with the
    jammers embedded. *)
Definition user_estabelecimentos_completo (userId : jstring) (user : identity.t)
    (req : Request) : Handler Empty_set :=
  if negb (jstring_eqb (identity.id user) userId) then
    res_json 403 (JError (Lit "Você não tem permissão para acessar estes dados."))
  else
    listed <- select_with from_estabelecimento embed_jammers
                (fun e => jstring_eqb (estabelecimento.user_id e) userId) ;;
    match listed with
    | inl _ => res_json 500 (JError (Lit "Erro ao buscar dados completos."))
    | inr rows =>
        let estabelecimentos :=
          order (by_text (fun r : estabelecimento.row * list jammers.row =>
                            estabelecimento.nome (fst r))) rows in
        let estabelecimentosComTotais :=
          map (fun estab : estabelecimento.row * list jammers.row =>
                 {| ec_estab := fst estab; ec_jammers := snd estab;
                    ec_total_jammers := List.length (snd estab) |})
            estabelecimentos in
        res_json 200
          (JCompleto estabelecimentosComTotais
             (List.length estabelecimentosComTotais)
             (sum_total_jammers estabelecimentosComTotais))
    end.

(** [GET /estabelecimento/:estabelecimentoId/jammers] *)
Definition estabelecimento_jammers (estabelecimentoId : N) (user : identity.t)
    (req : Request) : Handler Empty_set :=
  found <- select from_estabelecimento
             (fun e => N.eqb (estabelecimento.id e) estabelecimentoId) ;;
  match single found with
  | inl _ => res_json 404 (JError (Lit "Estabelecimento não encontrado."))
  | inr estab =>
      if negb (jstring_eqb (estabelecimento.user_id estab) (identity.id user)) then
        res_json 403
          (JError (Lit "Você não tem permissão para acessar estes dados."))
      else
        listed <- select from_jammers
                    (fun j => N.eqb (jammers.id_estabelecimento j)
                                estabelecimentoId) ;;
        match listed with
        | inl _ => res_json 500 (JError (Lit "Erro ao buscar jammers."))
        | inr rows =>
            let data := order (by_number jammers.id) rows in
            res_json 200 (JJammers data (List.length data))
        end
  end.

(** [PATCH /jammer/:jammerId] *)
Definition patch_jammer (jammerId : N) (user : identity.t) (req : Request)
  : Handler Empty_set :=
  match body.estado_jammer (req_body req) with
  | None => res_json 400 (JError (Lit "estado_jammer é obrigatório."))
  | Some estado_jammer =>
      found <- select_with from_jammers embed_estabelecimento
                 (fun j => N.eqb (jammers.id j) jammerId) ;;
      match single found with
      | inl _ => res_json 404 (JError (Lit "Jammer não encontrado."))
      | inr (_, None) => res_json 500 (JError (Lit "Erro interno do servidor."))
      | inr (_, Some estab) =>
          if negb (jstring_eqb (estabelecimento.user_id estab)
                     (identity.id user)) then
            res_json 403
              (JError (Lit "Você não tem permissão para alterar este jammer."))
          else
            updated <- update_single from_jammers
                         (fun j => N.eqb (jammers.id j) jammerId)
                         (fun j =>
                            {| jammers.id := jammers.id j;
                               jammers.id_estabelecimento :=
                                 jammers.id_estabelecimento j;
                               jammers.estado_jammer := estado_jammer |}) ;;
            match updated with
            | inl error => res_json 400 (JError (ErrorMessage error))
            | inr updatedJammer =>
                res_json 200
                  (JJammer (Lit "Jammer atualizado com sucesso.") updatedJammer)
            end
      end
  end.

Definition app (req : Request) : Handler Empty_set :=
  match route req with
  | POST_signup => signup req
  | POST_login => login req
  | POST_forgot_password => forgot_password req
  | POST_reset_password => reset_password req
  | GET_verify_session =>
      user <- verificarAutenticacao req ;; verify_session user req
  | GET_user_estabelecimentos userId =>
      user <- verificarAutenticacao req ;; user_estabelecimentos userId user req
  | GET_user_estabelecimentos_completo userId =>
      user <- verificarAutenticacao req ;;
      user_estabelecimentos_completo userId user req
  | GET_estabelecimento_jammers estabelecimentoId =>
      user <- verificarAutenticacao req ;;
      estabelecimento_jammers estabelecimentoId user req
  | PATCH_jammer jammerId =>
      user <- verificarAutenticacao req ;; patch_jammer jammerId user req
  | Admin r => verificarAdmin req ;;; admin_handler r req
  | GET_health => health req
  end.

End Routes.
End part_000.

(* ===================================================================== *)
(** * One request against one of the two servers *)
(* ===================================================================== *)

Inductive Server : Type :=
| API_node_js      (* [API_node.js] *)
| part_000_js.     (* the refactored server *)

Definition app `{Supabase} (s : Server) : Request -> Handler Empty_set :=
  match s with
  | API_node_js => API_node.app
  | part_000_js => part_000.app
  end.

(** The admin gate of either server. *)
Definition verificarAdmin `{Supabase} (s : Server) : Request -> Handler identity.t :=
  match s with
  | API_node_js => API_node.verificarAdmin
  | part_000_js => part_000.verificarAdmin
  end.

(** Two worlds with the same rows and the same sequences; the provider's
    state and the record of calls may differ. *)
Definition same_store `{Supabase} (w1 w2 : World) : Prop :=
  db w1 = db w2 /\
  seq_estabelecimento w1 = seq_estabelecimento w2 /\
  seq_jammers w1 = seq_jammers w2.

(** A handler that has run to its response. *)
Definition finish `{Supabase} (h : Handler Empty_set) (w : World) : Response * World :=
  match h w with
  | (Sent r, w') => (r, w')
  | (Next e, _) => match e with end
  end.

Definition handle `{Supabase} (s : Server) (req : Request) (w : World)
  : Response * World :=
  finish (app s req) w.

(** The token a server hands to the identity provider, when the request
    gets that far: [API_node.js] tests the token after [replace],
    the refactored middleware tests the header before it. *)
Definition presented (s : Server) (req : Request) : option jstring :=
  match s with
  | API_node_js =>
      if truthy (API_node.bearer req) then API_node.bearer req else None
  | part_000_js =>
      if truthy (authorization req)
      then Some (remove_first (js "Bearer ") (text (authorization req)))
      else None
  end.

(** The request carries a token that the provider resolves to [user]. *)
Definition authenticated `{Supabase} (s : Server) (req : Request) (w : World)
    (user : identity.t) : Prop :=
  exists token,
    presented s req = Some token /\ getUser (auth w) token = Some user.

(* ===================================================================== *)
(** * Vocabulary of the statements *)
(* ===================================================================== *)

(** The filters the handlers pass to [.eq(...)]. *)
Definition has_id (jammerId : N) (j : jammers.row) : bool :=
  N.eqb (jammers.id j) jammerId.

Definition parent_of (j : jammers.row) (e : estabelecimento.row) : bool :=
  N.eqb (estabelecimento.id e) (jammers.id_estabelecimento j).

Definition is_estab (id : N) (e : estabelecimento.row) : bool :=
  N.eqb (estabelecimento.id e) id.

Definition jammer_of (id : N) (j : jammers.row) : bool :=
  N.eqb (jammers.id_estabelecimento j) id.

(** The row after [.update({ estado_jammer })]. *)
Definition switched (estado_jammer : bool) (j : jammers.row) : jammers.row :=
  {| jammers.id := jammers.id j;
     jammers.id_estabelecimento := jammers.id_estabelecimento j;
     jammers.estado_jammer := estado_jammer |}.

(** Responses that several routes send. *)
Definition token_missing : Response :=
  {| status := 401; json := JError (Lit "Token não fornecido.") |}.

Definition forbidden_data : Response :=
  {| status := 403;
     json := JError (Lit "Você não tem permissão para acessar estes dados.") |}.

Definition invalid_email : Response :=
  {| status := 400; json := JError (Lit "E-mail inválido.") |}.

Definition password_too_short : Response :=
  {| status := 400;
     json := JError (Lit "A senha deve ter no mínimo 6 caracteres.") |}.



(* ===================================================================== *)
(** * The email check as the specification words it *)
(* ===================================================================== *)

(** The text before the first ['@'] and the text after it. *)
Fixpoint split_at_sign (s : jstring) : option (jstring * jstring) :=
  match s with
  | [] => None
  | c :: s' =>
      if N.eqb c at_sign then Some ([], s')
      else match split_at_sign s' with
           | Some (before, after) => Some (c :: before, after)
           | None => None
           end
  end.

(** "Exactly one [@], with at least one non-whitespace character before
    and after, and at least one [.] after the [@] segment." *)
Definition spec_email (s : jstring) : bool :=
  Nat.eqb (count_occ N.eq_dec s at_sign) 1 &&
  match split_at_sign s with
  | Some (before, after) =>
      existsb (fun c => negb (is_space c)) before &&
      existsb (fun c => negb (is_space c)) after &&
      existsb (N.eqb full_stop) after
  | None => false
  end.

(** A string the pattern accepts, spelled out: a local part, ['@'], and a
    domain with a ['.'] inside it, none of them empty and none holding
    white space or a second ['@']. *)
Definition email_shape (s : jstring) : Prop :=
  exists local d1 d2,
    s = local ++ [at_sign] ++ d1 ++ [full_stop] ++ d2 /\
    local <> [] /\ d1 <> [] /\ d2 <> [] /\
    Forall (fun c => not_space_at c = true) (local ++ d1 ++ d2).

(* ===================================================================== *)
(** * An in-memory double of the collaborators, for concrete runs *)
(* ===================================================================== *)

Fixpoint jstring_leb (a b : jstring) : bool :=
  match a, b with
  | [], _ => true
  | _ :: _, [] => false
  | x :: a', y :: b' => N.ltb x y || (N.eqb x y && jstring_leb a' b')
  end.

(** Tokens are kept in a table; a sign-up names the account after its
    email; a sign-in answers the token of the account with that email,
    whatever the password; text is ordered code unit by code unit and
    no string, array or object is below a number. *)
Definition double : Supabase :=
  {| AuthState := list (jstring * identity.t);
     getUser := fun sessions token =>
       option_map snd (find (fun s => jstring_eqb (fst s) token) sessions);
     signUp := fun sessions email password =>
       (inr (SignUpUser {| identity.id := email; identity.email := email |}),
        sessions);
     signInWithPassword := fun sessions email password =>
       (match find (fun s => jstring_eqb (identity.email (snd s)) email) sessions with
        | Some (token, user) =>
            inr (JsObject [(js "access_token", JsString token)], user)
        | None => inl (AuthApiError (js "Invalid login credentials"))
        end, sessions);
     resetPasswordForEmail := fun sessions _ => sessions;
     setSession := fun sessions _ => sessions;
     updateUser := fun sessions _ => (None, sessions);
     collate := jstring_leb;
     coerced_below := fun _ _ => false |}.

Module Example.

Definition ana : identity.t :=
  {| identity.id := js "u-ana"; identity.email := js "ana@loja.com" |}.
Definition bia : identity.t :=
  {| identity.id := js "u-bia"; identity.email := js "bia@loja.com" |}.
Definition root : identity.t :=
  {| identity.id := js "u-root"; identity.email := js "root@signalsafe.com.br" |}.

Definition user_row (i : identity.t) (admin : bool) : users.row :=
  {| users.id := identity.id i; users.email := identity.email i;
     users.user_name := identity.email i; users.is_admin := admin;
     users.auth_id := None |}.

Definition loja : estabelecimento.row :=
  {| estabelecimento.id := 7; estabelecimento.user_id := js "u-bia";
     estabelecimento.nome := js "Loja"; estabelecimento.cep := js "01000-000" |}.

Definition jammer (id : N) (on : bool) : jammers.row :=
  {| jammers.id := id; jammers.id_estabelecimento := 7;
     jammers.estado_jammer := on |}.

(** Ana and Bia are tenants, Bia owns establishment 7 with jammers 41
    and 42, and root is an administrator. *)
Definition sessions : list (jstring * identity.t) :=
  [(js "tok-ana", ana); (js "tok-bia", bia); (js "tok-root", root)].

Definition world : @World double :=
  {| auth := sessions : @AuthState double;
     tbl_users := [user_row ana false; user_row bia false; user_row root true];
     tbl_estabelecimento := [loja];
     tbl_jammers := [jammer 41 false; jammer 42 false];
     seq_estabelecimento := 8;
     seq_jammers := 43;
     calls := [];
     clock := js "2025-01-01T00:00:00.000Z" |}.

Definition request (r : Route) (token : option string) (b : body.t) : Request :=
  {| route := r;
     authorization :=
       option_map (fun t => js "Bearer " ++ js t) token;
     req_body := b |}.

Definition with_estado (b : bool) : body.t :=
  {| body.email := None; body.password := None; body.access_token := None;
     body.new_password := None; body.estado_jammer := Some b;
     body.user_id := None; body.nome := None; body.cep := None;
     body.id_estabelecimento := None |}.

Definition credentials (email password : string) : body.t :=
  {| body.email := Some (js email);
     body.password := Some (JsString (js password));
     body.access_token := None; body.new_password := None;
     body.estado_jammer := None; body.user_id := None; body.nome := None;
     body.cep := None; body.id_estabelecimento := None |}.

Definition both_jammers : list jammers.row := [jammer 41 false; jammer 42 false].

(** The [users] table with Ana flagged as administrator. *)
Definition admin_world : list users.row :=
  [user_row ana true; user_row bia false; user_row root true].

End Example.

(* ===================================================================== *)
(** * Vocabulary of the further properties *)
(* ===================================================================== *)

Definition owned_by (userId : jstring) (e : estabelecimento.row) : bool :=
  jstring_eqb (estabelecimento.user_id e) userId.

(** An entry of the [-completo] listing with its jammers put in
    ascending [id] order. *)
Definition jammers_by_id (ec : EstabCompleto) : EstabCompleto :=
  {| ec_estab := ec_estab ec;
     ec_jammers := order (by_number jammers.id) (ec_jammers ec);
     ec_total_jammers := ec_total_jammers ec |}.

(** An establishment with the jammers that point to it, in table order. *)
Definition with_jammers (table : list jammers.row) (e : estabelecimento.row)
  : EstabCompleto :=
  {| ec_estab := e;
     ec_jammers := filter (jammer_of (estabelecimento.id e)) table;
     ec_total_jammers :=
       List.length (filter (jammer_of (estabelecimento.id e)) table) |}.

(** [p] stands somewhere in [s]. *)
Definition occurs (p s : jstring) : Prop := exists a b, s = a ++ p ++ b.

(** The request with another [Authorization] header. *)
Definition with_authorization (h : option jstring) (req : Request) : Request :=
  {| route := route req; authorization := h; req_body := req_body req |}.

(** The routes on which a server resolves the token before it does
    anything else.  [API_node.js] leaves two routes without a check and
    looks at the body of a [PATCH] first. *)
Definition checks_token_first (s : Server) (req : Request) : bool :=
  match route req with
  | POST_signup | POST_login | POST_forgot_password | POST_reset_password
  | GET_health => false
  | GET_user_estabelecimentos_completo _ | GET_estabelecimento_jammers _ =>
      match s with
      | API_node_js => false
      | part_000_js => true
      end
  | PATCH_jammer _ =>
      match s with
      | API_node_js =>
          match body.estado_jammer (req_body req) with
          | Some _ => true
          | None => false
          end
      | part_000_js => true
      end
  | _ => true
  end.
(** A 401 that is not the answer to a missing token. *)
Definition token_rejected (r : Response) : Prop :=
  status r = 401 /\
  exists m, json r = JError (Lit m) /\ m <> "Token não fornecido."%string.

(** The row [POST /signup] inserts for the account the provider made. *)
Definition signed_up (user : identity.t) (email : jstring) : users.row :=
  {| users.id := identity.id user; users.email := email;
     users.user_name := email; users.is_admin := false;
     users.auth_id := None |}.

Definition has_email (email : jstring) (u : users.row) : bool :=
  jstring_eqb (users.email u) email.

Definition is_user (id : jstring) (u : users.row) : bool :=
  jstring_eqb (users.id u) id.

(** The row [POST /admin/estabelecimento] inserts, numbered by the
    sequence. *)
Definition new_estabelecimento (id : N) (user_id nome cep : jstring)
  : estabelecimento.row :=
  {| estabelecimento.id := id; estabelecimento.user_id := user_id;
     estabelecimento.nome := nome; estabelecimento.cep := cep |}.

(** The row [POST /admin/jammer] inserts; a body without [estado_jammer]
    gives a jammer that is off. *)
Definition new_jammer (id id_estabelecimento : N) (estado_jammer : option bool)
  : jammers.row :=
  {| jammers.id := id; jammers.id_estabelecimento := id_estabelecimento;
     jammers.estado_jammer :=
       match estado_jammer with Some b => b | None => false end |}.

(** The world after [verificarAdmin] has let a request through. *)
Definition admitted `{Supabase} (token : jstring) (w : World) : World :=
  called (from_select T_users) (called (auth_getUser token) w).

(** The request comes from a principal whose one [users] row is flagged
    as administrator. *)
Definition is_admin_request `{Supabase} (s : Server) (req : Request) (w : World)
    (token : jstring) : Prop :=
  exists user userData,
    presented s req = Some token /\
    getUser (auth w) token = Some user /\
    filter (is_user (identity.id user)) (tbl_users w) = [userData] /\
    users.is_admin userData = true.

Definition writes_users (r : Route) : bool :=
  match r with
  | POST_signup => true
  | _ => false
  end.

Definition writes_estabelecimento (r : Route) : bool :=
  match r with
  | Admin POST_admin_estabelecimento | Admin (DELETE_admin_estabelecimento _) => true
  | _ => false
  end.

Definition writes_jammers (r : Route) : bool :=
  match r with
  | PATCH_jammer _ | Admin POST_admin_jammer | Admin (DELETE_admin_jammer _)
  | Admin (DELETE_admin_estabelecimento _) => true
  | _ => false
  end.

(** What one request may do to each table. *)
Definition users_effect (r : Route) (before after : list users.row) : Prop :=
  after = before \/
  (r = POST_signup /\
   exists u, after = before ++ [u] /\ users.is_admin u = false).

Definition estabelecimento_effect (r : Route) (seq : N)
    (before after : list estabelecimento.row) : Prop :=
  after = before \/
  (r = Admin POST_admin_estabelecimento /\
   exists e, after = before ++ [e] /\ estabelecimento.id e = seq) \/
  (exists id, r = Admin (DELETE_admin_estabelecimento id) /\
              after = filter (fun e => negb (is_estab id e)) before).

Definition jammers_effect (r : Route) (seq : N)
    (before after : list jammers.row) : Prop :=
  after = before \/
  (r = Admin POST_admin_jammer /\
   exists j, after = before ++ [j] /\ jammers.id j = seq) \/
  (exists jammerId estado,
     r = PATCH_jammer jammerId /\
     after = map (fun j => if has_id jammerId j then switched estado j else j) before) \/
  (exists id, r = Admin (DELETE_admin_jammer id) /\
              after = filter (fun j => negb (has_id id j)) before) \/
  (exists id, r = Admin (DELETE_admin_estabelecimento id) /\
              after = filter (fun j => negb (jammer_of id j)) before).
(** An answer that turns the request away: 401, 403 or 404. *)
Definition refused (r : Response) : Prop :=
  status r = 401 \/ status r = 403 \/ status r = 404.

(** [occurs], decided. *)
Fixpoint occursb (p s : jstring) : bool :=
  match strip_prefix p s with
  | Some _ => true
  | None =>
      match s with
      | [] => false
      | _ :: s' => occursb p s'
      end
  end.

Module Sample.
Import Example.

Definition header (r : Route) (h : option string) (b : body.t) : Request :=
  {| route := r; authorization := option_map js h; req_body := b |}.


Definition email_body (email : string) : body.t :=
  {| body.email := Some (js email); body.password := None;
     body.access_token := None; body.new_password := None;
     body.estado_jammer := None; body.user_id := None; body.nome := None;
     body.cep := None; body.id_estabelecimento := None |}.

Definition estabelecimento_body (user_id nome cep : string) : body.t :=
  {| body.email := None; body.password := None; body.access_token := None;
     body.new_password := None; body.estado_jammer := None;
     body.user_id := Some (js user_id); body.nome := Some (js nome);
     body.cep := Some (js cep); body.id_estabelecimento := None |}.

Definition jammer_body (id_estabelecimento : N) : body.t :=
  {| body.email := None; body.password := None; body.access_token := None;
     body.new_password := None; body.estado_jammer := None;
     body.user_id := None; body.nome := None; body.cep := None;
     body.id_estabelecimento := Some id_estabelecimento |}.


(** A body with an email and a password of any kind. *)
Definition password_body (email : string) (password : JsValue) : body.t :=
  {| body.email := Some (js email); body.password := Some password;
     body.access_token := None; body.new_password := None;
     body.estado_jammer := None; body.user_id := None; body.nome := None;
     body.cep := None; body.id_estabelecimento := None |}.


(** The example world without Ana's user record: the provider resolves
    her token and [users] has no row for her, as after a sign-up whose
    insert failed. *)
Definition without_ana : @World double :=
  set_users (H := double) [user_row bia false; user_row root true] world.

End Sample.


(* ===================================================================== *)
(** * Strings *)
(* ===================================================================== *)

Lemma jstring_eqb_spec (a b : jstring) : reflect (a = b) (jstring_eqb a b).
Proof.
  revert b; induction a as [|x a IH]; intros [|y b]; simpl;
    try (constructor; congruence).
  destruct (N.eqb_spec x y) as [->|Hxy]; simpl.
  - destruct (IH b) as [->|Hab]; constructor; congruence.
  - constructor; congruence.
Qed.

Lemma jstring_eqb_refl (a : jstring) : jstring_eqb a a = true.
Proof. destruct (jstring_eqb_spec a a); congruence. Qed.

Lemma jstring_eqb_neq (a b : jstring) : a <> b -> jstring_eqb a b = false.
Proof. destruct (jstring_eqb_spec a b); congruence. Qed.

(* ===================================================================== *)
(** * The matcher decides the language *)
(* ===================================================================== *)

Module RegexFacts.
Import Regex.

Lemma app_nil_both (s1 s2 : jstring) : s1 ++ s2 = [] -> s1 = [] /\ s2 = [].
Proof. destruct s1; simpl; intros E; [auto | discriminate]. Qed.

Lemma nullable_lang (r : re) : nullable r = true <-> lang r [].
Proof.
  induction r as [| |p|r1 IH1 r2 IH2|r1 IH1 r2 IH2|r IH]; simpl.
  - split; [discriminate | intros L; inversion L].
  - split; [intros _; constructor | reflexivity].
  - split; [discriminate | intros L; inversion L].
  - rewrite andb_true_iff, IH1, IH2. split.
    + intros [L1 L2]. exact (LCat L1 L2).
    + intros L. inversion L as [| |a b s1 s2 L1 L2 Ea Es| | | |]; subst.
      destruct (app_nil_both _ _ Es) as [-> ->]. auto.
  - rewrite orb_true_iff, IH1, IH2. split.
    + intros [L|L]; [apply LAltL | apply LAltR]; exact L.
    + intros L. inversion L; subst; auto.
  - split; [intros _; constructor | reflexivity].
Qed.

Lemma deriv_sound (c : char16) (r : re) :
  forall s, lang (deriv c r) s -> lang r (c :: s).
Proof.
  induction r as [| |p|r1 IH1 r2 IH2|r1 IH1 r2 IH2|r IH]; simpl; intros s L.
  - inversion L.
  - inversion L.
  - destruct (p c) eqn:Hp; inversion L; subst. constructor; exact Hp.
  - destruct (nullable r1) eqn:Hn.
    + inversion L as [| | |a b s0 La|a b s0 Lb| |]; subst.
      * inversion La as [| |a b s1 s2 L1 L2| | | |]; subst.
        apply (LCat (IH1 _ L1) L2).
      * apply nullable_lang in Hn.
        apply (LCat (s1 := []) Hn (IH2 _ Lb)).
    + inversion L as [| |a b s1 s2 L1 L2| | | |]; subst.
      apply (LCat (IH1 _ L1) L2).
  - inversion L; subst; [apply LAltL | apply LAltR]; auto.
  - inversion L as [| |a b s1 s2 L1 L2| | | |]; subst.
    apply (LStarS (IH _ L1) L2).
Qed.

Lemma deriv_complete (r : re) (s' : jstring) :
  lang r s' -> forall c s, s' = c :: s -> lang (deriv c r) s.
Proof.
  induction 1 as [|p c0 Hp|r1 r2 s1 s2 L1 IH1 L2 IH2|r1 r2 s0 L IH
                  |r1 r2 s0 L IH| |r0 s1 s2 L1 IH1 L2 IH2];
    intros c s E; simpl.
  - discriminate.
  - injection E as -> <-. rewrite Hp. constructor.
  - destruct s1 as [|c1 s1]; simpl in E.
    + assert (Hn : nullable r1 = true) by (apply nullable_lang; exact L1).
      rewrite Hn. apply LAltR. apply IH2; exact E.
    + injection E as -> <-.
      assert (Lc : lang (Cat (deriv c r1) r2) (s1 ++ s2))
        by (apply LCat; [apply IH1; reflexivity | exact L2]).
      destruct (nullable r1); [apply LAltL|]; exact Lc.
  - apply LAltL. apply IH; exact E.
  - apply LAltR. apply IH; exact E.
  - discriminate.
  - destruct s1 as [|c1 s1]; simpl in E.
    + apply IH2; exact E.
    + injection E as -> <-. apply LCat; [apply IH1; reflexivity | exact L2].
Qed.

Lemma test_lang (s : jstring) : forall r, test r s = true <-> lang r s.
Proof.
  induction s as [|c s IH]; intros r; simpl.
  - apply nullable_lang.
  - rewrite IH. split.
    + apply deriv_sound.
    + intros L. apply (deriv_complete L); reflexivity.
Qed.

(** ** The shapes the email pattern is built from *)

Lemma lang_cat (r1 r2 : re) (s : jstring) :
  lang (Cat r1 r2) s <-> exists s1 s2, s = s1 ++ s2 /\ lang r1 s1 /\ lang r2 s2.
Proof.
  split.
  - intros L; inversion L; subst; eauto.
  - intros (s1 & s2 & -> & L1 & L2). exact (LCat L1 L2).
Qed.

Lemma lang_chr (c : char16) (s : jstring) : lang (Chr c) s <-> s = [c].
Proof.
  unfold Chr. split.
  - intros L; inversion L as [|p c' Hp| | | | |]; subst.
    apply N.eqb_eq in Hp. congruence.
  - intros ->. constructor. apply N.eqb_refl.
Qed.

Lemma lang_star_class (p : char16 -> bool) (s : jstring) :
  lang (Star (Class p)) s <-> Forall (fun c => p c = true) s.
Proof.
  split.
  - intros L. remember (Star (Class p)) as r eqn:Er.
    induction L as [| | | | | |r0 s1 s2 L1 _ L2 IH2]; try discriminate.
    + constructor.
    + injection Er as ->. inversion L1; subst. simpl.
      constructor; [assumption | apply IH2; reflexivity].
  - induction 1 as [|c s Hc _ IH].
    + constructor.
    + apply (LStarS (s1 := [c]) (LClass p c Hc) IH).
Qed.

Lemma lang_plus_class (p : char16 -> bool) (s : jstring) :
  lang (Plus (Class p)) s <-> s <> [] /\ Forall (fun c => p c = true) s.
Proof.
  unfold Plus. rewrite lang_cat. split.
  - intros (s1 & s2 & -> & L1 & L2). inversion L1; subst.
    apply lang_star_class in L2. simpl. split; [discriminate|].
    constructor; assumption.
  - intros [Hne Hall]. destruct s as [|c s]; [congruence|].
    inversion Hall; subst. exists [c], s. repeat split.
    + constructor; assumption.
    + apply lang_star_class; assumption.
Qed.

End RegexFacts.

Lemma validateEmail_shape (s : jstring) : validateEmail s = true <-> email_shape s.
Proof.
  unfold validateEmail, email_shape, email_re.
  rewrite RegexFacts.test_lang. split.
  - intros L.
    apply RegexFacts.lang_cat in L as (l & t1 & -> & Ll & L).
    apply RegexFacts.lang_cat in L as (a & t2 & -> & La & L).
    apply RegexFacts.lang_cat in L as (d1 & t3 & -> & Ld1 & L).
    apply RegexFacts.lang_cat in L as (dot & d2 & -> & Ldot & Ld2).
    apply RegexFacts.lang_chr in La as ->.
    apply RegexFacts.lang_chr in Ldot as ->.
    apply RegexFacts.lang_plus_class in Ll as [Hl Fl].
    apply RegexFacts.lang_plus_class in Ld1 as [Hd1 Fd1].
    apply RegexFacts.lang_plus_class in Ld2 as [Hd2 Fd2].
    exists l, d1, d2. repeat split; auto.
    rewrite !Forall_app; auto.
  - intros (l & d1 & d2 & -> & Hl & Hd1 & Hd2 & F).
    rewrite !Forall_app in F. destruct F as (Fl & Fd1 & Fd2).
    apply RegexFacts.lang_cat. exists l, ([at_sign] ++ d1 ++ [full_stop] ++ d2).
    split; [reflexivity|]. split; [apply RegexFacts.lang_plus_class; auto|].
    apply RegexFacts.lang_cat. exists [at_sign], (d1 ++ [full_stop] ++ d2).
    split; [reflexivity|]. split; [apply RegexFacts.lang_chr; reflexivity|].
    apply RegexFacts.lang_cat. exists d1, ([full_stop] ++ d2).
    split; [reflexivity|]. split; [apply RegexFacts.lang_plus_class; auto|].
    apply RegexFacts.lang_cat. exists [full_stop], d2.
    split; [reflexivity|]. split; [apply RegexFacts.lang_chr; reflexivity|].
    apply RegexFacts.lang_plus_class; auto.
Qed.

(* ===================================================================== *)
(** * The pattern against the wording of the specification *)
(* ===================================================================== *)

Lemma not_space_at_inv (c : char16) :
  not_space_at c = true -> is_space c = false /\ c <> at_sign.
Proof.
  unfold not_space_at. rewrite andb_true_iff, !negb_true_iff.
  intros [Hs Ha]. split; [exact Hs | now apply N.eqb_neq].
Qed.

Lemma count_at_sign_free (s : jstring) :
  Forall (fun c => not_space_at c = true) s -> count_occ N.eq_dec s at_sign = 0.
Proof.
  induction 1 as [|c s Hc _ IH]; simpl; [reflexivity|].
  apply not_space_at_inv in Hc as [_ Hc].
  destruct (N.eq_dec c at_sign); [contradiction | exact IH].
Qed.

Lemma split_at_sign_first (before after : jstring) :
  Forall (fun c => not_space_at c = true) before ->
  split_at_sign (before ++ at_sign :: after) = Some (before, after).
Proof.
  induction 1 as [|c s Hc _ IH]; simpl; [reflexivity|].
  apply not_space_at_inv in Hc as [_ Hc].
  apply N.eqb_neq in Hc. rewrite Hc, IH. reflexivity.
Qed.

Lemma exists_non_space (s : jstring) :
  s <> [] -> Forall (fun c => not_space_at c = true) s ->
  existsb (fun c => negb (is_space c)) s = true.
Proof.
  intros Hne F. destruct s as [|c s]; [congruence|].
  inversion F as [|? ? Hc _]; subst.
  apply not_space_at_inv in Hc as [Hc _]. simpl. rewrite Hc. reflexivity.
Qed.

(** What the pattern accepts satisfies the wording. *)
Lemma validateEmail_spec_email (s : jstring) :
  validateEmail s = true -> spec_email s = true.
Proof.
  rewrite validateEmail_shape.
  intros (l & d1 & d2 & -> & Hl & Hd1 & Hd2 & F).
  rewrite !Forall_app in F. destruct F as (Fl & Fd1 & Fd2).
  unfold spec_email.
  change (l ++ [at_sign] ++ d1 ++ [full_stop] ++ d2)
    with (l ++ at_sign :: (d1 ++ full_stop :: d2)).
  rewrite split_at_sign_first by exact Fl.
  rewrite count_occ_app. simpl count_occ.
  destruct (N.eq_dec at_sign at_sign) as [_|Hn]; [|congruence].
  rewrite count_occ_app. simpl count_occ.
  destruct (N.eq_dec full_stop at_sign) as [Hd|_]; [discriminate Hd|].
  rewrite !count_at_sign_free by assumption. simpl Nat.eqb.
  rewrite exists_non_space by assumption.
  rewrite !existsb_app. rewrite exists_non_space by assumption.
  simpl. rewrite orb_true_r. reflexivity.
Qed.

(* ===================================================================== *)
(** * Running the middleware *)
(* ===================================================================== *)

Section Gates.
Context `{Supabase}.

Lemma presented_API_node (req : Request) (token : jstring) :
  presented API_node_js req = Some token ->
  truthy (API_node.bearer req) = true /\ text (API_node.bearer req) = token.
Proof.
  unfold presented. destruct (truthy (API_node.bearer req)); [|discriminate].
  intros ->. auto.
Qed.

Lemma presented_part_000 (req : Request) (token : jstring) :
  presented part_000_js req = Some token ->
  truthy (authorization req) = true /\
  remove_first (js "Bearer ") (text (authorization req)) = token.
Proof.
  unfold presented. destruct (truthy (authorization req)); [|discriminate].
  intros [= <-]. auto.
Qed.

(** [verificarAutenticacao] lets an authenticated request through, with
    one call on the provider. *)
Lemma verificarAutenticacao_next (req : Request) (w : World)
    (token : jstring) (user : identity.t) :
  presented part_000_js req = Some token ->
  getUser (auth w) token = Some user ->
  part_000.verificarAutenticacao req w = (Next user, called (auth_getUser token) w).
Proof.
  intros P G. apply presented_part_000 in P as [T <-].
  unfold part_000.verificarAutenticacao. rewrite T. simpl.
  unfold bind, supabase_auth_getUser. rewrite G. reflexivity.
Qed.

(** Without an [Authorization] header it answers 401 and touches
    nothing. *)
Lemma verificarAutenticacao_no_header (req : Request) (w : World) :
  truthy (authorization req) = false ->
  part_000.verificarAutenticacao req w =
    (Sent {| status := 401; json := JError (Lit "Token não fornecido.") |}, w).
Proof.
  intros T. unfold part_000.verificarAutenticacao. rewrite T. reflexivity.
Qed.

Lemma app_admin (s : Server) (req : Request) (r : AdminRoute) :
  route req = Admin r ->
  app s req = bind (verificarAdmin s req) (fun _ => admin_handler r req).
Proof. intros R. destruct s; simpl; unfold API_node.app, part_000.app; rewrite R; reflexivity. Qed.

(** A principal without a row in [users]: [API_node.js] answers 403, the
    refactored server 500. *)
Lemma verificarAdmin_without_record (s : Server) (req : Request) (w : World)
    (token : jstring) (user : identity.t) :
  presented s req = Some token ->
  getUser (auth w) token = Some user ->
  filter (fun u => jstring_eqb (users.id u) (identity.id user)) (tbl_users w) = [] ->
  verificarAdmin s req w =
    (Sent match s with
          | API_node_js =>
              {| status := 403;
                 json := JError (Lit "Acesso negado. Apenas administradores.") |}
          | part_000_js =>
              {| status := 500;
                 json := JError (Lit "Erro ao verificar permissões.") |}
          end,
     called (from_select T_users) (called (auth_getUser token) w)).
Proof.
  intros P G F. destruct s; simpl.
  - apply presented_API_node in P as [T <-].
    unfold API_node.verificarAdmin. rewrite T. simpl.
    unfold bind, supabase_auth_getUser. rewrite G.
    unfold select. simpl. rewrite F. reflexivity.
  - apply presented_part_000 in P as [T <-].
    unfold part_000.verificarAdmin. rewrite T. simpl.
    unfold bind, supabase_auth_getUser. rewrite G.
    unfold select. simpl. rewrite F. reflexivity.
Qed.

Lemma verificarAdmin_gate (s : Server) (req : Request) (w : World)
    (token : jstring) (user : identity.t) (userData : users.row) :
  presented s req = Some token ->
  getUser (auth w) token = Some user ->
  filter (fun u => jstring_eqb (users.id u) (identity.id user)) (tbl_users w)
    = [userData] ->
  verificarAdmin s req w =
    (if users.is_admin userData
     then Next user
     else Sent {| status := 403;
                  json := JError (Lit "Acesso negado. Apenas administradores.") |},
     called (from_select T_users) (called (auth_getUser token) w)).
Proof.
  intros P G F. destruct s; simpl.
  - apply presented_API_node in P as [T <-].
    unfold API_node.verificarAdmin. rewrite T. simpl.
    unfold bind, supabase_auth_getUser. rewrite G.
    unfold select. simpl. rewrite F. simpl.
    destruct (users.is_admin userData); reflexivity.
  - apply presented_part_000 in P as [T <-].
    unfold part_000.verificarAdmin. rewrite T. simpl.
    unfold bind, supabase_auth_getUser. rewrite G.
    unfold select. simpl. rewrite F. simpl.
    destruct (users.is_admin userData); reflexivity.
Qed.

End Gates.

(* ===================================================================== *)
(** * The handlers behind the admin gate read the body and the store only *)
(* ===================================================================== *)

Section AdminHandlers.
Context `{Supabase}.

Lemma same_store_called (c : Call) (w : World) : same_store (called c w) w.
Proof. repeat split. Qed.

Lemma same_store_sym (w1 w2 : World) : same_store w1 w2 -> same_store w2 w1.
Proof. intros (A & B & C). repeat split; auto. Qed.

Lemma same_store_trans (w1 w2 w3 : World) :
  same_store w1 w2 -> same_store w2 w3 -> same_store w1 w3.
Proof.
  intros (A & B & C) (A' & B' & C').
  repeat split; etransitivity; eauto.
Qed.

Lemma admin_handler_frame (r : AdminRoute) (req1 req2 : Request) (w1 w2 : World) :
  req_body req1 = req_body req2 ->
  same_store w1 w2 ->
  fst (finish (admin_handler r req1) w1) = fst (finish (admin_handler r req2) w2) /\
  same_store (snd (finish (admin_handler r req1) w1))
             (snd (finish (admin_handler r req2) w2)).
Proof.
  intros B (D & S1 & S2).
  destruct req1 as [r1 a1 b1], req2 as [r2 a2 b2]; simpl in B; subst b2.
  destruct w1 as [au1 us1 es1 js1 se1 sj1 c1], w2 as [au2 us2 es2 js2 se2 sj2 c2].
  unfold db in D; simpl in D, S1, S2. injection D as -> -> ->. subst.
  destruct r; unfold admin_handler, finish, same_store, db; simpl.
  all: unfold admin_usuarios, admin_criar_estabelecimento, admin_criar_jammer,
    admin_estabelecimentos, admin_jammers, admin_deletar_estabelecimento,
    admin_deletar_jammer, bind, select, select_with, delete, delete_single,
    insert_estabelecimento, insert_jammers, res_json, single; simpl.
  all: repeat match goal with
       | |- context [filter ?p ?l] => destruct (filter p l) as [|? [|? ?]]; simpl
       | |- context [existsb ?p ?l] => destruct (existsb p l); simpl
       | |- context [truthy ?o] => destruct (truthy o); simpl
       | |- context [falsy_number ?o] => destruct (falsy_number o); simpl
       end; auto.
Qed.

End AdminHandlers.

(* ===================================================================== *)
(** * Admin routes *)
(* ===================================================================== *)

Lemma admin_prefix (r : Route) :
  String.prefix "/admin/" (pattern r) = true <-> exists a, r = Admin a.
Proof.
  split.
  - destruct r as [| | | | | | | | |a|]; simpl; try discriminate. eauto.
  - intros [a ->]. destruct a; reflexivity.
Qed.

Section AdminGate.
Context `{Supabase}.

Lemma handle_admin_refused (s : Server) (req : Request) (a : AdminRoute)
    (w w' : World) (r : Response) :
  route req = Admin a ->
  verificarAdmin s req w = (Sent r, w') ->
  handle s req w = (r, w').
Proof.
  intros R V. unfold handle, finish. rewrite (app_admin s req R).
  unfold bind. rewrite V. reflexivity.
Qed.

Lemma handle_admin_passed (s : Server) (req : Request) (a : AdminRoute)
    (w w' : World) (user : identity.t) :
  route req = Admin a ->
  verificarAdmin s req w = (Next user, w') ->
  handle s req w = finish (admin_handler a req) w'.
Proof.
  intros R V. unfold handle, finish. rewrite (app_admin s req R).
  unfold bind. rewrite V. reflexivity.
Qed.

(** The admin gate for a principal with one user record.  On every
    route registered under [/admin/], an authenticated principal whose
    user record has [is_admin = false] is answered 403
    after the gate's two reads, with no row changed and nothing of the
    handler run.  A principal whose record has [is_admin = true] gets
    the handler's own answer, and that answer and the rows it leaves are
    the same for any other admin principal sending the same body: no
    resource is compared against the principal. *)
Theorem admin_routes_gate (s : Server) (req : Request) (w : World)
    (token : jstring) (user : identity.t) (userData : users.row) :
  String.prefix "/admin/" (pattern (route req)) = true ->
  presented s req = Some token ->
  getUser (auth w) token = Some user ->
  filter (fun u => jstring_eqb (users.id u) (identity.id user)) (tbl_users w)
    = [userData] ->
  let gated := called (from_select T_users) (called (auth_getUser token) w) in
  (users.is_admin userData = false ->
     handle s req w =
       ({| status := 403;
           json := JError (Lit "Acesso negado. Apenas administradores.") |},
        gated) /\
     db gated = db w) /\
  (users.is_admin userData = true ->
     exists a, route req = Admin a /\
       handle s req w = finish (admin_handler a req) gated /\
       forall req' token' user' userData',
         route req' = route req ->
         req_body req' = req_body req ->
         presented s req' = Some token' ->
         getUser (auth w) token' = Some user' ->
         filter (fun u => jstring_eqb (users.id u) (identity.id user'))
           (tbl_users w) = [userData'] ->
         users.is_admin userData' = true ->
         fst (handle s req' w) = fst (handle s req w) /\
         same_store (snd (handle s req' w)) (snd (handle s req w))).
Proof.
  intros R P G F gated.
  apply admin_prefix in R as [a R].
  pose proof (verificarAdmin_gate s req w P G F) as V. fold gated in V.
  split.
  - intros A. rewrite A in V. split; [|reflexivity].
    exact (handle_admin_refused s req w R V).
  - intros A. rewrite A in V. exists a. split; [exact R|].
    pose proof (handle_admin_passed s req w R V) as E.
    split; [exact E|].
    intros req' token' user' userData' R' B' P' G' F' A'.
    pose proof (verificarAdmin_gate s req' w P' G' F') as V'.
    rewrite A' in V'. rewrite R in R'.
    rewrite (handle_admin_passed s req' w R' V'), E.
    apply admin_handler_frame; [exact B'|].
    apply same_store_trans with w.
    + apply same_store_trans with (called (auth_getUser token') w);
        apply same_store_called.
    + apply same_store_sym.
      apply same_store_trans with (called (auth_getUser token) w);
        apply same_store_called.
Qed.

End AdminGate.

(* ===================================================================== *)
(** * [PATCH /jammer/:jammerId] *)
(* ===================================================================== *)

Section PatchJammer.
Context `{Supabase}.

(** Both servers, once the body carries a state and the token has been
    resolved, do the same thing. *)
Lemma patch_jammer_run (s : Server) (req : Request) (w : World)
    (jammerId : N) (estado : bool) (token : jstring) (user : identity.t) :
  route req = PATCH_jammer jammerId ->
  body.estado_jammer (req_body req) = Some estado ->
  presented s req = Some token ->
  getUser (auth w) token = Some user ->
  handle s req w =
    let looked := called (from_select T_jammers) (called (auth_getUser token) w) in
    match filter (has_id jammerId) (tbl_jammers w) with
    | [j] =>
        match find (parent_of j) (tbl_estabelecimento w) with
        | None =>
            ({| status := 500; json := JError (Lit "Erro interno do servidor.") |},
             looked)
        | Some estab =>
            if jstring_eqb (estabelecimento.user_id estab) (identity.id user)
            then
              ({| status := 200;
                  json := JJammer (Lit "Jammer atualizado com sucesso.")
                            (switched estado j) |},
               set_jammers
                 (map (fun r => if has_id jammerId r then switched estado r else r)
                    (tbl_jammers w))
                 (called (from_update T_jammers) looked))
            else
              ({| status := 403;
                  json := JError
                    (Lit "Você não tem permissão para alterar este jammer.") |},
               looked)
        end
    | _ =>
        ({| status := 404; json := JError (Lit "Jammer não encontrado.") |},
         looked)
    end.
Proof.
  intros R B P G.
  destruct s; unfold handle, finish, app.
  - apply presented_API_node in P as [T <-].
    unfold API_node.app. rewrite R. unfold API_node.patch_jammer.
    rewrite B, T. simpl.
    unfold bind, supabase_auth_getUser. rewrite G.
    unfold select_with, update_single, embed_estabelecimento, single. simpl.
    fold (has_id jammerId).
    destruct (filter (has_id jammerId) (tbl_jammers w)) as [|j [|j' l]] eqn:F;
      simpl; try reflexivity.
    fold (parent_of j).
    destruct (find (parent_of j) (tbl_estabelecimento w)) as [estab|]; simpl;
      try reflexivity.
    destruct (jstring_eqb (estabelecimento.user_id estab) (identity.id user));
      simpl; [|reflexivity].
    fold (has_id jammerId). rewrite F. reflexivity.
  - apply presented_part_000 in P as [T <-].
    unfold part_000.app. rewrite R.
    unfold bind, part_000.verificarAutenticacao. rewrite T. simpl.
    unfold bind, supabase_auth_getUser. rewrite G.
    unfold part_000.patch_jammer. rewrite B.
    unfold bind, select_with, update_single, embed_estabelecimento, single. simpl.
    fold (has_id jammerId).
    destruct (filter (has_id jammerId) (tbl_jammers w)) as [|j [|j' l]] eqn:F;
      simpl; try reflexivity.
    fold (parent_of j).
    destruct (find (parent_of j) (tbl_estabelecimento w)) as [estab|]; simpl;
      try reflexivity.
    destruct (jstring_eqb (estabelecimento.user_id estab) (identity.id user));
      simpl; [|reflexivity].
    fold (has_id jammerId). rewrite F. reflexivity.
Qed.

(** Without [estado_jammer] in the body both servers answer 400 and change
    no row: [API_node.js] before it reads the header, the refactored
    server after the middleware has resolved the token. *)
Lemma patch_jammer_without_state (s : Server) (req : Request) (w : World)
    (jammerId : N) (token : jstring) (user : identity.t) :
  route req = PATCH_jammer jammerId ->
  body.estado_jammer (req_body req) = None ->
  presented s req = Some token ->
  getUser (auth w) token = Some user ->
  handle s req w =
    ({| status := 400; json := JError (Lit "estado_jammer é obrigatório.") |},
     match s with
     | API_node_js => w
     | part_000_js => called (auth_getUser token) w
     end).
Proof.
  intros R B P G. destruct s; unfold handle, finish, app.
  - unfold API_node.app. rewrite R. unfold API_node.patch_jammer.
    rewrite B. reflexivity.
  - unfold part_000.app. rewrite R. unfold bind.
    rewrite (verificarAutenticacao_next req w P G).
    unfold part_000.patch_jammer. rewrite B. reflexivity.
Qed.

End PatchJammer.

Section PatchJammerClaims.
Context `{Supabase}.

Lemma has_id_switched (estado : bool) (jammerId : N) (j : jammers.row) :
  has_id jammerId (switched estado j) = has_id jammerId j.
Proof. reflexivity. Qed.

Lemma filter_switched (estado : bool) (jammerId : N) (l : list jammers.row) :
  filter (has_id jammerId)
    (map (fun r => if has_id jammerId r then switched estado r else r) l)
  = map (switched estado) (filter (has_id jammerId) l).
Proof.
  induction l as [|r l IH]; cbn [map filter]; [reflexivity|].
  destruct (has_id jammerId r) eqn:E; cbn [map filter].
  - rewrite has_id_switched, E, IH. reflexivity.
  - rewrite E. exact IH.
Qed.

Lemma switch_twice (estado : bool) (jammerId : N) (l : list jammers.row) :
  let f := fun r => if has_id jammerId r then switched estado r else r in
  map f (map f l) = map f l.
Proof.
  intros f. rewrite map_map. apply map_ext. intros r. unfold f.
  destruct (has_id jammerId r) eqn:E.
  - rewrite has_id_switched, E. reflexivity.
  - rewrite E. reflexivity.
Qed.

(** C3, amended.  An authenticated [PATCH /jammer/:jammerId] whose body
    carries [estado_jammer]: when no jammer has that id the answer is
    404, whoever the principal is and whatever the establishments are;
    when the jammer is there and its parent establishment belongs to
    another user the answer is 403, and no row has changed. *)
Theorem patch_jammer_not_found_before_forbidden (s : Server) (req : Request)
    (w : World) (jammerId : N) (estado : bool) (token : jstring)
    (user : identity.t) :
  route req = PATCH_jammer jammerId ->
  body.estado_jammer (req_body req) = Some estado ->
  presented s req = Some token ->
  getUser (auth w) token = Some user ->
  let looked := called (from_select T_jammers) (called (auth_getUser token) w) in
  (filter (has_id jammerId) (tbl_jammers w) = [] ->
     handle s req w =
       ({| status := 404; json := JError (Lit "Jammer não encontrado.") |},
        looked)) /\
  (forall j estab,
     filter (has_id jammerId) (tbl_jammers w) = [j] ->
     find (parent_of j) (tbl_estabelecimento w) = Some estab ->
     estabelecimento.user_id estab <> identity.id user ->
     handle s req w =
       ({| status := 403;
           json := JError
             (Lit "Você não tem permissão para alterar este jammer.") |},
        looked) /\
     db looked = db w).
Proof.
  intros R B P G looked.
  pose proof (patch_jammer_run s req w R B P G) as E. simpl in E. fold looked in E.
  split.
  - intros F. rewrite F in E. exact E.
  - intros j estab F Par Own. rewrite F, Par in E.
    rewrite (jstring_eqb_neq Own) in E. split; [exact E | reflexivity].
Qed.

(** C9.  A jammer of an establishment the caller owns, switched to a
    state and then switched to the same state again: both requests are
    answered 200 with the same row, and the second leaves every table
    as the first left it. *)
Theorem patch_jammer_idempotent (s : Server) (req : Request) (w : World)
    (jammerId : N) (estado : bool) (token : jstring) (user : identity.t)
    (j : jammers.row) (estab : estabelecimento.row) :
  route req = PATCH_jammer jammerId ->
  body.estado_jammer (req_body req) = Some estado ->
  presented s req = Some token ->
  getUser (auth w) token = Some user ->
  filter (has_id jammerId) (tbl_jammers w) = [j] ->
  find (parent_of j) (tbl_estabelecimento w) = Some estab ->
  estabelecimento.user_id estab = identity.id user ->
  let once := handle s req w in
  let twice := handle s req (snd once) in
  fst once =
    {| status := 200;
       json := JJammer (Lit "Jammer atualizado com sucesso.") (switched estado j) |} /\
  fst twice = fst once /\
  db (snd twice) = db (snd once) /\
  filter (has_id jammerId) (tbl_jammers (snd once)) = [switched estado j] /\
  filter (has_id jammerId) (tbl_jammers (snd twice)) = [switched estado j].
Proof.
  intros R B P G F Par Own once twice.
  pose proof (patch_jammer_run s req w R B P G) as E. simpl in E.
  rewrite F, Par, Own, jstring_eqb_refl in E.
  assert (F1 : filter (has_id jammerId) (tbl_jammers (snd once))
               = [switched estado j]).
  { unfold once. rewrite E. simpl. rewrite filter_switched, F. reflexivity. }
  assert (G1 : getUser (auth (snd once)) token = Some user).
  { unfold once. rewrite E. exact G. }
  assert (Par1 : find (parent_of (switched estado j))
                   (tbl_estabelecimento (snd once)) = Some estab).
  { unfold once. rewrite E. exact Par. }
  pose proof (patch_jammer_run s req (snd once) R B P G1) as E2. simpl in E2.
  rewrite F1, Par1, Own, jstring_eqb_refl in E2. fold twice in E2.
  fold once in E.
  assert (T : tbl_jammers (snd twice) = tbl_jammers (snd once)).
  { rewrite E2. simpl. rewrite E. simpl. apply switch_twice. }
  repeat split.
  - rewrite E. reflexivity.
  - rewrite E2, E. reflexivity.
  - unfold db. rewrite T. rewrite E2. reflexivity.
  - exact F1.
  - rewrite T. exact F1.
Qed.

(** C10, amended.  On [PATCH /jammer/:jammerId] with a body that
    carries [estado_jammer], a principal who is not the owner of the
    jammer's establishment is answered 403 and no row changes; the
    only collaborator calls are the token resolution and the read of
    [jammers], so [users.is_admin] is never read, and the answer is the
    same whatever the [users] table holds. *)
Theorem patch_jammer_admin_flag_not_consulted (s : Server) (req : Request)
    (w : World) (jammerId : N) (estado : bool) (token : jstring)
    (user : identity.t) (j : jammers.row) (estab : estabelecimento.row) :
  route req = PATCH_jammer jammerId ->
  body.estado_jammer (req_body req) = Some estado ->
  presented s req = Some token ->
  getUser (auth w) token = Some user ->
  filter (has_id jammerId) (tbl_jammers w) = [j] ->
  find (parent_of j) (tbl_estabelecimento w) = Some estab ->
  estabelecimento.user_id estab <> identity.id user ->
  forall usuarios : list users.row,
    let w' := set_users usuarios w in
    fst (handle s req w') =
      {| status := 403;
         json := JError (Lit "Você não tem permissão para alterar este jammer.") |} /\
    tbl_jammers (snd (handle s req w')) = tbl_jammers w /\
    tbl_estabelecimento (snd (handle s req w')) = tbl_estabelecimento w /\
    calls (snd (handle s req w')) =
      calls w ++ [auth_getUser token; from_select T_jammers].
Proof.
  intros R B P G F Par Own usuarios w'.
  assert (G' : getUser (auth w') token = Some user) by exact G.
  pose proof (patch_jammer_run s req w' R B P G') as E. simpl in E.
  change (tbl_jammers (set_users usuarios w)) with (tbl_jammers w) in E.
  change (tbl_estabelecimento (set_users usuarios w))
    with (tbl_estabelecimento w) in E.
  rewrite F, Par, (jstring_eqb_neq Own) in E. fold w' in E. rewrite E. simpl.
  repeat split. rewrite <- app_assoc. reflexivity.
Qed.

End PatchJammerClaims.

(* ===================================================================== *)
(** * [DELETE /admin/estabelecimento/:id] *)
(* ===================================================================== *)

Section DeleteEstabelecimento.
Context `{Supabase}.

Lemma filter_out_none {A : Type} (p : A -> bool) (l : list A) :
  filter p (filter (fun x => negb (p x)) l) = [].
Proof.
  induction l as [|x l IH]; simpl; [reflexivity|].
  destruct (p x) eqn:E; simpl; [exact IH | rewrite E; exact IH].
Qed.

Lemma filter_twice {A : Type} (p : A -> bool) (l : list A) :
  filter p (filter p l) = filter p l.
Proof.
  induction l as [|x l IH]; simpl; [reflexivity|].
  destruct (p x) eqn:E; simpl; [rewrite E, IH; reflexivity | exact IH].
Qed.

Lemma admin_deletar_estabelecimento_run (id : N) (req : Request) (w : World) :
  finish (admin_deletar_estabelecimento id req) w =
    let cleared :=
      called (from_delete T_estabelecimento)
        (set_jammers (filter (fun j => negb (jammer_of id j)) (tbl_jammers w))
           (called (from_delete T_jammers) w)) in
    match filter (is_estab id) (tbl_estabelecimento w) with
    | [data] =>
        ({| status := 200;
            json := JEstabelecimento
              (Lit "Estabelecimento e seus jammers deletados com sucesso.") data |},
         set_estabelecimento
           (filter (fun e => negb (is_estab id e)) (tbl_estabelecimento w))
           cleared)
    | l =>
        ({| status := 400;
            json := JError (ErrorMessage (NotSingular (List.length l))) |},
         cleared)
    end.
Proof.
  unfold finish, admin_deletar_estabelecimento, bind, delete, delete_single.
  simpl. fold (is_estab id).
  destruct (filter (is_estab id) (tbl_estabelecimento w)) as [|e [|e' l]];
    reflexivity.
Qed.

(** C8, amended.  An administrator deletes an establishment that is in the
    table: the jammers that point to it are deleted first, then the
    row itself; the other rows stay.  The same request again finds no
    row to delete: the store's [.single()] fails on an empty result,
    the answer is 400 with that error's message, and the tables are
    as the first request left them. *)
Theorem admin_delete_estabelecimento_twice (s : Server) (req : Request)
    (w : World) (id : N) (token : jstring) (user : identity.t)
    (userData : users.row) (estab : estabelecimento.row) :
  route req = Admin (DELETE_admin_estabelecimento id) ->
  presented s req = Some token ->
  getUser (auth w) token = Some user ->
  filter (fun u => jstring_eqb (users.id u) (identity.id user)) (tbl_users w)
    = [userData] ->
  users.is_admin userData = true ->
  filter (is_estab id) (tbl_estabelecimento w) = [estab] ->
  let first := handle s req w in
  let second := handle s req (snd first) in
  fst first =
    {| status := 200;
       json := JEstabelecimento
         (Lit "Estabelecimento e seus jammers deletados com sucesso.") estab |} /\
  tbl_jammers (snd first) =
    filter (fun j => negb (jammer_of id j)) (tbl_jammers w) /\
  tbl_estabelecimento (snd first) =
    filter (fun e => negb (is_estab id e)) (tbl_estabelecimento w) /\
  tbl_users (snd first) = tbl_users w /\
  filter (jammer_of id) (tbl_jammers (snd first)) = [] /\
  filter (is_estab id) (tbl_estabelecimento (snd first)) = [] /\
  calls (snd first) =
    calls w ++ [auth_getUser token; from_select T_users;
                from_delete T_jammers; from_delete T_estabelecimento] /\
  fst second =
    {| status := 400; json := JError (ErrorMessage (NotSingular 0)) |} /\
  db (snd second) = db (snd first).
Proof.
  intros R P G F A E first second.
  pose proof (verificarAdmin_gate s req w P G F) as V. rewrite A in V.
  pose proof (handle_admin_passed s req w R V) as H1.
  simpl admin_handler in H1.
  rewrite admin_deletar_estabelecimento_run in H1. simpl in H1.
  rewrite E in H1. fold first in H1.
  assert (G2 : getUser (auth (snd first)) token = Some user)
    by (rewrite H1; exact G).
  assert (F2 : filter (fun u => jstring_eqb (users.id u) (identity.id user))
                 (tbl_users (snd first)) = [userData])
    by (rewrite H1; exact F).
  pose proof (verificarAdmin_gate s req (snd first) P G2 F2) as V2.
  rewrite A in V2.
  pose proof (handle_admin_passed s req (snd first) R V2) as H2.
  simpl admin_handler in H2.
  rewrite admin_deletar_estabelecimento_run in H2. simpl in H2.
  fold second in H2.
  assert (T : tbl_estabelecimento (snd first) =
              filter (fun e => negb (is_estab id e)) (tbl_estabelecimento w))
    by (rewrite H1; reflexivity).
  assert (J : tbl_jammers (snd first) =
              filter (fun j => negb (jammer_of id j)) (tbl_jammers w))
    by (rewrite H1; reflexivity).
  rewrite T, filter_out_none in H2. simpl in H2.
  repeat split.
  - rewrite H1. reflexivity.
  - exact J.
  - exact T.
  - rewrite H1. reflexivity.
  - rewrite J. apply filter_out_none.
  - rewrite T. apply filter_out_none.
  - rewrite H1. simpl. rewrite <- !app_assoc. reflexivity.
  - rewrite H2. reflexivity.
  - rewrite H2. unfold db. simpl. rewrite J, filter_twice. reflexivity.
Qed.

End DeleteEstabelecimento.

(* ===================================================================== *)
(** * Sign-up, forgotten password, password reset *)
(* ===================================================================== *)

Section Credentials.
Context `{Supabase}.

Lemma app_signup (s : Server) (req : Request) :
  route req = POST_signup -> app s req = signup req.
Proof.
  intros R. destruct s; simpl; unfold API_node.app, part_000.app;
    rewrite R; reflexivity.
Qed.

Lemma app_forgot_password (s : Server) (req : Request) :
  route req = POST_forgot_password -> app s req = forgot_password req.
Proof.
  intros R. destruct s; simpl; unfold API_node.app, part_000.app;
    rewrite R; reflexivity.
Qed.

Lemma app_reset_password (s : Server) (req : Request) :
  route req = POST_reset_password -> app s req = reset_password req.
Proof.
  intros R. destruct s; simpl; unfold API_node.app, part_000.app;
    rewrite R; reflexivity.
Qed.

(** Sign-up answers "E-mail inválido." exactly when the pattern rejects
    the email that came with a password. *)
Lemma signup_invalid_email (s : Server) (req : Request) (w : World) :
  route req = POST_signup ->
  truthy (body.email (req_body req)) = true ->
  truthy_value (body.password (req_body req)) = true ->
  (validateEmail (text (body.email (req_body req))) = false <->
   fst (handle s req w) = invalid_email).
Proof.
  intros R Te Tp. unfold handle, finish. rewrite (app_signup s req R).
  unfold signup. rewrite Te, Tp. simpl.
  destruct (validateEmail (text (body.email (req_body req)))); simpl.
  - split; [discriminate|]. intros E. exfalso. revert E.
    destruct (length_below 6 _); simpl; [discriminate|].
    unfold bind, select, supabase_auth_signUp, insert_users, res_json. simpl.
    destruct (filter _ (tbl_users w)) as [|u [|u' l]]; simpl;
      try discriminate;
      destruct (signUp (auth w) _ _) as [[e|[|u0]] a]; simpl;
      try discriminate;
      destruct (existsb _ (tbl_users w)); simpl; discriminate.
  - split; reflexivity.
Qed.

(** So does the request for a reset link. *)
Lemma forgot_password_invalid_email (s : Server) (req : Request) (w : World) :
  route req = POST_forgot_password ->
  truthy (body.email (req_body req)) = true ->
  (validateEmail (text (body.email (req_body req))) = false <->
   fst (handle s req w) = invalid_email).
Proof.
  intros R Te. unfold handle, finish. rewrite (app_forgot_password s req R).
  unfold forgot_password. rewrite Te. simpl.
  destruct (validateEmail (text (body.email (req_body req)))); simpl.
  - split; discriminate.
  - split; reflexivity.
Qed.

(** [password.length < 6] on a string compares its code units. *)
Lemma length_below_string (n : nat) (s : jstring) :
  length_below (Z.of_nat n) (Some (JsString s)) = Nat.ltb (List.length s) n.
Proof.
  unfold length_below, value, js_length, js_below.
  destruct (Nat.ltb_spec (List.length s) n);
    [apply Z.ltb_lt | apply Z.ltb_ge]; lia.
Qed.

(** A number or a boolean has no [length], and [undefined] is below
    nothing. *)
Lemma length_below_number (n : Z) (a : Z) (d : positive) :
  length_below n (Some (JsNumber a d)) = false.
Proof. reflexivity. Qed.

Lemma length_below_bool (n : Z) (b : bool) :
  length_below n (Some (JsBool b)) = false.
Proof. reflexivity. Qed.

(** An array is measured by its items. *)
Lemma length_below_array (n : nat) (items : list JsValue) :
  length_below (Z.of_nat n) (Some (JsArray items)) = Nat.ltb (List.length items) n.
Proof.
  unfold length_below, value, js_length, js_below.
  destruct (Nat.ltb_spec (List.length items) n);
    [apply Z.ltb_lt | apply Z.ltb_ge]; lia.
Qed.




(** C6, amended.  [validateEmail] accepts exactly the strings made of a
    local part, one ['@'] and a domain with a ['.'] inside it, where
    the local part and the two sides of that ['.'] are not empty and
    hold neither white space nor ['@'].  Every string it accepts has
    the looser shape the specification words.  Sign-up and the
    forgotten-password request answer "E-mail inválido." on exactly
    the emails this one function rejects. *)
Theorem validateEmail_contract :
  (forall email, validateEmail email = true <-> email_shape email) /\
  (forall email, validateEmail email = true -> spec_email email = true) /\
  (forall s req w,
     route req = POST_signup ->
     truthy (body.email (req_body req)) = true ->
     truthy_value (body.password (req_body req)) = true ->
     (validateEmail (text (body.email (req_body req))) = false <->
      fst (handle s req w) = invalid_email)) /\
  (forall s req w,
     route req = POST_forgot_password ->
     truthy (body.email (req_body req)) = true ->
     (validateEmail (text (body.email (req_body req))) = false <->
      fst (handle s req w) = invalid_email)).
Proof.
  split; [exact validateEmail_shape|].
  split; [exact validateEmail_spec_email|].
  split; [exact signup_invalid_email | exact forgot_password_invalid_email].
Qed.


End Credentials.

(* ===================================================================== *)
(** * The tenant routes of the refactored server *)
(* ===================================================================== *)

Section RefactoredServer.
Context `{Supabase}.

Lemma presented_none_part_000 (req : Request) :
  presented part_000_js req = None -> truthy (authorization req) = false.
Proof.
  unfold presented. destruct (truthy (authorization req)); [discriminate|auto].
Qed.

(** A request without a token is turned away at the door of every
    protected route, before any collaborator is called. *)
Lemma part_000_no_token (req : Request) (w : World) :
  protected (route req) = true ->
  presented part_000_js req = None ->
  handle part_000_js req w = (token_missing, w).
Proof.
  intros Pr P. apply presented_none_part_000 in P.
  unfold handle, finish, app, part_000.app.
  destruct (route req) eqn:R; try discriminate Pr;
    unfold bind;
    try rewrite (verificarAutenticacao_no_header req w P);
    try reflexivity.
  unfold part_000.verificarAdmin. rewrite P. reflexivity.
Qed.

(** [API_node.js] does the same on the routes that read the header; a
    [PATCH] is tested for its body first. *)
Lemma API_node_no_token (req : Request) (w : World) :
  (exists userId, route req = GET_user_estabelecimentos userId) \/
  (exists jammerId estado,
     route req = PATCH_jammer jammerId /\
     body.estado_jammer (req_body req) = Some estado) \/
  (exists a, route req = Admin a) ->
  presented API_node_js req = None ->
  handle API_node_js req w = (token_missing, w).
Proof.
  intros R P.
  assert (T : truthy (API_node.bearer req) = false).
  { unfold presented in P.
    destruct (API_node.bearer req) as [[|c t]|]; simpl in *;
      try reflexivity; discriminate. }
  unfold handle, finish, app, API_node.app.
  destruct R as [[userId R]|[(jammerId & estado & R & B)|[a R]]]; rewrite R.
  - unfold API_node.user_estabelecimentos. rewrite T. reflexivity.
  - unfold API_node.patch_jammer. rewrite B, T. reflexivity.
  - unfold bind, API_node.verificarAdmin. rewrite T. reflexivity.
Qed.

(** Self-path routes: a principal other than the one in the path gets
    403, whether or not the path names a user. *)
Lemma part_000_self_path (req : Request) (w : World) (userId token : jstring)
    (user : identity.t) :
  route req = GET_user_estabelecimentos userId \/
  route req = GET_user_estabelecimentos_completo userId ->
  presented part_000_js req = Some token ->
  getUser (auth w) token = Some user ->
  identity.id user <> userId ->
  handle part_000_js req w = (forbidden_data, called (auth_getUser token) w).
Proof.
  intros R P G D.
  pose proof (verificarAutenticacao_next req w P G) as V.
  unfold handle, finish, app, part_000.app.
  destruct R as [R|R]; rewrite R; unfold bind; rewrite V;
    unfold part_000.user_estabelecimentos,
      part_000.user_estabelecimentos_completo;
    rewrite (jstring_eqb_neq D); reflexivity.
Qed.

Lemma API_node_self_path (req : Request) (w : World) (userId token : jstring)
    (user : identity.t) :
  route req = GET_user_estabelecimentos userId ->
  presented API_node_js req = Some token ->
  getUser (auth w) token = Some user ->
  identity.id user <> userId ->
  handle API_node_js req w = (forbidden_data, called (auth_getUser token) w).
Proof.
  intros R P G D. apply presented_API_node in P as [T <-].
  unfold handle, finish, app, API_node.app. rewrite R.
  unfold API_node.user_estabelecimentos. rewrite T. simpl.
  unfold bind, supabase_auth_getUser. rewrite G.
  rewrite (jstring_eqb_neq D). reflexivity.
Qed.

(** [GET /estabelecimento/:id/jammers]: not found, then forbidden, then
    the jammers. *)
Lemma part_000_estabelecimento_jammers (req : Request) (w : World) (id : N)
    (token : jstring) (user : identity.t) :
  route req = GET_estabelecimento_jammers id ->
  presented part_000_js req = Some token ->
  getUser (auth w) token = Some user ->
  let looked :=
    called (from_select T_estabelecimento) (called (auth_getUser token) w) in
  (filter (is_estab id) (tbl_estabelecimento w) = [] ->
   handle part_000_js req w =
     ({| status := 404; json := JError (Lit "Estabelecimento não encontrado.") |},
      looked)) /\
  (forall estab,
     filter (is_estab id) (tbl_estabelecimento w) = [estab] ->
     estabelecimento.user_id estab <> identity.id user ->
     handle part_000_js req w = (forbidden_data, looked)) /\
  (forall estab,
     filter (is_estab id) (tbl_estabelecimento w) = [estab] ->
     estabelecimento.user_id estab = identity.id user ->
     handle part_000_js req w =
       (let data := order (by_number jammers.id)
                      (filter (jammer_of id) (tbl_jammers w)) in
        {| status := 200; json := JJammers data (List.length data) |},
        called (from_select T_jammers) looked)).
Proof.
  intros R P G looked.
  pose proof (verificarAutenticacao_next req w P G) as V.
  unfold handle, finish, app, part_000.app. rewrite R.
  unfold bind. rewrite V. unfold part_000.estabelecimento_jammers.
  unfold bind, select, single. simpl. fold (is_estab id).
  repeat split.
  - intros F. rewrite F. reflexivity.
  - intros estab F D. rewrite F. rewrite (jstring_eqb_neq D). reflexivity.
  - intros estab F E. rewrite F, E, jstring_eqb_refl. reflexivity.
Qed.

(** [API_node.js] answers the two open routes 200 for any header. *)
Lemma com_jammers_next (l : list estabelecimento.row) (w : World) :
  exists rows w',
    mapM API_node.com_jammers l w = (Next rows, w') /\ same_store w' w /\
    auth w' = auth w.
Proof.
  revert w; induction l as [|e l IH]; intros w; simpl.
  - exists [], w. repeat split.
  - unfold bind at 1. unfold API_node.com_jammers at 1.
    unfold bind at 1. unfold select at 1. simpl.
    destruct (IH (called (from_select T_jammers) w)) as (rows & w' & E & S & A).
    unfold bind at 1. rewrite E. simpl.
    eexists _, w'. split; [reflexivity|]. split; [|exact A].
    destruct S as (D & S1 & S2). repeat split; assumption.
Qed.

Lemma API_node_open_routes (req : Request) (w : World) :
  (exists userId, route req = GET_user_estabelecimentos_completo userId) \/
  (exists id, route req = GET_estabelecimento_jammers id) ->
  status (fst (handle API_node_js req w)) = 200 /\
  same_store (snd (handle API_node_js req w)) w.
Proof.
  intros [[userId R]|[id R]]; unfold handle, finish, app, API_node.app;
    rewrite R.
  - unfold API_node.user_estabelecimentos_completo.
    unfold bind at 1. unfold select. simpl.
    destruct (com_jammers_next
                (order (by_text estabelecimento.nome)
                   (filter (fun e => jstring_eqb (estabelecimento.user_id e) userId)
                      (tbl_estabelecimento w)))
                (called (from_select T_estabelecimento) w))
      as (rows & w' & E & S & _).
    unfold bind. rewrite E. simpl. split; [reflexivity|].
    destruct S as (D & S1 & S2). repeat split; assumption.
  - unfold API_node.estabelecimento_jammers, bind, select. simpl.
    repeat split.
Qed.

End RefactoredServer.

(* ===================================================================== *)
(** * Concrete runs *)
(* ===================================================================== *)

Module Runs.
Import Example.

(** C1.  [API_node.js], [GET /user/u-bia/estabelecimentos-completo]
    with Ana's token: Ana is authenticated, she is not [u-bia], and the
    answer is 200 with Bia's establishment and its jammers.  The
    refactored server answers the same request 403. *)
Theorem API_node_completo_serves_any_principal :
  let req := request (GET_user_estabelecimentos_completo (js "u-bia"))
               (Some "tok-ana"%string) body.empty in
  authenticated (H := double) API_node_js req world ana /\
  identity.id ana <> js "u-bia" /\
  handle (H := double) API_node_js req world =
    ({| status := 200;
        json := JCompleto
          [{| ec_estab := loja; ec_jammers := both_jammers;
              ec_total_jammers := 2 |}] 1 2 |},
     called (from_select T_jammers) (called (from_select T_estabelecimento) world)) /\
  handle (H := double) part_000_js req world =
    (forbidden_data, called (auth_getUser (js "tok-ana")) world).
Proof.
  intros req. split; [|split; [|split]].
  - exists (js "tok-ana"). split; reflexivity.
  - discriminate.
  - reflexivity.
  - reflexivity.
Qed.

(** C2.  [API_node.js], [GET /estabelecimento/7/jammers] with Ana's
    token: establishment 7 is Bia's, and the answer is 200 with its
    jammers; for establishment 99, which is not in the table, the
    answer is 200 with an empty list.  The refactored server answers
    403 and 404. *)
Theorem API_node_jammers_served_without_ownership :
  let req := request (GET_estabelecimento_jammers 7) (Some "tok-ana"%string)
               body.empty in
  let req99 := request (GET_estabelecimento_jammers 99) (Some "tok-ana"%string)
                 body.empty in
  authenticated (H := double) API_node_js req world ana /\
  filter (is_estab 7) (tbl_estabelecimento world) = [loja] /\
  estabelecimento.user_id loja <> identity.id ana /\
  filter (is_estab 99) (tbl_estabelecimento world) = [] /\
  fst (handle (H := double) API_node_js req world) =
    {| status := 200; json := JJammers both_jammers 2 |} /\
  fst (handle (H := double) API_node_js req99 world) =
    {| status := 200; json := JJammers [] 0 |} /\
  fst (handle (H := double) part_000_js req world) = forbidden_data /\
  status (fst (handle (H := double) part_000_js req99 world)) = 404.
Proof.
  intros req req99. repeat split; try reflexivity.
  - exists (js "tok-ana"). split; reflexivity.
  - discriminate.
Qed.

(** C5.  [API_node.js] and a request with no [Authorization] header:
    [GET /user/u-bia/estabelecimentos-completo] is answered 200 with
    Bia's establishment, and [GET /estabelecimento/7/jammers] 200 with
    its jammers.  The refactored server answers both 401 and calls no
    collaborator. *)
Theorem API_node_open_routes_without_token :
  let completo := request (GET_user_estabelecimentos_completo (js "u-bia"))
                    None body.empty in
  let jammers := request (GET_estabelecimento_jammers 7) None body.empty in
  authorization completo = None /\
  protected (route completo) = true /\
  protected (route jammers) = true /\
  fst (handle (H := double) API_node_js completo world) =
    {| status := 200;
       json := JCompleto
         [{| ec_estab := loja; ec_jammers := both_jammers;
             ec_total_jammers := 2 |}] 1 2 |} /\
  fst (handle (H := double) API_node_js jammers world) =
    {| status := 200; json := JJammers both_jammers 2 |} /\
  handle (H := double) part_000_js completo world = (token_missing, world) /\
  handle (H := double) part_000_js jammers world = (token_missing, world).
Proof. intros completo jammers. repeat split. Qed.

(** In the refactored server a header that is only the scheme,
    ["Bearer "], passes the header test, and the empty token goes to
    the provider. *)
Lemma part_000_empty_token_reaches_provider :
  let req := {| route := PATCH_jammer 42; authorization := Some (js "Bearer ");
                req_body := with_estado true |} in
  handle (H := double) part_000_js req world =
    ({| status := 401;
        json := JError (Lit "Token inválido ou sessão expirada.") |},
     called (auth_getUser []) world) /\
  handle (H := double) API_node_js req world = (token_missing, world).
Proof. split; reflexivity. Qed.

(** Against C3 as stated: Bia is authenticated, no jammer has id 99,
    the body carries no [estado_jammer], and both servers answer 400,
    not 404. *)
Lemma patch_without_state_not_404 :
  let req := request (PATCH_jammer 99) (Some "tok-bia"%string) body.empty in
  authenticated (H := double) part_000_js req world bia /\
  authenticated (H := double) API_node_js req world bia /\
  filter (has_id 99) (tbl_jammers world) = [] /\
  (forall s,
     fst (handle (H := double) s req world) =
       {| status := 400; json := JError (Lit "estado_jammer é obrigatório.") |}) /\
  (forall s, status (fst (handle (H := double) s req world)) <> 404).
Proof.
  intros req. repeat split.
  - exists (js "tok-bia"). split; reflexivity.
  - exists (js "tok-bia"). split; reflexivity.
  - intros []; reflexivity.
  - intros []; discriminate.
Qed.

(** Against C10 as stated: Ana is authenticated, jammer 42 belongs to
    Bia's establishment, the body carries no [estado_jammer], and both
    servers answer 400, not 403. *)
Lemma patch_without_state_not_403 :
  let req := request (PATCH_jammer 42) (Some "tok-ana"%string) body.empty in
  authenticated (H := double) part_000_js req world ana /\
  authenticated (H := double) API_node_js req world ana /\
  filter (has_id 42) (tbl_jammers world) = [jammer 42 false] /\
  find (parent_of (jammer 42 false)) (tbl_estabelecimento world) = Some loja /\
  estabelecimento.user_id loja <> identity.id ana /\
  (forall s,
     fst (handle (H := double) s req world) =
       {| status := 400; json := JError (Lit "estado_jammer é obrigatório.") |}) /\
  (forall s, status (fst (handle (H := double) s req world)) <> 403).
Proof.
  intros req. repeat split.
  - exists (js "tok-ana"). split; reflexivity.
  - exists (js "tok-ana"). split; reflexivity.
  - discriminate.
  - intros []; reflexivity.
  - intros []; discriminate.
Qed.

(** Against C6 as stated: ["a b@c.d"] and ["a@.b"] have one ['@'], a
    character that is not white space on each side of it and a ['.']
    after it, and the pattern rejects both. *)
Lemma spec_email_accepts_more :
  spec_email (js "a b@c.d") = true /\ validateEmail (js "a b@c.d") = false /\
  spec_email (js "a@.b") = true /\ validateEmail (js "a@.b") = false.
Proof. repeat split. Qed.


(** C4.  The refactored server, a route under [/admin/], and Ana's
    token in a world where [users] has no row for her: Ana is
    authenticated, no user record flags her as administrator, and the
    answer is 500 "Erro ao verificar permissões." on every admin route,
    where [API_node.js] answers the same request 403.  The read of her
    record ends in [.single()], which reports no row as an error, and
    the middleware tests [userError] before it tests [!userData]. *)
Theorem part_000_admin_gate_without_record :
  let req (a : AdminRoute) :=
    request (Admin a) (Some "tok-ana"%string) body.empty in
  let gated :=
    called (H := double) (from_select T_users)
      (called (H := double) (auth_getUser (js "tok-ana")) Sample.without_ana) in
  (forall a, String.prefix "/admin/" (pattern (route (req a))) = true) /\
  (forall a, authenticated (H := double) part_000_js (req a) Sample.without_ana ana) /\
  existsb (fun u => jstring_eqb (users.id u) (identity.id ana) && users.is_admin u)
    (tbl_users Sample.without_ana) = false /\
  filter (fun u => jstring_eqb (users.id u) (identity.id ana))
    (tbl_users Sample.without_ana) = [] /\
  (forall a,
     handle (H := double) part_000_js (req a) Sample.without_ana =
       ({| status := 500; json := JError (Lit "Erro ao verificar permissões.") |},
        gated)) /\
  (forall a, status (fst (handle (H := double) part_000_js (req a)
                            Sample.without_ana)) <> 403) /\
  (forall a,
     handle (H := double) API_node_js (req a) Sample.without_ana =
       ({| status := 403;
           json := JError (Lit "Acesso negado. Apenas administradores.") |},
        gated)).
Proof.
  intros req gated.
  split; [intros []; reflexivity|].
  split; [intros a; exists (js "tok-ana"); split; reflexivity|].
  split; [reflexivity|]. split; [reflexivity|].
  split; [intros []; reflexivity|].
  split; [intros []; discriminate|].
  intros []; reflexivity.
Qed.

(** Against C8 as stated: root deletes establishment 7 and asks again;
    the second request is answered 400 with the message of the error
    [.single()] reports for no row, on either server.  The answer is
    not 404 and is not one of the answers that turn a request away. *)
Lemma second_delete_answers_400 :
  let req := request (Admin (DELETE_admin_estabelecimento 7))
               (Some "tok-root"%string) body.empty in
  let first (s : Server) := handle (H := double) s req world in
  let second (s : Server) := handle (H := double) s req (snd (first s)) in
  (forall s, status (fst (first s)) = 200) /\
  (forall s, filter (is_estab 7) (tbl_estabelecimento (snd (first s))) = []) /\
  (forall s,
     fst (second s) =
       {| status := 400; json := JError (ErrorMessage (NotSingular 0)) |}) /\
  (forall s, status (fst (second s)) <> 404) /\
  (forall s, ~ refused (fst (second s))).
Proof.
  intros req first second.
  split; [intros []; reflexivity|].
  split; [intros []; reflexivity|].
  split; [intros []; reflexivity|].
  split; [intros []; discriminate|].
  intros []; intros [E|[E|E]]; discriminate E.
Qed.

End Runs.

(* ===================================================================== *)
(** * The theorems at work on the example world *)
(* ===================================================================== *)

Module Witnesses.
Import Example.

(** Bia asks for jammer 99, which is not there; Ana asks for jammer 42
    of Bia's establishment. *)
Lemma patch_jammer_not_found_before_forbidden_witness :
  status (fst (handle (H := double) part_000_js
                 (request (PATCH_jammer 99) (Some "tok-bia"%string) (with_estado true))
                 world)) = 404 /\
  status (fst (handle (H := double) API_node_js
                 (request (PATCH_jammer 42) (Some "tok-ana"%string) (with_estado true))
                 world)) = 403.
Proof.
  split.
  - pose proof (@patch_jammer_not_found_before_forbidden double part_000_js
                  (request (PATCH_jammer 99) (Some "tok-bia"%string) (with_estado true))
                  world 99 true (js "tok-bia") bia
                  eq_refl eq_refl eq_refl eq_refl) as W.
    destruct W as [W _]. rewrite (W eq_refl). reflexivity.
  - pose proof (@patch_jammer_not_found_before_forbidden double API_node_js
                  (request (PATCH_jammer 42) (Some "tok-ana"%string) (with_estado true))
                  world 42 true (js "tok-ana") ana
                  eq_refl eq_refl eq_refl eq_refl) as W.
    destruct W as [_ W].
    destruct (W (jammer 42 false) loja eq_refl eq_refl) as [E _].
    + discriminate.
    + rewrite E. reflexivity.
Defined.

(** Ana, who is no administrator, and root, who is one, on
    [DELETE /admin/estabelecimento/7]. *)
Lemma admin_routes_gate_witness :
  status (fst (handle (H := double) part_000_js
                 (request (Admin (DELETE_admin_estabelecimento 7))
                    (Some "tok-ana"%string) body.empty) world)) = 403 /\
  exists a,
    Admin (DELETE_admin_estabelecimento 7) = Admin a /\
    handle (H := double) part_000_js
      (request (Admin (DELETE_admin_estabelecimento 7))
         (Some "tok-root"%string) body.empty) world =
    finish (admin_handler a
              (request (Admin (DELETE_admin_estabelecimento 7))
                 (Some "tok-root"%string) body.empty))
      (called (from_select T_users) (called (auth_getUser (js "tok-root")) world)).
Proof.
  split.
  - pose proof (@admin_routes_gate double part_000_js
                  (request (Admin (DELETE_admin_estabelecimento 7))
                     (Some "tok-ana"%string) body.empty)
                  world (js "tok-ana") ana (user_row ana false)
                  eq_refl eq_refl eq_refl eq_refl) as W.
    destruct W as [W _]. destruct (W eq_refl) as [E _]. rewrite E. reflexivity.
  - pose proof (@admin_routes_gate double part_000_js
                  (request (Admin (DELETE_admin_estabelecimento 7))
                     (Some "tok-root"%string) body.empty)
                  world (js "tok-root") root (user_row root true)
                  eq_refl eq_refl eq_refl eq_refl) as W.
    destruct W as [_ W]. destruct (W eq_refl) as (a & R & E & _).
    exists a. split; [exact R | exact E].
Defined.


(** Root deletes establishment 7, twice. *)
Lemma admin_delete_estabelecimento_twice_witness :
  let req := request (Admin (DELETE_admin_estabelecimento 7))
               (Some "tok-root"%string) body.empty in
  let first := handle (H := double) API_node_js req world in
  let second := handle (H := double) API_node_js req (snd first) in
  status (fst first) = 200 /\
  tbl_jammers (snd first) = [] /\
  tbl_estabelecimento (snd first) = [] /\
  fst second = {| status := 400; json := JError (ErrorMessage (NotSingular 0)) |}.
Proof.
  intros req first second.
  pose proof (@admin_delete_estabelecimento_twice double API_node_js req world 7
                (js "tok-root") root (user_row root true) loja
                eq_refl eq_refl eq_refl eq_refl eq_refl eq_refl) as W.
  cbv zeta in W. destruct W as (E1 & J & T & _ & _ & _ & _ & E2 & _).
  subst second first. rewrite E1, J, T, E2. repeat split.
Defined.

(** Bia switches her jammer 42 on, twice. *)
Lemma patch_jammer_idempotent_witness :
  let req := request (PATCH_jammer 42) (Some "tok-bia"%string) (with_estado true) in
  let once := handle (H := double) part_000_js req world in
  let twice := handle (H := double) part_000_js req (snd once) in
  status (fst once) = 200 /\ status (fst twice) = 200 /\
  tbl_jammers (snd twice) = [jammer 41 false; jammer 42 true] /\
  db (snd twice) = db (snd once).
Proof.
  intros req once twice.
  pose proof (@patch_jammer_idempotent double part_000_js req world 42 true
                (js "tok-bia") bia (jammer 42 false) loja
                eq_refl eq_refl eq_refl eq_refl eq_refl eq_refl eq_refl) as W.
  cbv zeta in W. destruct W as (E1 & E2 & D & _ & _).
  subst twice once.
  split; [rewrite E1; reflexivity|].
  split; [rewrite E2, E1; reflexivity|].
  split; [reflexivity | exact D].
Defined.

(** Ana asks for Bia's jammer 42 in a world where Ana's user record is
    flagged as administrator. *)
Lemma patch_jammer_admin_flag_not_consulted_witness :
  let req := request (PATCH_jammer 42) (Some "tok-ana"%string) (with_estado true) in
  let w' := set_users (H := double) admin_world world in
  filter (fun u => jstring_eqb (users.id u) (identity.id ana)) (tbl_users w')
    = [user_row ana true] /\
  status (fst (handle (H := double) API_node_js req w')) = 403 /\
  tbl_jammers (snd (handle (H := double) API_node_js req w')) = tbl_jammers world.
Proof.
  intros req w'.
  assert (D : estabelecimento.user_id loja <> identity.id ana) by discriminate.
  pose proof (@patch_jammer_admin_flag_not_consulted double API_node_js req world
                42 true (js "tok-ana") ana (jammer 42 false) loja
                eq_refl eq_refl eq_refl eq_refl eq_refl eq_refl D admin_world) as W.
  cbv zeta in W. destruct W as (E & J & _). subst w'.
  split; [reflexivity|]. split; [rewrite E; reflexivity | exact J].
Defined.

End Witnesses.

(* ===================================================================== *)
(** * The order of a listing *)
(* ===================================================================== *)

Section OrderFacts.
Context `{Supabase}.

Lemma insert_by_perm {A : Type} (le : A -> A -> bool) (x : A) (l : list A) :
  Permutation (insert_by le x l) (x :: l).
Proof.
  induction l as [|y l IH]; simpl; [reflexivity|].
  destruct (le x y); [reflexivity|].
  rewrite IH. apply perm_swap.
Qed.

Lemma order_perm {A : Type} (le : A -> A -> bool) (l : list A) :
  Permutation (order le l) l.
Proof.
  induction l as [|x l IH]; simpl; [reflexivity|].
  unfold order in *. simpl. rewrite insert_by_perm. constructor. exact IH.
Qed.

Lemma order_length {A : Type} (le : A -> A -> bool) (l : list A) :
  List.length (order le l) = List.length l.
Proof. apply Permutation_length, order_perm. Qed.

Lemma order_In {A : Type} (le : A -> A -> bool) (l : list A) (x : A) :
  In x (order le l) <-> In x l.
Proof.
  split; apply Permutation_in; [|symmetry]; apply order_perm.
Qed.

Lemma insert_by_sorted {A : Type} (le : A -> A -> bool) (x : A) (l : list A) :
  (forall a b, le a b = false -> le b a = true) ->
  Sorted (fun a b => le a b = true) l ->
  Sorted (fun a b => le a b = true) (insert_by le x l).
Proof.
  intros T S. induction S as [|y l S IH Hd]; simpl.
  - repeat constructor.
  - destruct (le x y) eqn:E.
    + constructor; [constructor; assumption|]. constructor. exact E.
    + constructor; [exact IH|].
      destruct l as [|z l]; simpl.
      * constructor. apply T, E.
      * destruct (le x z); constructor; [apply T, E|].
        inversion Hd; assumption.
Qed.

Lemma order_sorted {A : Type} (le : A -> A -> bool) (l : list A) :
  (forall a b, le a b = false -> le b a = true) ->
  Sorted (fun a b => le a b = true) (order le l).
Proof.
  intros T. induction l as [|x l IH]; [constructor|].
  unfold order in *. simpl. apply insert_by_sorted; assumption.
Qed.

Lemma insert_by_map {A B : Type} (f : A -> B) (le : A -> A -> bool)
    (le' : B -> B -> bool) (x : A) (l : list A) :
  (forall a b, le' (f a) (f b) = le a b) ->
  insert_by le' (f x) (map f l) = map f (insert_by le x l).
Proof.
  intros E. induction l as [|y l IH]; simpl; [reflexivity|].
  rewrite E. destruct (le x y); simpl; [reflexivity|]. rewrite IH. reflexivity.
Qed.

Lemma order_map {A B : Type} (f : A -> B) (le : A -> A -> bool)
    (le' : B -> B -> bool) (l : list A) :
  (forall a b, le' (f a) (f b) = le a b) ->
  order le' (map f l) = map f (order le l).
Proof.
  intros E. induction l as [|x l IH]; [reflexivity|].
  unfold order in *. simpl. rewrite IH. apply insert_by_map, E.
Qed.

Lemma by_number_total {A : Type} (column : A -> N) (a b : A) :
  by_number column a b = false -> by_number column b a = true.
Proof.
  unfold by_number. rewrite N.leb_gt, N.leb_le. lia.
Qed.

End OrderFacts.

(* ===================================================================== *)
(** * What a tenant is shown *)
(* ===================================================================== *)

Section TenantListings.
Context `{Supabase}.

Lemma owned_by_spec (userId : jstring) (e : estabelecimento.row) :
  owned_by userId e = true <-> estabelecimento.user_id e = userId.
Proof.
  unfold owned_by. destruct (jstring_eqb_spec (estabelecimento.user_id e) userId);
    split; congruence.
Qed.

(** Both servers on [GET /user/:userId/estabelecimentos] for the
    principal the path names. *)
Lemma user_estabelecimentos_run (s : Server) (req : Request) (w : World)
    (token : jstring) (user : identity.t) :
  route req = GET_user_estabelecimentos (identity.id user) ->
  presented s req = Some token ->
  getUser (auth w) token = Some user ->
  handle s req w =
    (let data := order (by_text estabelecimento.nome)
                   (filter (owned_by (identity.id user)) (tbl_estabelecimento w)) in
     {| status := 200; json := JEstabelecimentos data (List.length data) |},
     called (from_select T_estabelecimento) (called (auth_getUser token) w)).
Proof.
  intros R P G. destruct s; unfold handle, finish, app.
  - apply presented_API_node in P as [T <-].
    unfold API_node.app. rewrite R. unfold API_node.user_estabelecimentos.
    rewrite T. simpl. unfold bind, supabase_auth_getUser. rewrite G.
    rewrite jstring_eqb_refl. reflexivity.
  - unfold part_000.app. rewrite R. unfold bind.
    rewrite (verificarAutenticacao_next req w P G).
    unfold part_000.user_estabelecimentos. rewrite jstring_eqb_refl. reflexivity.
Qed.

(** X10.  [GET /user/:userId/estabelecimentos] for the principal the path
    names, on both servers: the answer is 200 with a list whose [total]
    is its length; an establishment is in the list exactly when it is in
    the table and belongs to the principal; the list is a permutation of
    those rows, in the order of [nome] when the collation is total; no
    table changes. *)
Theorem own_establishments_listed (s : Server) (req : Request) (w : World)
    (token : jstring) (user : identity.t) :
  route req = GET_user_estabelecimentos (identity.id user) ->
  presented s req = Some token ->
  getUser (auth w) token = Some user ->
  exists data,
    fst (handle s req w) =
      {| status := 200; json := JEstabelecimentos data (List.length data) |} /\
    (forall e, In e data <->
               In e (tbl_estabelecimento w) /\
               estabelecimento.user_id e = identity.id user) /\
    Permutation data
      (filter (owned_by (identity.id user)) (tbl_estabelecimento w)) /\
    ((forall a b, collate a b = false -> collate b a = true) ->
     Sorted (fun a b => collate (estabelecimento.nome a) (estabelecimento.nome b) = true)
       data) /\
    db (snd (handle s req w)) = db w.
Proof.
  intros R P G. rewrite (user_estabelecimentos_run s req w R P G). simpl.
  eexists. split; [reflexivity|]. split; [|split; [|split]].
  - intros e. rewrite order_In, filter_In, owned_by_spec. reflexivity.
  - apply order_perm.
  - intros T. apply (order_sorted (by_text estabelecimento.nome)).
    intros a b. unfold by_text. apply T.
  - reflexivity.
Qed.

(** X11.  The refactored server, [GET /estabelecimento/:id/jammers] for
    the owner of the establishment: the answer is 200 with a list whose
    [total] is its length; a jammer is listed exactly when it is in the
    table and points to the establishment; there are as many as in the
    table; they come in ascending [id]; no table changes. *)
Theorem own_jammers_listed_by_id (req : Request) (w : World) (id : N)
    (token : jstring) (user : identity.t) (estab : estabelecimento.row) :
  route req = GET_estabelecimento_jammers id ->
  presented part_000_js req = Some token ->
  getUser (auth w) token = Some user ->
  filter (is_estab id) (tbl_estabelecimento w) = [estab] ->
  estabelecimento.user_id estab = identity.id user ->
  exists data,
    fst (handle part_000_js req w) =
      {| status := 200; json := JJammers data (List.length data) |} /\
    (forall j, In j data <->
               In j (tbl_jammers w) /\ jammers.id_estabelecimento j = id) /\
    List.length data = List.length (filter (jammer_of id) (tbl_jammers w)) /\
    Sorted (fun a b => (jammers.id a <= jammers.id b)%N) data /\
    db (snd (handle part_000_js req w)) = db w.
Proof.
  intros R P G F O.
  destruct (part_000_estabelecimento_jammers req w R P G) as (_ & _ & E).
  rewrite (E estab F O). simpl.
  eexists. split; [reflexivity|]. split; [|split; [|split]].
  - intros j. rewrite order_In, filter_In. unfold jammer_of.
    rewrite N.eqb_eq. reflexivity.
  - apply order_length.
  - pose proof (order_sorted (by_number jammers.id)
                  (filter (jammer_of id) (tbl_jammers w))
                  (by_number_total jammers.id)) as S.
    eapply Sorted_ind with (P := fun l => Sorted _ l); [| |exact S].
    + constructor.
    + intros a l _ IH Hd. constructor; [exact IH|].
      destruct Hd as [|b l' Hab]; constructor.
      unfold by_number in Hab. apply N.leb_le. exact Hab.
  - reflexivity.
Qed.

End TenantListings.

(* ===================================================================== *)
(** * The two implementations of the full listing *)
(* ===================================================================== *)

Section Completo.
Context `{Supabase}.

Lemma mapM_com_jammers (l : list estabelecimento.row) (w : World) :
  exists w',
    mapM API_node.com_jammers l w =
      (Next (map (fun e => jammers_by_id (with_jammers (tbl_jammers w) e)) l), w') /\
    same_store w' w /\ auth w' = auth w /\
    calls w' = calls w ++ repeat (from_select T_jammers) (List.length l).
Proof.
  revert w; induction l as [|e l IH]; intros w; simpl.
  - exists w. repeat split. rewrite app_nil_r. reflexivity.
  - unfold bind at 1. unfold API_node.com_jammers at 1.
    unfold bind at 1. unfold select at 1. simpl.
    destruct (IH (called (from_select T_jammers) w)) as (w' & E & S & A & C).
    unfold bind at 1. rewrite E. simpl.
    exists w'. split; [|split; [|split]].
    + unfold jammers_by_id, with_jammers, jammer_of. simpl.
      rewrite order_length. reflexivity.
    + destruct S as (D & S1 & S2). repeat split; assumption.
    + exact A.
    + rewrite C. simpl. rewrite <- app_assoc. reflexivity.
Qed.

Lemma fold_total_jammers (f : EstabCompleto -> EstabCompleto) (l : list EstabCompleto) :
  (forall ec, ec_total_jammers (f ec) = ec_total_jammers ec) ->
  sum_total_jammers (map f l) = sum_total_jammers l.
Proof.
  intros E. unfold sum_total_jammers. generalize 0.
  induction l as [|ec l IH]; intros n; simpl; [reflexivity|].
  rewrite E. apply IH.
Qed.

Lemma sum_total_jammers_cons (ec : EstabCompleto) (l : list EstabCompleto) :
  sum_total_jammers (ec :: l) = ec_total_jammers ec + sum_total_jammers l.
Proof.
  unfold sum_total_jammers. simpl.
  assert (G : forall l n m,
             fold_left (fun acc e => acc + ec_total_jammers e) l (n + m) =
             n + fold_left (fun acc e => acc + ec_total_jammers e) l m).
  { clear. induction l as [|e l IH]; intros n m; simpl; [reflexivity|].
    rewrite <- Nat.add_assoc. apply IH. }
  rewrite <- G. f_equal. lia.
Qed.

Lemma part_000_completo_run (req : Request) (w : World) (token : jstring)
    (user : identity.t) :
  route req = GET_user_estabelecimentos_completo (identity.id user) ->
  presented part_000_js req = Some token ->
  getUser (auth w) token = Some user ->
  handle part_000_js req w =
    (let l := map (with_jammers (tbl_jammers w))
                (order (by_text estabelecimento.nome)
                   (filter (owned_by (identity.id user)) (tbl_estabelecimento w))) in
     {| status := 200;
        json := JCompleto l (List.length l) (sum_total_jammers l) |},
     called (from_select T_estabelecimento) (called (auth_getUser token) w)).
Proof.
  intros R P G. unfold handle, finish, app, part_000.app. rewrite R.
  unfold bind. rewrite (verificarAutenticacao_next req w P G).
  unfold part_000.user_estabelecimentos_completo. rewrite jstring_eqb_refl. simpl.
  unfold bind, select_with. simpl.
  rewrite (order_map (embed_jammers (called (auth_getUser token) w))
             (by_text estabelecimento.nome)) by reflexivity.
  rewrite map_map. reflexivity.
Qed.

Lemma API_node_completo_run (req : Request) (w : World) (userId : jstring) :
  route req = GET_user_estabelecimentos_completo userId ->
  exists w',
    handle API_node_js req w =
      (let l := map (fun e => jammers_by_id (with_jammers (tbl_jammers w) e))
                  (order (by_text estabelecimento.nome)
                     (filter (owned_by userId) (tbl_estabelecimento w))) in
       {| status := 200;
          json := JCompleto l (List.length l) (sum_total_jammers l) |},
       w') /\
    same_store w' w /\ auth w' = auth w.
Proof.
  intros R. unfold handle, finish, app, API_node.app. rewrite R.
  unfold API_node.user_estabelecimentos_completo.
  unfold bind at 1. unfold select. simpl.
  destruct (mapM_com_jammers
              (order (by_text estabelecimento.nome)
                 (filter (owned_by userId) (tbl_estabelecimento w)))
              (called (from_select T_estabelecimento) w))
    as (w' & E & S & A & _).
  unfold owned_by in E. unfold bind. rewrite E. simpl.
  exists w'. split; [reflexivity|]. split; [|exact A].
  destruct S as (D & S1 & S2). repeat split; assumption.
Qed.

(** X12.  [GET /user/:userId/estabelecimentos-completo] for the principal
    the path names.  The refactored server answers with the principal's
    establishments in [nome] order, each with the jammers that point to
    it in table order; [API_node.js], one read per establishment, answers
    with the same establishments in the same order and the same totals,
    each with the same jammers put in ascending [id].  Neither changes a
    table. *)
Theorem completo_servers_agree (req : Request) (w : World) (token : jstring)
    (user : identity.t) :
  route req = GET_user_estabelecimentos_completo (identity.id user) ->
  presented part_000_js req = Some token ->
  getUser (auth w) token = Some user ->
  let l := map (with_jammers (tbl_jammers w))
             (order (by_text estabelecimento.nome)
                (filter (owned_by (identity.id user)) (tbl_estabelecimento w))) in
  fst (handle part_000_js req w) =
    {| status := 200; json := JCompleto l (List.length l) (sum_total_jammers l) |} /\
  fst (handle API_node_js req w) =
    {| status := 200;
       json := JCompleto (map jammers_by_id l) (List.length l) (sum_total_jammers l) |} /\
  db (snd (handle part_000_js req w)) = db w /\
  db (snd (handle API_node_js req w)) = db w.
Proof.
  intros R P G l.
  rewrite (part_000_completo_run req w R P G).
  destruct (API_node_completo_run req w R) as (w' & E & (D & _) & _).
  rewrite E. simpl. fold l.
  split; [reflexivity|]. split; [|split; [reflexivity | exact D]].
  rewrite <- map_map with (f := with_jammers (tbl_jammers w)) (g := jammers_by_id).
  fold l. rewrite length_map.
  rewrite (@fold_total_jammers jammers_by_id l) by reflexivity.
  reflexivity.
Qed.

(** X13.  The totals of the [-completo] listing count what is listed, on
    both servers: [total_estabelecimentos] is the number of entries,
    [total_jammers] the number of jammers in all of them; every entry is
    an establishment of the principal, says how many jammers it lists,
    and lists exactly the jammers of the table that point to it. *)
Theorem completo_totals (s : Server) (req : Request) (w : World) (token : jstring)
    (user : identity.t) :
  route req = GET_user_estabelecimentos_completo (identity.id user) ->
  presented s req = Some token ->
  getUser (auth w) token = Some user ->
  exists l n m,
    fst (handle s req w) = {| status := 200; json := JCompleto l n m |} /\
    n = List.length l /\
    m = List.length (List.concat (map ec_jammers l)) /\
    Forall (fun ec =>
              estabelecimento.user_id (ec_estab ec) = identity.id user /\
              ec_total_jammers ec = List.length (ec_jammers ec) /\
              forall j, In j (ec_jammers ec) <->
                        In j (tbl_jammers w) /\
                        jammers.id_estabelecimento j = estabelecimento.id (ec_estab ec))
      l.
Proof.
  intros R P G.
  set (es := order (by_text estabelecimento.nome)
               (filter (owned_by (identity.id user)) (tbl_estabelecimento w))).
  assert (Own : Forall (fun e => estabelecimento.user_id e = identity.id user) es).
  { apply Forall_forall. intros e I. apply order_In in I.
    apply filter_In in I as [_ I]. apply owned_by_spec in I. exact I. }
  assert (Sum : forall (f : estabelecimento.row -> EstabCompleto),
             (forall e, ec_total_jammers (f e) = List.length (ec_jammers (f e))) ->
             sum_total_jammers (map f es) =
             List.length (List.concat (map ec_jammers (map f es)))).
  { intros f T. clear Own. induction es as [|e l IH]; [reflexivity|].
    simpl map. rewrite sum_total_jammers_cons, IH. simpl List.concat.
    rewrite length_app, T. reflexivity. }
  destruct s.
  - destruct (API_node_completo_run req w R) as (w' & E & _). rewrite E. simpl.
    fold es. eexists _, _, _. split; [reflexivity|]. split; [reflexivity|].
    split.
    + apply Sum. intros e. simpl. rewrite order_length. reflexivity.
    + apply Forall_forall. intros ec I. apply in_map_iff in I as (e & <- & I).
      rewrite Forall_forall in Own. simpl. split; [apply Own, I|].
      split; [rewrite order_length; reflexivity|].
      intros j. rewrite order_In, filter_In. unfold jammer_of.
      rewrite N.eqb_eq. reflexivity.
  - rewrite (part_000_completo_run req w R P G). simpl. fold es.
    eexists _, _, _. split; [reflexivity|]. split; [reflexivity|].
    split.
    + apply Sum. intros e. reflexivity.
    + apply Forall_forall. intros ec I. apply in_map_iff in I as (e & <- & I).
      rewrite Forall_forall in Own. simpl. split; [apply Own, I|].
      split; [reflexivity|].
      intros j. rewrite filter_In. unfold jammer_of.
      rewrite N.eqb_eq. reflexivity.
Qed.

End Completo.

(* ===================================================================== *)
(** * Update, then read *)
(* ===================================================================== *)

Section PatchThenRead.
Context `{Supabase}.

Lemma find_of_filter {A : Type} (p : A -> bool) (l : list A) (x : A) :
  filter p l = [x] -> find p l = Some x.
Proof.
  induction l as [|y l IH]; simpl; [discriminate|].
  destruct (p y); [intros [= ->]; reflexivity | exact IH].
Qed.

Lemma API_node_estabelecimento_jammers_run (req : Request) (w : World) (id : N) :
  route req = GET_estabelecimento_jammers id ->
  handle API_node_js req w =
    (let data := order (by_number jammers.id)
                   (filter (jammer_of id) (tbl_jammers w)) in
     {| status := 200; json := JJammers data (List.length data) |},
     called (from_select T_jammers) w).
Proof.
  intros R. unfold handle, finish, app, API_node.app. rewrite R. reflexivity.
Qed.

Lemma switched_in_table (estado : bool) (jammerId : N) (l : list jammers.row)
    (j j' : jammers.row) :
  filter (has_id jammerId) l = [j] ->
  In j' (map (fun r => if has_id jammerId r then switched estado r else r) l) ->
  jammers.id j' = jammerId ->
  j' = switched estado j.
Proof.
  intros F I E. apply in_map_iff in I as (r & <- & I).
  destruct (has_id jammerId r) eqn:Hr.
  - assert (In r (filter (has_id jammerId) l)) as I' by (apply filter_In; auto).
    rewrite F in I'. destruct I' as [->|[]]. reflexivity.
  - unfold has_id in Hr. apply N.eqb_neq in Hr. contradiction.
Qed.

(** X14.  Update, then read.  After the owner's [PATCH /jammer/:jammerId]
    the owner's [GET /estabelecimento/:id/jammers] for the parent
    establishment answers 200, lists the jammer with the state just
    written, lists no other row under that id, and lists as many
    jammers as the establishment had. *)
Theorem switched_jammer_is_read_back (s : Server) (patch get : Request) (w : World)
    (jammerId : N) (estado : bool) (token : jstring) (user : identity.t)
    (j : jammers.row) (estab : estabelecimento.row) :
  route patch = PATCH_jammer jammerId ->
  body.estado_jammer (req_body patch) = Some estado ->
  presented s patch = Some token ->
  getUser (auth w) token = Some user ->
  filter (has_id jammerId) (tbl_jammers w) = [j] ->
  filter (is_estab (jammers.id_estabelecimento j)) (tbl_estabelecimento w) = [estab] ->
  estabelecimento.user_id estab = identity.id user ->
  route get = GET_estabelecimento_jammers (jammers.id_estabelecimento j) ->
  presented s get = Some token ->
  exists data,
    fst (handle s get (snd (handle s patch w))) =
      {| status := 200; json := JJammers data (List.length data) |} /\
    In (switched estado j) data /\
    (forall j', In j' data -> jammers.id j' = jammerId -> j' = switched estado j) /\
    List.length data =
      List.length (filter (jammer_of (jammers.id_estabelecimento j)) (tbl_jammers w)).
Proof.
  intros R B P G F FE Own R2 P2.
  assert (Par : find (parent_of j) (tbl_estabelecimento w) = Some estab)
    by (apply find_of_filter; exact FE).
  pose proof (patch_jammer_run s patch w R B P G) as E. simpl in E.
  rewrite F, Par, Own, jstring_eqb_refl in E.
  set (J' := map (fun r => if has_id jammerId r then switched estado r else r)
               (tbl_jammers w)) in *.
  assert (In' : In (switched estado j) J').
  { assert (I : In j (tbl_jammers w)).
    { assert (I : In j (filter (has_id jammerId) (tbl_jammers w)))
        by (rewrite F; left; reflexivity).
      apply filter_In in I. tauto. }
    assert (Hj : has_id jammerId j = true).
    { assert (I' : In j (filter (has_id jammerId) (tbl_jammers w)))
        by (rewrite F; left; reflexivity).
      apply filter_In in I'. tauto. }
    unfold J'. apply in_map_iff. exists j. rewrite Hj. auto. }
  assert (Len : List.length (filter (jammer_of (jammers.id_estabelecimento j)) J') =
                List.length (filter (jammer_of (jammers.id_estabelecimento j))
                               (tbl_jammers w))).
  { unfold J'. clear. induction (tbl_jammers w) as [|r l IH]; simpl; [reflexivity|].
    assert (K : jammer_of (jammers.id_estabelecimento j)
                  (if has_id jammerId r then switched estado r else r) =
                jammer_of (jammers.id_estabelecimento j) r)
      by (destruct (has_id jammerId r); reflexivity).
    rewrite K. destruct (jammer_of _ r); simpl; rewrite IH; reflexivity. }
  assert (Data : forall data,
             data = order (by_number jammers.id)
                      (filter (jammer_of (jammers.id_estabelecimento j)) J') ->
             In (switched estado j) data /\
             (forall j', In j' data -> jammers.id j' = jammerId ->
                         j' = switched estado j) /\
             List.length data =
               List.length (filter (jammer_of (jammers.id_estabelecimento j))
                              (tbl_jammers w))).
  { intros data ->. split; [|split].
    - apply order_In, filter_In. split; [exact In'|].
      unfold jammer_of. simpl. apply N.eqb_refl.
    - intros j' I Ej. apply order_In, filter_In in I as [I _].
      eapply switched_in_table; eauto.
    - rewrite order_length. exact Len. }
  destruct s.
  - rewrite E. simpl snd.
    rewrite (API_node_estabelecimento_jammers_run get _ R2). simpl.
    eexists. split; [reflexivity|]. apply Data. reflexivity.
  - rewrite E. simpl snd.
    match goal with
    | |- context [handle part_000_js get ?w1] =>
        destruct (@part_000_estabelecimento_jammers _ get w1
                    (jammers.id_estabelecimento j) token user R2 P2 G)
          as (_ & _ & K)
    end.
    rewrite (K estab FE Own). simpl.
    eexists. split; [reflexivity|]. apply Data. reflexivity.
Qed.

End PatchThenRead.

(* ===================================================================== *)
(** * Tokens *)
(* ===================================================================== *)

Lemma strip_prefix_app (p t : jstring) : strip_prefix p (p ++ t) = Some t.
Proof.
  induction p as [|c p IH]; simpl; [destruct t; reflexivity|].
  rewrite N.eqb_refl. exact IH.
Qed.

Lemma strip_prefix_some (p s rest : jstring) :
  strip_prefix p s = Some rest -> s = p ++ rest.
Proof.
  revert s; induction p as [|c p IH]; intros s; simpl.
  - destruct s; intros [= <-]; reflexivity.
  - destruct s as [|d s]; [discriminate|].
    destruct (N.eqb_spec c d) as [->|]; [|discriminate].
    intros E. rewrite (IH _ E). reflexivity.
Qed.

Lemma remove_first_prefix (p t : jstring) : remove_first p (p ++ t) = t.
Proof.
  destruct (p ++ t) as [|c s] eqn:E; simpl.
  - destruct p; [simpl in E; subst; reflexivity | discriminate].
  - rewrite <- E, strip_prefix_app. reflexivity.
Qed.

Lemma remove_first_absent (p s : jstring) :
  ~ occurs p s -> remove_first p s = s.
Proof.
  induction s as [|c s IH]; intros N.
  - simpl. destruct (strip_prefix p []) as [rest|] eqn:E; [|reflexivity].
    apply strip_prefix_some in E. exfalso. apply N. exists [], rest.
    simpl. exact E.
  - simpl. destruct (strip_prefix p (c :: s)) as [rest|] eqn:E.
    + apply strip_prefix_some in E. exfalso. apply N. exists [], rest. exact E.
    + rewrite IH; [reflexivity|].
      intros (a & b & ->). apply N. exists (c :: a), b. reflexivity.
Qed.

Section Tokens.
Context `{Supabase}.

Lemma presented_none_API_node (req : Request) :
  presented API_node_js req = None -> truthy (API_node.bearer req) = false.
Proof.
  unfold presented.
  destruct (API_node.bearer req) as [[|c t]|]; simpl; try reflexivity; discriminate.
Qed.

(** X2.  On the routes where a server resolves the token before anything
    else: without a token the answer is 401 "Token não fornecido." and
    the world is as it was; with a token the provider does not resolve
    the answer is a 401 with another text, and the only thing that
    happened is the one call on the provider. *)
Theorem unresolved_token_stops_the_request (s : Server) (req : Request) (w : World) :
  checks_token_first s req = true ->
  (presented s req = None -> handle s req w = (token_missing, w)) /\
  (forall token,
     presented s req = Some token ->
     getUser (auth w) token = None ->
     token_rejected (fst (handle s req w)) /\
     snd (handle s req w) = called (auth_getUser token) w).
Proof.
  intros C. unfold checks_token_first in C. split.
  - intros P. destruct s.
    + apply presented_none_API_node in P.
      unfold handle, finish, app, API_node.app.
      destruct (route req) as [| | | | |u|u|i|k|a|]; try discriminate C.
      * unfold API_node.verify_session. rewrite P. reflexivity.
      * unfold API_node.user_estabelecimentos. rewrite P. reflexivity.
      * unfold API_node.patch_jammer.
        destruct (body.estado_jammer (req_body req)); [|discriminate C].
        rewrite P. reflexivity.
      * unfold bind, API_node.verificarAdmin. rewrite P. reflexivity.
    + apply presented_none_part_000 in P.
      unfold handle, finish, app, part_000.app.
      destruct (route req) as [| | | | |u|u|i|k|a|]; try discriminate C;
        unfold bind;
        try rewrite (verificarAutenticacao_no_header req w P);
        try reflexivity.
      unfold part_000.verificarAdmin. rewrite P. reflexivity.
  - intros token P G. unfold token_rejected. destruct s.
    + apply presented_API_node in P as [T <-].
      unfold handle, finish, app, API_node.app.
      destruct (route req) as [| | | | |u|u|i|k|a|]; try discriminate C.
      * unfold API_node.verify_session. rewrite T. simpl.
        unfold bind, supabase_auth_getUser. rewrite G. simpl.
        repeat split. eexists. split; [reflexivity | discriminate].
      * unfold API_node.user_estabelecimentos. rewrite T. simpl.
        unfold bind, supabase_auth_getUser. rewrite G. simpl.
        repeat split. eexists. split; [reflexivity | discriminate].
      * unfold API_node.patch_jammer.
        destruct (body.estado_jammer (req_body req)); [|discriminate C].
        rewrite T. simpl.
        unfold bind, supabase_auth_getUser. rewrite G. simpl.
        repeat split. eexists. split; [reflexivity | discriminate].
      * unfold bind at 1. unfold API_node.verificarAdmin. rewrite T. simpl.
        unfold bind, supabase_auth_getUser. rewrite G. simpl.
        repeat split. eexists. split; [reflexivity | discriminate].
    + apply presented_part_000 in P as [T <-].
      assert (V : part_000.verificarAutenticacao req w =
                  (Sent {| status := 401;
                           json := JError (Lit "Token inválido ou sessão expirada.") |},
                   called (auth_getUser
                             (remove_first (js "Bearer ") (text (authorization req)))) w)).
      { unfold part_000.verificarAutenticacao. rewrite T. simpl.
        unfold bind, supabase_auth_getUser. rewrite G. reflexivity. }
      unfold handle, finish, app, part_000.app.
      destruct (route req) as [| | | | |u|u|i|k|a|]; try discriminate C;
        unfold bind.
      1-5: rewrite V; simpl; repeat split; eexists;
        (split; [reflexivity | discriminate]).
      unfold part_000.verificarAdmin. rewrite T. simpl.
      unfold bind, supabase_auth_getUser. rewrite G. simpl.
      repeat split. eexists. split; [reflexivity | discriminate].
Qed.

(** X3.  [GET /verify-session] answers 200 with [user] exactly when the
    request is authenticated as [user]; any other answer is a 401.  No
    table and no sequence changes, the provider's state stays, and the
    only call the route can add to the record is [auth.getUser]. *)
Theorem verify_session_contract (s : Server) (req : Request) (w : World) :
  route req = GET_verify_session ->
  (forall user,
     fst (handle s req w) = {| status := 200; json := JUser user |} <->
     authenticated s req w user) /\
  (status (fst (handle s req w)) = 200 \/ status (fst (handle s req w)) = 401) /\
  same_store (snd (handle s req w)) w /\
  auth (snd (handle s req w)) = auth w /\
  (forall c, In c (calls (snd (handle s req w))) ->
             In c (calls w) \/ exists token, c = auth_getUser token).
Proof.
  intros R. unfold authenticated.
  destruct (presented s req) as [token|] eqn:P.
  - destruct (getUser (auth w) token) as [u|] eqn:G.
    + assert (E : handle s req w =
                  ({| status := 200; json := JUser u |},
                   called (auth_getUser token) w)).
      { destruct s; unfold handle, finish, app.
        - apply presented_API_node in P as [T <-].
          unfold API_node.app. rewrite R. unfold API_node.verify_session.
          rewrite T. simpl. unfold bind, supabase_auth_getUser. rewrite G.
          reflexivity.
        - unfold part_000.app. rewrite R. unfold bind.
          rewrite (verificarAutenticacao_next req w P G). reflexivity. }
      rewrite E. simpl. split; [|split; [|split; [|split]]].
      * intros user. split.
        -- intros [= ->]. exists token. auto.
        -- intros (t & [= <-] & G'). rewrite G in G'. injection G' as ->.
           reflexivity.
      * left; reflexivity.
      * repeat split.
      * reflexivity.
      * intros c I. apply in_app_or in I as [I|[<-|[]]]; eauto.
    + assert (E : status (fst (handle s req w)) = 401 /\
                  snd (handle s req w) = called (auth_getUser token) w).
      { destruct s; unfold handle, finish, app.
        - apply presented_API_node in P as [T <-].
          unfold API_node.app. rewrite R. unfold API_node.verify_session.
          rewrite T. simpl. unfold bind, supabase_auth_getUser. rewrite G.
          split; reflexivity.
        - apply presented_part_000 in P as [T <-].
          unfold part_000.app. rewrite R. unfold bind.
          unfold part_000.verificarAutenticacao. rewrite T. simpl.
          unfold bind, supabase_auth_getUser. rewrite G. split; reflexivity. }
      destruct E as [St W].
      split; [|split; [|split; [|split]]].
      * intros user. split.
        -- intros E. rewrite E in St. discriminate St.
        -- intros (t & [= <-] & G'). rewrite G in G'. discriminate.
      * right; exact St.
      * rewrite W. repeat split.
      * rewrite W. reflexivity.
      * rewrite W. simpl. intros c I.
        apply in_app_or in I as [I|[<-|[]]]; eauto.
  - assert (E : handle s req w = (token_missing, w)).
    { destruct s; unfold handle, finish, app.
      - apply presented_none_API_node in P.
        unfold API_node.app. rewrite R. unfold API_node.verify_session.
        rewrite P. reflexivity.
      - apply presented_none_part_000 in P.
        unfold part_000.app. rewrite R. unfold bind.
        rewrite (verificarAutenticacao_no_header req w P). reflexivity. }
    rewrite E. simpl.
    split; [|split; [|split; [|split]]].
    + intros user. split; [discriminate|]. intros (t & D & _). discriminate.
    + right; reflexivity.
    + repeat split.
    + reflexivity.
    + auto.
Qed.

End Tokens.

(* ===================================================================== *)
(** * What the credential routes do *)
(* ===================================================================== *)

Section CredentialRoutes.
Context `{Supabase}.

(** [POST /signup] once its three guards have let the request through. *)
Lemma signup_run (s : Server) (req : Request) (w : World) :
  route req = POST_signup ->
  truthy (body.email (req_body req)) = true ->
  validateEmail (text (body.email (req_body req))) = true ->
  truthy_value (body.password (req_body req)) = true ->
  length_below 6 (body.password (req_body req)) = false ->
  handle s req w =
    let email := text (body.email (req_body req)) in
    let password := value (body.password (req_body req)) in
    let looked := called (from_select T_users) w in
    match filter (has_email email) (tbl_users w) with
    | [_] =>
        ({| status := 400; json := JError (Lit "E-mail já está cadastrado.") |},
         looked)
    | _ =>
        let asked := called (auth_signUp email password) looked in
        match signUp (auth w) email password with
        | (inl signUpError, a) =>
            ({| status := 400; json := JError (ErrorMessage signUpError) |},
             set_auth a asked)
        | (inr SignUpNoUser, a) =>
            ({| status := 400; json := JError (Lit "Erro ao criar usuário.") |},
             set_auth a asked)
        | (inr (SignUpUser user), a) =>
            let tried := called (from_insert T_users) (set_auth a asked) in
            if existsb (is_user (identity.id user)) (tbl_users w)
            then ({| status := 400; json := JError (ErrorMessage UniqueViolation) |},
                  tried)
            else ({| status := 201;
                     json := JSignup (Lit "Usuário cadastrado com sucesso.")
                               (identity.id user) |},
                  set_users (tbl_users w ++ [signed_up user email]) tried)
        end
    end.
Proof.
  intros R Te V Tp L.
  unfold handle, finish. rewrite (app_signup s req R). unfold signup.
  rewrite Te, Tp, V, L. simpl.
  unfold bind, select, supabase_auth_signUp, insert_users, maybeSingle. simpl.
  fold (has_email (text (body.email (req_body req)))).
  destruct (filter (has_email (text (body.email (req_body req)))) (tbl_users w))
    as [|u [|u' l]]; simpl; try reflexivity;
    destruct (signUp (auth w) (text (body.email (req_body req)))
                (value (body.password (req_body req)))) as [[e|[|user]] a];
    simpl; try reflexivity;
    fold (is_user (identity.id user));
    destruct (existsb (is_user (identity.id user)) (tbl_users w)); reflexivity.
Qed.



(** X6.  [POST /signup], whatever the body and the world: with status 201
    [users] has gained the one row made of the provider's user and the
    email of the body; with any other status [users] is as it was; the
    establishments and the jammers are never touched. *)
Theorem signup_writes_only_with_201 (s : Server) (req : Request) (w : World) :
  route req = POST_signup ->
  let w' := snd (handle s req w) in
  (status (fst (handle s req w)) = 201 ->
   exists user,
     json (fst (handle s req w)) =
       JSignup (Lit "Usuário cadastrado com sucesso.") (identity.id user) /\
     tbl_users w' =
       tbl_users w ++ [signed_up user (text (body.email (req_body req)))]) /\
  (status (fst (handle s req w)) <> 201 -> tbl_users w' = tbl_users w) /\
  tbl_estabelecimento w' = tbl_estabelecimento w /\
  tbl_jammers w' = tbl_jammers w.
Proof.
  intros R w'. subst w'.
  unfold handle, finish. rewrite (app_signup s req R). unfold signup.
  destruct (truthy (body.email (req_body req))); simpl;
    [|repeat split; try discriminate; auto].
  destruct (truthy_value (body.password (req_body req))); simpl;
    [|repeat split; try discriminate; auto].
  destruct (validateEmail (text (body.email (req_body req)))); simpl;
    [|repeat split; try discriminate; auto].
  destruct (length_below 6 _); simpl; [repeat split; try discriminate; auto|].
  unfold bind, select, supabase_auth_signUp, insert_users, maybeSingle. simpl.
  destruct (filter _ (tbl_users w)) as [|u [|u' l]]; simpl;
    try (repeat split; try discriminate; auto; fail);
    destruct (signUp (auth w) _ _) as [[e|[|user]] a]; simpl;
    try (repeat split; try discriminate; auto; fail);
    destruct (existsb _ (tbl_users w)); simpl;
    try (repeat split; try discriminate; auto; fail).
  all: repeat split; try congruence; intros _; exists user; split; reflexivity.
Qed.

(** X7.  The length test is [password.length < 6] as the runtime
    evaluates it, no more and no less.  When the guards before it pass,
    sign-up answers "A senha deve ter no mínimo 6 caracteres." if and
    only if the test holds of the password, and so does the password
    reset for the new password.  A string passes the test when it has
    fewer than six UTF-16 code units and an array when it has fewer
    than six items: six is enough.  A number or a boolean never does:
    it has no length. *)
Theorem password_length_boundary (s : Server) (req : Request) (w : World) :
  (route req = POST_signup ->
   truthy (body.email (req_body req)) = true ->
   validateEmail (text (body.email (req_body req))) = true ->
   truthy_value (body.password (req_body req)) = true ->
   (fst (handle s req w) = password_too_short <->
    length_below 6 (body.password (req_body req)) = true)) /\
  (route req = POST_reset_password ->
   truthy (body.access_token (req_body req)) = true ->
   truthy_value (body.new_password (req_body req)) = true ->
   (fst (handle s req w) = password_too_short <->
    length_below 6 (body.new_password (req_body req)) = true)) /\
  (forall t, length_below 6 (Some (JsString t)) = true <-> List.length t < 6) /\
  (forall items,
     length_below 6 (Some (JsArray items)) = true <-> List.length items < 6) /\
  (forall a d, length_below 6 (Some (JsNumber a d)) = false) /\
  (forall b, length_below 6 (Some (JsBool b)) = false).
Proof.
  split; [|split; [|split; [|split; [|split]]]].
  - intros R Te V Tp.
    destruct (length_below 6 (body.password (req_body req))) eqn:L.
    + split; [auto|]. intros _.
      unfold handle, finish. rewrite (app_signup s req R). unfold signup.
      rewrite Te, Tp, V, L. reflexivity.
    + split; [|discriminate]. intros E. exfalso.
      pose proof (signup_run s req w R Te V Tp L) as Run. simpl in Run.
      rewrite Run in E. revert E.
      destruct (filter _ (tbl_users w)) as [|u [|u' l]];
        try discriminate;
        destruct (signUp (auth w) _ _) as [[e|[|user]] a];
        try discriminate;
        destruct (existsb _ (tbl_users w)); discriminate.
  - intros R Ta Tp.
    destruct (length_below 6 (body.new_password (req_body req))) eqn:L.
    + split; [auto|]. intros _.
      unfold handle, finish. rewrite (app_reset_password s req R).
      unfold reset_password. rewrite Ta, Tp, L. reflexivity.
    + split; [|discriminate]. intros E. exfalso.
      revert E. unfold handle, finish. rewrite (app_reset_password s req R).
      unfold reset_password. rewrite Ta, Tp, L. simpl.
      unfold bind, supabase_auth_setSession, supabase_auth_updateUser. simpl.
      destruct (updateUser _ _) as [[e|] a]; discriminate.
  - intros t. change (length_below (Z.of_nat 6) (Some (JsString t)) = true <->
                      List.length t < 6).
    rewrite length_below_string. apply Nat.ltb_lt.
  - intros items.
    change (length_below (Z.of_nat 6) (Some (JsArray items)) = true <->
            List.length items < 6).
    rewrite length_below_array. apply Nat.ltb_lt.
  - reflexivity.
  - reflexivity.
Qed.

(** X8.  The answer of [POST /forgot-password] depends on the request
    only: in any two worlds it is the same, whether or not the email is
    known.  No table changes.  For an email that is there and passes
    [validateEmail] the answer is 200 and the one call made is
    [auth.resetPasswordForEmail] with that email. *)
Theorem forgot_password_reveals_nothing (s : Server) (req : Request) :
  route req = POST_forgot_password ->
  (forall w1 w2, fst (handle s req w1) = fst (handle s req w2)) /\
  (forall w, same_store (snd (handle s req w)) w) /\
  (forall w,
     truthy (body.email (req_body req)) = true ->
     validateEmail (text (body.email (req_body req))) = true ->
     status (fst (handle s req w)) = 200 /\
     calls (snd (handle s req w)) =
       calls w ++ [auth_resetPasswordForEmail (text (body.email (req_body req)))] /\
     auth (snd (handle s req w)) =
       resetPasswordForEmail (auth w) (text (body.email (req_body req)))).
Proof.
  intros R. unfold handle, finish. rewrite (app_forgot_password s req R).
  unfold forgot_password.
  destruct (truthy (body.email (req_body req))); simpl;
    [|repeat split; discriminate].
  destruct (validateEmail (text (body.email (req_body req)))); simpl;
    [|repeat split; discriminate].
  repeat split.
Qed.


End CredentialRoutes.

(* ===================================================================== *)
(** * What the admin routes do *)
(* ===================================================================== *)

Section AdminRoutes.
Context `{Supabase}.

Lemma admin_passes (s : Server) (req : Request) (w : World) (a : AdminRoute)
    (token : jstring) :
  route req = Admin a ->
  is_admin_request s req w token ->
  handle s req w = finish (admin_handler a req) (admitted token w).
Proof.
  intros R (user & userData & P & G & F & A).
  pose proof (verificarAdmin_gate s req w P G F) as V. rewrite A in V.
  exact (handle_admin_passed s req w R V).
Qed.

Lemma is_admin_request_frame (s : Server) (req : Request) (w w' : World)
    (token : jstring) :
  auth w' = auth w -> tbl_users w' = tbl_users w ->
  is_admin_request s req w token -> is_admin_request s req w' token.
Proof.
  intros A U (user & userData & P & G & F & Ad).
  exists user, userData. rewrite A, U. auto.
Qed.

(** [POST /admin/estabelecimento] for a user that is in the table. *)
Lemma criar_estabelecimento_run (s : Server) (req : Request) (w : World)
    (token : jstring) (owner : users.row) :
  route req = Admin POST_admin_estabelecimento ->
  is_admin_request s req w token ->
  truthy (body.user_id (req_body req)) = true ->
  truthy (body.nome (req_body req)) = true ->
  truthy (body.cep (req_body req)) = true ->
  filter (is_user (text (body.user_id (req_body req)))) (tbl_users w) = [owner] ->
  existsb (is_estab (seq_estabelecimento w)) (tbl_estabelecimento w) = false ->
  handle s req w =
    let created :=
      new_estabelecimento (seq_estabelecimento w)
        (text (body.user_id (req_body req))) (text (body.nome (req_body req)))
        (text (body.cep (req_body req))) in
    ({| status := 201;
        json := JEstabelecimento
                  (EstabelecimentoCriado (text (body.nome (req_body req)))
                     (users.email owner)) created |},
     set_estabelecimento (tbl_estabelecimento w ++ [created])
       (set_seq_estabelecimento (N.succ (seq_estabelecimento w))
          (called (from_insert T_estabelecimento)
             (called (from_select T_users) (admitted token w))))).
Proof.
  intros R Ad Tu Tn Tc F E.
  rewrite (admin_passes R Ad). simpl admin_handler.
  unfold finish, admin_criar_estabelecimento. rewrite Tu, Tn, Tc. simpl.
  unfold bind, select, insert_estabelecimento, single. simpl.
  fold (is_user (text (body.user_id (req_body req)))). rewrite F. simpl.
  fold (is_estab (seq_estabelecimento w)). rewrite E. reflexivity.
Qed.


(** X16.  Create, then list.  After an administrator has created an
    establishment for a tenant, the tenant's
    [GET /user/:userId/estabelecimentos] answers 200 with the new row
    in the list, and the list holds that row and the tenant's rows of
    before, nothing else. *)
Theorem created_establishment_is_listed (s : Server) (create list : Request)
    (w : World) (token tenant_token : jstring) (tenant : identity.t)
    (owner : users.row) :
  route create = Admin POST_admin_estabelecimento ->
  is_admin_request s create w token ->
  body.user_id (req_body create) = Some (identity.id tenant) ->
  identity.id tenant <> [] ->
  truthy (body.nome (req_body create)) = true ->
  truthy (body.cep (req_body create)) = true ->
  filter (is_user (identity.id tenant)) (tbl_users w) = [owner] ->
  existsb (is_estab (seq_estabelecimento w)) (tbl_estabelecimento w) = false ->
  route list = GET_user_estabelecimentos (identity.id tenant) ->
  presented s list = Some tenant_token ->
  getUser (auth w) tenant_token = Some tenant ->
  let created :=
    new_estabelecimento (seq_estabelecimento w) (identity.id tenant)
      (text (body.nome (req_body create))) (text (body.cep (req_body create))) in
  exists data,
    fst (handle s list (snd (handle s create w))) =
      {| status := 200; json := JEstabelecimentos data (List.length data) |} /\
    In created data /\
    (forall e, In e data <->
               e = created \/
               (In e (tbl_estabelecimento w) /\
                estabelecimento.user_id e = identity.id tenant)).
Proof.
  intros R Ad Bu Hu Tn Tc F E R2 P2 G2 created.
  assert (Tu : truthy (body.user_id (req_body create)) = true).
  { rewrite Bu. destruct (identity.id tenant); [congruence | reflexivity]. }
  assert (Tx : text (body.user_id (req_body create)) = identity.id tenant)
    by (rewrite Bu; reflexivity).
  rewrite <- Tx in F.
  rewrite (criar_estabelecimento_run R Ad Tu Tn Tc F E). rewrite Tx.
  cbv zeta. fold created. cbn [snd].
  match goal with
  | |- context [handle s list ?w1] =>
      assert (G3 : getUser (auth w1) tenant_token = Some tenant) by exact G2;
      rewrite (user_estabelecimentos_run s list w1 R2 P2 G3)
  end.
  simpl. eexists. split; [reflexivity|].
  assert (K : forall e,
             In e (order (by_text estabelecimento.nome)
                     (filter (owned_by (identity.id tenant))
                        (tbl_estabelecimento w ++ [created]))) <->
             e = created \/
             (In e (tbl_estabelecimento w) /\
              estabelecimento.user_id e = identity.id tenant)).
  { intros e. rewrite order_In, filter_In, in_app_iff, owned_by_spec. simpl.
    split.
    - intros [[I|[<-|[]]] O]; auto.
    - intros [->|[I O]]; [|auto]. split; [auto | reflexivity]. }
  split; [apply K; left; reflexivity | exact K].
Qed.


Lemma admin_deletar_jammer_run (id : N) (req : Request) (w : World) :
  finish (admin_deletar_jammer id req) w =
    match filter (has_id id) (tbl_jammers w) with
    | [data] =>
        ({| status := 200; json := JJammer (Lit "Jammer deletado com sucesso.") data |},
         set_jammers (filter (fun j => negb (has_id id j)) (tbl_jammers w))
           (called (from_delete T_jammers) w))
    | l =>
        ({| status := 400;
            json := JError (ErrorMessage (NotSingular (List.length l))) |},
         called (from_delete T_jammers) w)
    end.
Proof.
  unfold finish, admin_deletar_jammer, bind, delete_single. simpl.
  fold (has_id id).
  destruct (filter (has_id id) (tbl_jammers w)) as [|j [|j' l]]; reflexivity.
Qed.

(** X19.  [DELETE /admin/jammer/:id] by an administrator.  When one jammer
    has the id, the answer is 200 with that row, the table keeps
    exactly the jammers with another id, and the same request again is
    answered 400 with the error of [.single()] on no row and changes
    nothing.  When no jammer has the id the answer is that 400 at once.
    The establishments and the users stay in every case. *)
Theorem admin_deletes_one_jammer (s : Server) (req : Request) (w : World)
    (id : N) (token : jstring) :
  route req = Admin (DELETE_admin_jammer id) ->
  is_admin_request s req w token ->
  let first := handle s req w in
  let second := handle s req (snd first) in
  (forall j,
     filter (has_id id) (tbl_jammers w) = [j] ->
     fst first =
       {| status := 200; json := JJammer (Lit "Jammer deletado com sucesso.") j |} /\
     tbl_jammers (snd first) =
       filter (fun r => negb (has_id id r)) (tbl_jammers w) /\
     (forall r, In r (tbl_jammers (snd first)) <->
                In r (tbl_jammers w) /\ jammers.id r <> id) /\
     fst second =
       {| status := 400; json := JError (ErrorMessage (NotSingular 0)) |} /\
     db (snd second) = db (snd first)) /\
  (filter (has_id id) (tbl_jammers w) = [] ->
   fst first = {| status := 400; json := JError (ErrorMessage (NotSingular 0)) |} /\
   db (snd first) = db w) /\
  tbl_estabelecimento (snd first) = tbl_estabelecimento w /\
  tbl_users (snd first) = tbl_users w.
Proof.
  intros R Ad first second.
  pose proof (admin_passes R Ad) as E1. simpl admin_handler in E1.
  rewrite admin_deletar_jammer_run in E1. simpl in E1. fold first in E1.
  split; [|split; [|split]].
  - intros j F. rewrite F in E1.
    assert (Ad2 : is_admin_request s req (snd first) token).
    { apply is_admin_request_frame with w; try exact Ad; rewrite E1; reflexivity. }
    pose proof (admin_passes R Ad2) as E2. simpl admin_handler in E2.
    rewrite admin_deletar_jammer_run in E2. fold second in E2.
    assert (T : tbl_jammers (snd first) =
                filter (fun r => negb (has_id id r)) (tbl_jammers w))
      by (rewrite E1; reflexivity).
    change (tbl_jammers (admitted token (snd first)))
      with (tbl_jammers (snd first)) in E2.
    rewrite T, filter_out_none in E2. simpl in E2.
    split; [rewrite E1; reflexivity|]. split; [exact T|]. split; [|split].
    + intros r. rewrite T, filter_In. unfold has_id.
      rewrite negb_true_iff, N.eqb_neq. reflexivity.
    + rewrite E2. reflexivity.
    + rewrite E2. reflexivity.
  - intros F. rewrite F in E1. rewrite E1. split; reflexivity.
  - rewrite E1. destruct (filter (has_id id) (tbl_jammers w)) as [|j [|j' l]];
      reflexivity.
  - rewrite E1. destruct (filter (has_id id) (tbl_jammers w)) as [|j [|j' l]];
      reflexivity.
Qed.

(** X20.  The admin listings, for an administrator.  [GET /admin/usuarios]
    lists a permutation of [users]; [GET /admin/estabelecimentos] a
    permutation of the establishments, each with its owner embedded;
    [GET /admin/jammers] a permutation of the jammers, each with its
    establishment and owner embedded, in ascending [id].  [total] is the
    size of the table, and no table or sequence changes. *)
Theorem admin_listings_are_complete (s : Server) (req : Request) (w : World)
    (token : jstring) :
  is_admin_request s req w token ->
  (route req = Admin GET_admin_usuarios ->
   exists l,
     fst (handle s req w) =
       {| status := 200; json := JUsuarios l (List.length (tbl_users w)) |} /\
     Permutation l (tbl_users w)) /\
  (route req = Admin GET_admin_estabelecimentos ->
   exists l,
     fst (handle s req w) =
       {| status := 200;
          json := JAdminEstabelecimentos l (List.length (tbl_estabelecimento w)) |} /\
     Permutation l (map (embed_users w) (tbl_estabelecimento w))) /\
  (route req = Admin GET_admin_jammers ->
   exists l,
     fst (handle s req w) =
       {| status := 200; json := JAdminJammers l (List.length (tbl_jammers w)) |} /\
     Permutation l (map (embed_estabelecimento_users w) (tbl_jammers w)) /\
     Sorted (fun a b => (jammers.id (fst a) <= jammers.id (fst b))%N) l) /\
  ((exists a, route req = Admin a /\
              (a = GET_admin_usuarios \/ a = GET_admin_estabelecimentos \/
               a = GET_admin_jammers)) ->
   same_store (snd (handle s req w)) w).
Proof.
  intros Ad.
  assert (All : forall (A : Type) (l : list A), filter (fun _ => true) l = l).
  { intros A l. induction l as [|x l IH]; simpl; [|rewrite IH]; reflexivity. }
  split; [|split; [|split]].
  - intros R. rewrite (admin_passes R Ad). simpl admin_handler.
    unfold finish, admin_usuarios, bind, select. simpl. rewrite All.
    eexists. split; [rewrite order_length; reflexivity | apply order_perm].
  - intros R. rewrite (admin_passes R Ad). simpl admin_handler.
    unfold finish, admin_estabelecimentos, bind, select_with. simpl. rewrite All.
    eexists. split; [rewrite order_length, length_map; reflexivity|].
    apply order_perm.
  - intros R. rewrite (admin_passes R Ad). simpl admin_handler.
    unfold finish, admin_jammers, bind, select_with. simpl. rewrite All.
    eexists. split; [rewrite order_length, length_map; reflexivity|].
    split; [apply order_perm|].
    match goal with
    | |- Sorted _ (order ?le ?l) =>
        pose proof (order_sorted le l (by_number_total _)) as S
    end.
    eapply Sorted_ind with (P := fun l => Sorted _ l); [| |exact S].
    + constructor.
    + intros a l _ IH Hd. constructor; [exact IH|].
      destruct Hd as [|b l' Hab]; constructor.
      unfold by_number in Hab. apply N.leb_le. exact Hab.
  - intros (a & R & [-> | [-> | ->]]); rewrite (admin_passes R Ad);
      simpl admin_handler;
      unfold finish, admin_usuarios, admin_estabelecimentos, admin_jammers,
        bind, select, select_with; simpl; repeat split.
Qed.

End AdminRoutes.

(* ===================================================================== *)
(** * What one request may change *)
(* ===================================================================== *)

Ltac unfold_routes :=
  unfold handle, finish, app, API_node.app, part_000.app,
    signup, login, health, forgot_password, reset_password,
    API_node.verify_session, API_node.user_estabelecimentos,
    API_node.estabelecimento_jammers, API_node.patch_jammer,
    API_node.verificarAdmin,
    part_000.verificarAutenticacao, part_000.verificarAdmin,
    part_000.verify_session, part_000.user_estabelecimentos,
    part_000.user_estabelecimentos_completo, part_000.estabelecimento_jammers,
    part_000.patch_jammer,
    admin_handler, admin_usuarios, admin_criar_estabelecimento, admin_criar_jammer,
    admin_estabelecimentos, admin_jammers, admin_deletar_estabelecimento,
    admin_deletar_jammer,
    bind, ret, res_json, select, select_with, delete, delete_single, update_single,
    insert_users, insert_estabelecimento, insert_jammers,
    supabase_auth_getUser, supabase_auth_signUp, supabase_auth_signInWithPassword,
    supabase_auth_resetPasswordForEmail,
    supabase_auth_setSession, supabase_auth_updateUser, single, maybeSingle.

Ltac innermost x :=
  lazymatch x with
  | context [match ?y with _ => _ end] => innermost y
  | _ => x
  end.

Ltac case_step :=
  lazymatch goal with
  | |- context [match ?x with _ => _ end] =>
      let y := innermost x in destruct y
  end.

Ltac pick :=
  first [ solve [reflexivity]
        | solve [left; pick]
        | solve [right; pick]
        | solve [eexists; pick]
        | solve [split; pick] ].

Section Effects.
Context `{Supabase}.

Lemma handle_effects (s : Server) (req : Request) (w : World) :
  users_effect (route req) (tbl_users w) (tbl_users (snd (handle s req w))) /\
  estabelecimento_effect (route req) (seq_estabelecimento w)
    (tbl_estabelecimento w) (tbl_estabelecimento (snd (handle s req w))) /\
  jammers_effect (route req) (seq_jammers w)
    (tbl_jammers w) (tbl_jammers (snd (handle s req w))) /\
  (refused (fst (handle s req w)) ->
   same_store (snd (handle s req w)) w /\ auth (snd (handle s req w)) = auth w).
Proof.
  unfold users_effect, estabelecimento_effect, jammers_effect, refused.
  destruct (route req) as [| | | | |userId|userId|id|jammerId|a|] eqn:R.
  7: { destruct s.
       - destruct (API_node_open_routes req w) as [St (D & S1 & S2)];
           [left; eauto|].
         unfold db in D. injection D as U E J. rewrite U, E, J.
         split; [auto|]. split; [auto|]. split; [auto|].
         intros [K|[K|K]]; rewrite St in K; discriminate K.
       - destruct (handle part_000_js req w) as [r w'] eqn:E.
         cbn [fst snd]. revert E. unfold_routes. rewrite R. cbv beta iota zeta.
         repeat (case_step; cbv beta iota zeta).
         all: intros [= <- <-].
         all: split; [pick | split; [pick | split; [pick|]]].
         all: intros [K|[K|K]]; try discriminate K; repeat split. }
  all: destruct (handle s req w) as [r w'] eqn:E; cbn [fst snd]; revert E;
    destruct s; unfold_routes; rewrite R; cbv beta iota zeta.
  all: try destruct a; cbv beta iota zeta.
  all: repeat (case_step; cbv beta iota zeta).
  all: intros [= <- <-].
  all: split; [pick | split; [pick | split; [pick|]]].
  all: intros [K|[K|K]]; try discriminate K; repeat split.
Qed.

End Effects.

(* ===================================================================== *)
(** * The scheme of the header *)
(* ===================================================================== *)

Section Scheme.
Context `{Supabase}.

(** A handler looks at the header through the token it takes out of it,
    and the refactored middleware also through its truth value. *)
Lemma handle_header (s : Server) (req1 req2 : Request) (w : World) :
  route req1 = route req2 ->
  req_body req1 = req_body req2 ->
  API_node.bearer req1 = API_node.bearer req2 ->
  truthy (authorization req1) = truthy (authorization req2) ->
  remove_first (js "Bearer ") (text (authorization req1)) =
    remove_first (js "Bearer ") (text (authorization req2)) ->
  handle s req1 w = handle s req2 w.
Proof.
  intros R B K T Tk.
  destruct s; unfold_routes; cbv beta zeta;
    rewrite R, ?B, ?K, ?T, ?Tk; destruct (route req2) as [| | | | | | | | |a|];
    try reflexivity; destruct a; rewrite ?B; reflexivity.
Qed.

(** On a route that resolves the token first, the first call a request
    adds to the record is [auth.getUser] with the token it presents. *)
Lemma token_goes_to_provider (s : Server) (req : Request) (w : World)
    (token : jstring) :
  checks_token_first s req = true ->
  presented s req = Some token ->
  exists rest,
    calls (snd (handle s req w)) = calls w ++ auth_getUser token :: rest.
Proof.
  intros C P. unfold checks_token_first in C.
  destruct (handle s req w) as [r w'] eqn:E. cbn [fst snd]. revert E.
  destruct s.
  - apply presented_API_node in P as [T <-].
    unfold_routes.
    destruct (route req) as [| | | | |u|u|i|k|a|]; try discriminate C;
      cbv beta iota zeta.
    3: destruct (body.estado_jammer (req_body req)); [|discriminate C].
    all: rewrite T; cbn [negb]; cbv beta iota zeta.
    all: try destruct a; cbv beta iota zeta.
    all: repeat (case_step; cbv beta iota zeta).
    all: intros [= <- <-]; cbn; rewrite <- ?app_assoc; cbn [app];
      eexists; reflexivity.
  - apply presented_part_000 in P as [T <-].
    unfold_routes.
    destruct (route req) as [| | | | |u|u|i|k|a|]; try discriminate C;
      cbv beta iota zeta.
    all: rewrite T; cbn [negb]; cbv beta iota zeta.
    all: try destruct a; cbv beta iota zeta.
    all: repeat (case_step; cbv beta iota zeta).
    all: intros [= <- <-]; cbn; rewrite <- ?app_assoc; cbn [app];
      eexists; reflexivity.
Qed.

(** X1.  The scheme of the [Authorization] header is optional.  For a
    token that is not empty and does not hold ["Bearer "], a request
    that sends it bare is handled exactly as the request that sends it
    behind ["Bearer "]: the same answer, the same world, the same calls.
    On every route that resolves the token first, the first call the
    request adds to the record is [auth.getUser] with that token. *)
Theorem bearer_scheme_is_optional (s : Server) (req : Request) (w : World)
    (t : jstring) :
  t <> [] ->
  ~ occurs (js "Bearer ") t ->
  handle s (with_authorization (Some (js "Bearer " ++ t)) req) w =
    handle s (with_authorization (Some t) req) w /\
  (checks_token_first s req = true ->
   exists rest,
     calls (snd (handle s (with_authorization (Some (js "Bearer " ++ t)) req) w)) =
       calls w ++ auth_getUser t :: rest).
Proof.
  intros Ne No. split.
  - apply handle_header; try reflexivity.
    + unfold API_node.bearer, with_authorization, option_map. cbn [authorization].
      rewrite remove_first_prefix, (remove_first_absent No). reflexivity.
    + cbn [authorization with_authorization]. destruct t; [congruence|reflexivity].
    + cbn [authorization with_authorization text].
      rewrite remove_first_prefix, (remove_first_absent No). reflexivity.
  - intros C. apply token_goes_to_provider; [exact C|].
    destruct s; unfold presented, API_node.bearer, with_authorization, option_map;
      cbn [authorization text].
    + rewrite remove_first_prefix. destruct t; [congruence|reflexivity].
    + rewrite remove_first_prefix. reflexivity.
Qed.

End Scheme.

(* ===================================================================== *)
(** * Signing in *)
(* ===================================================================== *)

Section Login.
Context `{Supabase}.

Lemma app_login (s : Server) (req : Request) :
  route req = POST_login -> app s req = login req.
Proof.
  intros R. destruct s; simpl; unfold API_node.app, part_000.app;
    rewrite R; reflexivity.
Qed.

(** X25.  [POST /login] on either server.  Without an email or without a
    password that is truthy the answer is 400 "E-mail e senha são
    obrigatórios." and no collaborator is called.  Otherwise the email
    and the password go to [auth.signInWithPassword] as they are, with
    no test of the password's length.  Whatever error the provider
    reports, the answer is 400 "E-mail ou senha incorretos." and no
    table is read.  When it reports none, [users] is read once and the
    answer is 200 with the provider's session and user, joined by the
    [user_name] and [is_admin] of the user's record when exactly one row
    has the user's id, and by nothing otherwise.  No table and no
    sequence changes in any case. *)
Theorem login_contract (s : Server) (req : Request) (w : World) :
  route req = POST_login ->
  let email := text (body.email (req_body req)) in
  let password := value (body.password (req_body req)) in
  let asked := called (auth_signInWithPassword email password) w in
  (truthy (body.email (req_body req)) &&
   truthy_value (body.password (req_body req)) = false ->
   handle s req w =
     ({| status := 400; json := JError (Lit "E-mail e senha são obrigatórios.") |},
      w)) /\
  (truthy (body.email (req_body req)) &&
   truthy_value (body.password (req_body req)) = true ->
   (forall e a,
      signInWithPassword (auth w) email password = (inl e, a) ->
      handle s req w =
        ({| status := 400; json := JError (Lit "E-mail ou senha incorretos.") |},
         set_auth a asked)) /\
   (forall session user a,
      signInWithPassword (auth w) email password = (inr (session, user), a) ->
      exists userData,
        handle s req w =
          ({| status := 200;
              json := JLogin (Lit "Login realizado com sucesso.") session user
                        userData |},
           called (from_select T_users) (set_auth a asked)) /\
        (forall u,
           filter (is_user (identity.id user)) (tbl_users w) = [u] ->
           userData = Some (users.user_name u, users.is_admin u)) /\
        (List.length (filter (is_user (identity.id user)) (tbl_users w)) <> 1 ->
         userData = None))) /\
  same_store (snd (handle s req w)) w.
Proof.
  intros R email password asked. subst email password asked.
  unfold handle, finish. rewrite (app_login s req R). unfold login.
  destruct (truthy (body.email (req_body req)));
    destruct (truthy_value (body.password (req_body req))); cbn [negb orb andb].
  2-4: split; [reflexivity|]; split; [discriminate|]; repeat split.
  unfold bind, supabase_auth_signInWithPassword, select, single, res_json.
  split; [discriminate|].
  destruct (signInWithPassword (auth w) (text (body.email (req_body req)))
              (value (body.password (req_body req)))) as [[e|[session user]] a].
  - split; [|repeat split]. intros _. split.
    + intros e0 a0 [= <- <-]. reflexivity.
    + intros session user a0 E. discriminate E.
  - cbn [rows from_users]. fold (is_user (identity.id user)).
    change (tbl_users (set_auth a (called
              (auth_signInWithPassword (text (body.email (req_body req)))
                 (value (body.password (req_body req)))) w)))
      with (tbl_users w).
    split; [|destruct (filter (is_user (identity.id user)) (tbl_users w))
               as [|u [|u' l]]; repeat split].
    intros _. split.
    + intros e a0 E. discriminate E.
    + intros session0 user0 a0 [= <- <- <-].
      destruct (filter (is_user (identity.id user)) (tbl_users w))
        as [|u [|u' l]]; eexists; (split; [reflexivity|]); split;
        try (intros u0 [= <-]; reflexivity);
        try (intros u0 E; discriminate E);
        try reflexivity.
      cbn [List.length]. intros N. exfalso. apply N. reflexivity.
Qed.

End Login.

(* ===================================================================== *)
(** * Invariants of every request *)
(* ===================================================================== *)

Section Invariants.
Context `{Supabase}.

(** X21.  Each table is written by the routes that name it and by no
    other, whatever the request, the world and the server: [users] by
    [POST /signup]; [estabelecimento] by the admin create and delete of
    establishments; [jammers] by [PATCH /jammer], the admin create and
    delete of jammers and the admin delete of an establishment.  So
    every [GET], the login and both password routes leave the three
    tables as they were. *)
Theorem tables_written_by_their_routes (s : Server) (req : Request) (w : World) :
  (writes_users (route req) = false ->
   tbl_users (snd (handle s req w)) = tbl_users w) /\
  (writes_estabelecimento (route req) = false ->
   tbl_estabelecimento (snd (handle s req w)) = tbl_estabelecimento w) /\
  (writes_jammers (route req) = false ->
   tbl_jammers (snd (handle s req w)) = tbl_jammers w).
Proof.
  destruct (handle_effects s req w) as (U & E & J & _).
  split; [|split]; intros W.
  - destruct U as [U|[R _]]; [exact U|]. rewrite R in W. discriminate.
  - destruct E as [E|[[R _]|(id & R & _)]]; [exact E| |];
      rewrite R in W; discriminate.
  - destruct J as [J|[[R _]|[(k & v & R & _)|[(id & R & _)|(id & R & _)]]]];
      [exact J| | | |]; rewrite R in W; discriminate.
Qed.

(** X22.  No request makes an administrator.  After any request to either
    server the rows of [users] with [is_admin] set are the rows of
    before; [users] is the table of before followed by at most one row,
    and that row has [is_admin = false]. *)
Theorem no_route_grants_admin (s : Server) (req : Request) (w : World) :
  filter users.is_admin (tbl_users (snd (handle s req w))) =
    filter users.is_admin (tbl_users w) /\
  exists added,
    tbl_users (snd (handle s req w)) = tbl_users w ++ added /\
    List.length added <= 1 /\
    Forall (fun u => users.is_admin u = false) added.
Proof.
  destruct (handle_effects s req w) as (U & _ & _ & _).
  destruct U as [U|(_ & u & U & A)]; rewrite U.
  - split; [reflexivity|]. exists []. rewrite app_nil_r. repeat split; auto.
  - split.
    + rewrite filter_app. simpl. rewrite A, app_nil_r. reflexivity.
    + exists [u]. repeat split; auto.
Qed.

(** X23.  No request edits an establishment or moves a jammer.  An
    establishment in the table after a request was in it before, the
    same row, or is the one the admin create has just numbered.  A
    jammer in the table after a request has the [id] and the
    [id_estabelecimento] of a jammer of before, and is that very row
    unless the request was the [PATCH] of its id; or it is the one the
    admin create has just numbered. *)
Theorem rows_are_never_edited (s : Server) (req : Request) (w : World) :
  (forall e,
     In e (tbl_estabelecimento (snd (handle s req w))) ->
     In e (tbl_estabelecimento w) \/
     (route req = Admin POST_admin_estabelecimento /\
      estabelecimento.id e = seq_estabelecimento w)) /\
  (forall j,
     In j (tbl_jammers (snd (handle s req w))) ->
     (exists j0,
        In j0 (tbl_jammers w) /\
        jammers.id j = jammers.id j0 /\
        jammers.id_estabelecimento j = jammers.id_estabelecimento j0 /\
        (j = j0 \/ route req = PATCH_jammer (jammers.id j))) \/
     (route req = Admin POST_admin_jammer /\ jammers.id j = seq_jammers w)).
Proof.
  destruct (handle_effects s req w) as (_ & E & J & _). split.
  - intros e I.
    destruct E as [E|[(R & e0 & E & Id)|(id & R & E)]]; rewrite E in I.
    + left; exact I.
    + apply in_app_or in I as [I|[<-|[]]]; auto.
    + apply filter_In in I as [I _]. left; exact I.
  - intros j I.
    destruct J as [J|[(R & j0 & J & Id)|[(k & v & R & J)|[(id & R & J)|(id & R & J)]]]];
      rewrite J in I.
    + left. exists j. auto.
    + apply in_app_or in I as [I|[<-|[]]]; [left; exists j|]; auto.
    + apply in_map_iff in I as (j0 & <- & I). left. exists j0.
      destruct (has_id k j0) eqn:K.
      * simpl. repeat split; auto. right. rewrite R.
        unfold has_id in K. apply N.eqb_eq in K. rewrite K. reflexivity.
      * auto.
    + apply filter_In in I as [I _]. left. exists j. auto.
    + apply filter_In in I as [I _]. left. exists j. auto.
Qed.

(** X24.  A request that is turned away has changed nothing.  When the
    answer of either server is 401, 403 or 404, the three tables, the
    two sequences and the provider's state are what they were. *)
Theorem refused_requests_change_nothing (s : Server) (req : Request) (w : World) :
  refused (fst (handle s req w)) ->
  db (snd (handle s req w)) = db w /\
  seq_estabelecimento (snd (handle s req w)) = seq_estabelecimento w /\
  seq_jammers (snd (handle s req w)) = seq_jammers w /\
  auth (snd (handle s req w)) = auth w.
Proof.
  intros Rf. destruct (handle_effects s req w) as (_ & _ & _ & D).
  destruct (D Rf) as ((Db & S1 & S2) & A). auto.
Qed.

End Invariants.

(* ===================================================================== *)
(** * Create, then switch *)
(* ===================================================================== *)

Section CreateThenSwitch.
Context `{Supabase}.

Lemma filter_none_of_existsb {A : Type} (p : A -> bool) (l : list A) :
  existsb p l = false -> filter p l = [].
Proof.
  induction l as [|x l IH]; simpl; [reflexivity|].
  destruct (p x); simpl; [discriminate | exact IH].
Qed.

(** [POST /admin/jammer] for an establishment that is in the table. *)
Lemma criar_jammer_run (s : Server) (req : Request) (w : World) (token : jstring)
    (id : N) (estab : estabelecimento.row) :
  route req = Admin POST_admin_jammer ->
  is_admin_request s req w token ->
  body.id_estabelecimento (req_body req) = Some id -> id <> 0%N ->
  filter (is_estab id) (tbl_estabelecimento w) = [estab] ->
  existsb (has_id (seq_jammers w)) (tbl_jammers w) = false ->
  handle s req w =
    let created :=
      new_jammer (seq_jammers w) id (body.estado_jammer (req_body req)) in
    ({| status := 201;
        json := JJammerCriado (JammerCriado (estabelecimento.nome estab)) created
                  (embed_users w estab) |},
     set_jammers (tbl_jammers w ++ [created])
       (set_seq_jammers (N.succ (seq_jammers w))
          (called (from_insert T_jammers)
             (called (from_select T_estabelecimento) (admitted token w))))).
Proof.
  intros R Ad B Nz F E.
  rewrite (admin_passes R Ad). simpl admin_handler.
  unfold finish, admin_criar_jammer. rewrite B. unfold falsy_number.
  apply N.eqb_neq in Nz. rewrite Nz. simpl.
  unfold bind, select_with, insert_jammers, single. simpl. fold (is_estab id).
  rewrite F. simpl. fold (has_id (seq_jammers w)). rewrite E. reflexivity.
Qed.

(** X18.  Create, then switch.  The owner of an establishment can switch
    the jammer an administrator has just created for it: the [PATCH]
    answers 200 with the created row in the state asked for, and the
    table is the table of before followed by that row. *)
Theorem created_jammer_can_be_switched (s : Server) (create patch : Request)
    (w : World) (token tenant_token : jstring) (tenant : identity.t) (id : N)
    (estab : estabelecimento.row) (estado : bool) :
  route create = Admin POST_admin_jammer ->
  is_admin_request s create w token ->
  body.id_estabelecimento (req_body create) = Some id -> id <> 0%N ->
  filter (is_estab id) (tbl_estabelecimento w) = [estab] ->
  existsb (has_id (seq_jammers w)) (tbl_jammers w) = false ->
  estabelecimento.user_id estab = identity.id tenant ->
  route patch = PATCH_jammer (seq_jammers w) ->
  body.estado_jammer (req_body patch) = Some estado ->
  presented s patch = Some tenant_token ->
  getUser (auth w) tenant_token = Some tenant ->
  let created :=
    new_jammer (seq_jammers w) id (body.estado_jammer (req_body create)) in
  let w' := snd (handle s patch (snd (handle s create w))) in
  fst (handle s patch (snd (handle s create w))) =
    {| status := 200;
       json := JJammer (Lit "Jammer atualizado com sucesso.")
                 (switched estado created) |} /\
  tbl_jammers w' = tbl_jammers w ++ [switched estado created].
Proof.
  intros R Ad B Nz F E Own R2 B2 P2 G2 created w'. subst w'.
  rewrite (criar_jammer_run R Ad B Nz F E). cbv zeta. fold created. cbn [snd].
  match goal with
  | |- context [handle s patch ?w1] =>
      assert (G3 : getUser (auth w1) tenant_token = Some tenant) by exact G2;
      pose proof (patch_jammer_run s patch w1 R2 B2 P2 G3) as Run;
      set (w1' := w1) in *
  end.
  simpl in Run.
  assert (F1 : filter (has_id (seq_jammers w)) (tbl_jammers w ++ [created])
               = [created]).
  { rewrite filter_app, (filter_none_of_existsb _ _ E). simpl.
    unfold has_id at 1. simpl. rewrite N.eqb_refl. reflexivity. }
  assert (Par : find (parent_of created) (tbl_estabelecimento w) = Some estab)
    by (apply find_of_filter; exact F).
  change (tbl_jammers w1') with (tbl_jammers w ++ [created]) in Run.
  change (tbl_estabelecimento w1') with (tbl_estabelecimento w) in Run.
  rewrite F1, Par, Own, jstring_eqb_refl in Run. rewrite Run. simpl.
  split; [reflexivity|].
  rewrite map_app. simpl. unfold has_id at 2. simpl. rewrite N.eqb_refl.
  f_equal.
  rewrite <- (map_id (tbl_jammers w)) at 2. apply map_ext_in.
  intros j I. destruct (has_id (seq_jammers w) j) eqn:K; [|reflexivity].
  exfalso.
  assert (X : existsb (has_id (seq_jammers w)) (tbl_jammers w) = true)
    by (apply existsb_exists; eauto).
  congruence.
Qed.

End CreateThenSwitch.

(* ===================================================================== *)
(** * The further theorems at work on the example world *)
(* ===================================================================== *)

Lemma occursb_complete (p s : jstring) : occurs p s -> occursb p s = true.
Proof.
  intros (a & b & ->). induction a as [|c a IH]; simpl app.
  - destruct (p ++ b) as [|c s] eqn:E; simpl; rewrite <- E, strip_prefix_app;
      reflexivity.
  - simpl. destruct (strip_prefix p (c :: a ++ p ++ b)); [reflexivity | exact IH].
Qed.

Lemma not_occurs (p s : jstring) : occursb p s = false -> ~ occurs p s.
Proof. intros E O. apply occursb_complete in O. congruence. Qed.

Module MoreWitnesses.
Import Example Sample.

Lemma root_is_admin (s : Server) (r : Route) (b : body.t) :
  is_admin_request (H := double) s (request r (Some "tok-root"%string) b) world
    (js "tok-root").
Proof.
  exists root, (user_row root true). destruct s; repeat split.
Defined.

Lemma bearer_scheme_is_optional_witness :
  handle (H := double) part_000_js
    (header (PATCH_jammer 42) (Some "Bearer tok-bia"%string) (with_estado true))
    world =
  handle (H := double) part_000_js
    (header (PATCH_jammer 42) (Some "tok-bia"%string) (with_estado true)) world /\
  exists rest,
    calls (snd (handle (H := double) API_node_js
                  (header (PATCH_jammer 42) (Some "Bearer tok-bia"%string)
                     (with_estado true)) world)) =
      auth_getUser (js "tok-bia") :: rest.
Proof.
  assert (Ne : js "tok-bia" <> []) by discriminate.
  assert (No : ~ occurs (js "Bearer ") (js "tok-bia"))
    by (apply not_occurs; reflexivity).
  split.
  - exact (proj1 (@bearer_scheme_is_optional double part_000_js
                    (header (PATCH_jammer 42) None (with_estado true)) world
                    (js "tok-bia") Ne No)).
  - exact (proj2 (@bearer_scheme_is_optional double API_node_js
                    (header (PATCH_jammer 42) None (with_estado true)) world
                    (js "tok-bia") Ne No) eq_refl).
Defined.

Lemma unresolved_token_stops_the_request_witness :
  token_rejected
    (fst (handle (H := double) part_000_js
            (request (PATCH_jammer 42) (Some "stale"%string) (with_estado true))
            world)) /\
  db (snd (handle (H := double) part_000_js
             (request (PATCH_jammer 42) (Some "stale"%string) (with_estado true))
             world)) = db world.
Proof.
  pose proof (@unresolved_token_stops_the_request double part_000_js
                (request (PATCH_jammer 42) (Some "stale"%string) (with_estado true))
                world eq_refl) as W.
  destruct W as [_ W]. destruct (W (js "stale") eq_refl eq_refl) as [T E].
  split; [exact T|]. rewrite E. reflexivity.
Defined.

Lemma verify_session_contract_witness :
  fst (handle (H := double) API_node_js
         (request GET_verify_session (Some "tok-bia"%string) body.empty) world) =
    {| status := 200; json := JUser bia |}.
Proof.
  pose proof (@verify_session_contract double API_node_js
                (request GET_verify_session (Some "tok-bia"%string) body.empty)
                world eq_refl) as W.
  destruct W as [W _]. apply W. exists (js "tok-bia"). split; reflexivity.
Defined.



Lemma signup_writes_only_with_201_witness :
  tbl_users (snd (handle (H := double) API_node_js
                    (request POST_signup None (credentials "ana@loja.com" "segredo"))
                    world)) = tbl_users world.
Proof.
  pose proof (@signup_writes_only_with_201 double API_node_js
                (request POST_signup None (credentials "ana@loja.com" "segredo"))
                world eq_refl) as W.
  cbv zeta in W. destruct W as (_ & W & _). apply W. discriminate.
Defined.

Lemma password_length_boundary_witness :
  fst (handle (H := double) API_node_js
         (request POST_signup None (credentials "a@b.com" "short")) world) =
    password_too_short /\
  fst (handle (H := double) part_000_js
         (request POST_signup None (password_body "carla@loja.com" (JsNumber 12345 1)))
         world) <> password_too_short.
Proof.
  split.
  - apply (proj1 (@password_length_boundary double API_node_js
                    (request POST_signup None (credentials "a@b.com" "short")) world)
             eq_refl eq_refl eq_refl eq_refl).
    reflexivity.
  - intros E.
    apply (proj1 (@password_length_boundary double part_000_js
                    (request POST_signup None
                       (password_body "carla@loja.com" (JsNumber 12345 1))) world)
             eq_refl eq_refl eq_refl eq_refl) in E.
    discriminate E.
Defined.

(** Bia signs in with a password of one character; nobody signs in
    without a password. *)
Lemma login_contract_witness :
  fst (handle (H := double) part_000_js
         (request POST_login None (credentials "bia@loja.com" "x")) world) =
    {| status := 200;
       json := JLogin (Lit "Login realizado com sucesso.")
                 (JsObject [(js "access_token", JsString (js "tok-bia"))]) bia
                 (Some (js "bia@loja.com", false)) |} /\
  handle (H := double) part_000_js
    (request POST_login None (email_body "bia@loja.com")) world =
    ({| status := 400; json := JError (Lit "E-mail e senha são obrigatórios.") |},
     world).
Proof.
  split.
  - pose proof (@login_contract double part_000_js
                  (request POST_login None (credentials "bia@loja.com" "x")) world
                  eq_refl) as W.
    cbv zeta in W. destruct W as (_ & W & _).
    destruct (W eq_refl) as [_ W'].
    destruct (W' (JsObject [(js "access_token", JsString (js "tok-bia"))]) bia
                sessions eq_refl) as (userData & E & U & _).
    rewrite E, (U (user_row bia false) eq_refl). reflexivity.
  - pose proof (@login_contract double part_000_js
                  (request POST_login None (email_body "bia@loja.com")) world
                  eq_refl) as W.
    cbv zeta in W. destruct W as (W & _). exact (W eq_refl).
Defined.

Lemma forgot_password_reveals_nothing_witness :
  fst (handle (H := double) part_000_js
         (request POST_forgot_password None (email_body "nobody@nowhere.org")) world) =
  fst (handle (H := double) part_000_js
         (request POST_forgot_password None (email_body "nobody@nowhere.org"))
         (set_users [] world)).
Proof.
  pose proof (@forgot_password_reveals_nothing double part_000_js
                (request POST_forgot_password None (email_body "nobody@nowhere.org"))
                eq_refl) as W.
  destruct W as [W _]. apply W.
Defined.


Lemma own_establishments_listed_witness :
  exists data,
    fst (handle (H := double) part_000_js
           (request (GET_user_estabelecimentos (js "u-bia")) (Some "tok-bia"%string)
              body.empty) world) =
      {| status := 200; json := JEstabelecimentos data (List.length data) |} /\
    Permutation data [loja].
Proof.
  destruct (@own_establishments_listed double part_000_js
              (request (GET_user_estabelecimentos (js "u-bia")) (Some "tok-bia"%string)
                 body.empty) world (js "tok-bia") bia eq_refl eq_refl eq_refl)
    as (data & E & _ & P & _).
  exists data. split; [exact E | exact P].
Defined.

Lemma own_jammers_listed_by_id_witness :
  exists data,
    fst (handle (H := double) part_000_js
           (request (GET_estabelecimento_jammers 7) (Some "tok-bia"%string)
              body.empty) world) =
      {| status := 200; json := JJammers data (List.length data) |} /\
    List.length data = 2.
Proof.
  destruct (@own_jammers_listed_by_id double
              (request (GET_estabelecimento_jammers 7) (Some "tok-bia"%string)
                 body.empty) world 7 (js "tok-bia") bia loja
              eq_refl eq_refl eq_refl eq_refl eq_refl)
    as (data & E & _ & L & _).
  exists data. split; [exact E | exact L].
Defined.

Lemma completo_servers_agree_witness :
  fst (handle (H := double) API_node_js
         (request (GET_user_estabelecimentos_completo (js "u-bia"))
            (Some "tok-bia"%string) body.empty) world) =
    {| status := 200;
       json := JCompleto
                 (map jammers_by_id [with_jammers (tbl_jammers world) loja]) 1 2 |}.
Proof.
  pose proof (@completo_servers_agree double
                (request (GET_user_estabelecimentos_completo (js "u-bia"))
                   (Some "tok-bia"%string) body.empty) world (js "tok-bia") bia
                eq_refl eq_refl eq_refl) as W.
  cbv zeta in W. destruct W as (_ & W & _). rewrite W. reflexivity.
Defined.

Lemma completo_totals_witness :
  exists l n m,
    fst (handle (H := double) part_000_js
           (request (GET_user_estabelecimentos_completo (js "u-bia"))
              (Some "tok-bia"%string) body.empty) world) =
      {| status := 200; json := JCompleto l n m |} /\
    n = List.length l /\ m = List.length (List.concat (map ec_jammers l)).
Proof.
  destruct (@completo_totals double part_000_js
              (request (GET_user_estabelecimentos_completo (js "u-bia"))
                 (Some "tok-bia"%string) body.empty) world (js "tok-bia") bia
              eq_refl eq_refl eq_refl)
    as (l & n & m & E & N & M & _).
  exists l, n, m. auto.
Defined.

Lemma switched_jammer_is_read_back_witness :
  exists data,
    fst (handle (H := double) part_000_js
           (request (GET_estabelecimento_jammers 7) (Some "tok-bia"%string) body.empty)
           (snd (handle (H := double) part_000_js
                   (request (PATCH_jammer 42) (Some "tok-bia"%string)
                      (with_estado true)) world))) =
      {| status := 200; json := JJammers data (List.length data) |} /\
    In (jammer 42 true) data.
Proof.
  destruct (@switched_jammer_is_read_back double part_000_js
              (request (PATCH_jammer 42) (Some "tok-bia"%string) (with_estado true))
              (request (GET_estabelecimento_jammers 7) (Some "tok-bia"%string)
                 body.empty)
              world 42 true (js "tok-bia") bia (jammer 42 false) loja
              eq_refl eq_refl eq_refl eq_refl eq_refl eq_refl eq_refl eq_refl eq_refl)
    as (data & E & I & _).
  exists data. split; [exact E | exact I].
Defined.


Lemma created_establishment_is_listed_witness :
  exists data,
    fst (handle (H := double) part_000_js
           (request (GET_user_estabelecimentos (js "u-ana")) (Some "tok-ana"%string)
              body.empty)
           (snd (handle (H := double) part_000_js
                   (request (Admin POST_admin_estabelecimento)
                      (Some "tok-root"%string)
                      (estabelecimento_body "u-ana" "Filial" "02000-000")) world))) =
      {| status := 200; json := JEstabelecimentos data (List.length data) |} /\
    In (new_estabelecimento 8 (js "u-ana") (js "Filial") (js "02000-000")) data.
Proof.
  assert (Ne : identity.id ana <> []) by discriminate.
  destruct (@created_establishment_is_listed double part_000_js
              (request (Admin POST_admin_estabelecimento) (Some "tok-root"%string)
                 (estabelecimento_body "u-ana" "Filial" "02000-000"))
              (request (GET_user_estabelecimentos (js "u-ana"))
                 (Some "tok-ana"%string) body.empty)
              world (js "tok-root") (js "tok-ana") ana (user_row ana false)
              eq_refl (root_is_admin _ _ _) eq_refl Ne eq_refl eq_refl eq_refl
              eq_refl eq_refl eq_refl eq_refl)
    as (data & E & I & _).
  exists data. split; [exact E | exact I].
Defined.


Lemma admin_deletes_one_jammer_witness :
  tbl_jammers
    (snd (handle (H := double) part_000_js
            (request (Admin (DELETE_admin_jammer 41)) (Some "tok-root"%string)
               body.empty) world)) = [jammer 42 false].
Proof.
  pose proof (@admin_deletes_one_jammer double part_000_js
                (request (Admin (DELETE_admin_jammer 41)) (Some "tok-root"%string)
                   body.empty)
                world 41 (js "tok-root") eq_refl (root_is_admin _ _ _)) as W.
  cbv zeta in W. destruct W as (W & _).
  destruct (W (jammer 41 false) eq_refl) as (_ & T & _). exact T.
Defined.

Lemma admin_listings_are_complete_witness :
  exists l,
    fst (handle (H := double) part_000_js
           (request (Admin GET_admin_usuarios) (Some "tok-root"%string) body.empty)
           world) =
      {| status := 200; json := JUsuarios l 3 |} /\
    Permutation l (tbl_users world).
Proof.
  pose proof (@admin_listings_are_complete double part_000_js
                (request (Admin GET_admin_usuarios) (Some "tok-root"%string)
                   body.empty)
                world (js "tok-root") (root_is_admin _ _ _)) as W.
  destruct W as (W & _). exact (W eq_refl).
Defined.

(** Bia signs in, and the health check. *)
Lemma tables_written_by_their_routes_witness :
  fst (handle (H := double) API_node_js
         (request POST_login None (credentials "bia@loja.com" "segredo")) world) =
    {| status := 200;
       json := JLogin (Lit "Login realizado com sucesso.")
                 (JsObject [(js "access_token", JsString (js "tok-bia"))]) bia
                 (Some (js "bia@loja.com", false)) |} /\
  tbl_users (snd (handle (H := double) API_node_js
                    (request POST_login None (credentials "bia@loja.com" "segredo"))
                    world)) = tbl_users world /\
  fst (handle (H := double) part_000_js (request GET_health None body.empty) world) =
    {| status := 200; json := JHealth "OK" (clock world) |} /\
  tbl_jammers (snd (handle (H := double) part_000_js
                      (request GET_health None body.empty) world)) =
    tbl_jammers world.
Proof.
  split; [reflexivity|]. split; [|split; [reflexivity|]].
  - exact (proj1 (@tables_written_by_their_routes double API_node_js
                    (request POST_login None (credentials "bia@loja.com" "segredo"))
                    world) eq_refl).
  - exact (proj2 (proj2 (@tables_written_by_their_routes double part_000_js
                           (request GET_health None body.empty) world)) eq_refl).
Defined.

Lemma refused_requests_change_nothing_witness :
  db (snd (handle (H := double) API_node_js
             (request (PATCH_jammer 42) (Some "tok-ana"%string) (with_estado true))
             world)) = db world.
Proof.
  assert (R : refused
                (fst (handle (H := double) API_node_js
                        (request (PATCH_jammer 42) (Some "tok-ana"%string)
                           (with_estado true)) world)))
    by (right; left; reflexivity).
  exact (proj1 (@refused_requests_change_nothing double API_node_js
                  (request (PATCH_jammer 42) (Some "tok-ana"%string)
                     (with_estado true)) world R)).
Defined.

Lemma created_jammer_can_be_switched_witness :
  fst (handle (H := double) part_000_js
         (request (PATCH_jammer 43) (Some "tok-bia"%string) (with_estado true))
         (snd (handle (H := double) part_000_js
                 (request (Admin POST_admin_jammer) (Some "tok-root"%string)
                    (jammer_body 7)) world))) =
    {| status := 200;
       json := JJammer (Lit "Jammer atualizado com sucesso.") (jammer 43 true) |}.
Proof.
  assert (Nz : 7%N <> 0%N) by discriminate.
  pose proof (@created_jammer_can_be_switched double part_000_js
                (request (Admin POST_admin_jammer) (Some "tok-root"%string)
                   (jammer_body 7))
                (request (PATCH_jammer 43) (Some "tok-bia"%string) (with_estado true))
                world (js "tok-root") (js "tok-bia") bia 7%N loja true
                eq_refl (root_is_admin _ _ _) eq_refl Nz eq_refl eq_refl eq_refl
                eq_refl eq_refl eq_refl eq_refl) as W.
  cbv zeta in W. destruct W as (W & _). exact W.
Defined.

End MoreWitnesses.
